(** * Thermal heatmap acquisition pipeline (plot.py)

    A shallow embedding of [RobustThermalHeatmap] from [plot.py]: the serial
    framing reader [read_thermal_data], the upsampling step
    [interpolate_thermal_data], the per-tick callback [update] and the
    animation loop started by [start_visualization].

    The Python runtime and the libraries the class calls (pyserial's
    [readline] and [reset_input_buffer], [bytes.decode], [str.strip],
    [str.split], [in], [float], numpy's [reshape], [zeros], [linspace],
    [meshgrid]) are modelled in the first part of the file; the methods of
    the class follow, statement by statement. *)

From Stdlib.Strings Require Import Byte Ascii String.
From Stdlib Require Import List Bool Arith Lia NArith ZArith QArith Qreduction.
Import ListNotations.

Set Implicit Arguments.
Local Close Scope Q_scope.
Local Open Scope nat_scope.
Local Open Scope list_scope.

(** ** Exceptions and fallible results *)

(** The exception classes that occur in the model.  [UnicodeDecodeError] is
    a subclass of [ValueError]; all of them are subclasses of [Exception]
    (interrupts such as [KeyboardInterrupt], which are not, are left out). *)
Inductive exn : Type :=
| ValueError
| UnicodeDecodeError
| SerialException
| TypeError
| MemoryError.

Definition is_ValueError (e : exn) : bool :=
  match e with ValueError | UnicodeDecodeError => true | _ => false end.

Definition is_SerialException (e : exn) : bool :=
  match e with SerialException => true | _ => false end.

Definition is_Exception (e : exn) : bool :=
  match e with
  | ValueError | UnicodeDecodeError | SerialException
  | TypeError | MemoryError => true
  end.

Inductive result (A : Type) : Type :=
| Ok (a : A)
| Raise (e : exn).
Arguments Ok {A} a.
Arguments Raise {A} e.

Definition rbind {A B} (r : result A) (k : A -> result B) : result B :=
  match r with Ok a => k a | Raise e => Raise e end.

(** [[f(x) for x in xs]]: the comprehension stops at the first element on
    which [f] raises. *)
Fixpoint comprehension {A B} (f : A -> result B) (xs : list A) : result (list B) :=
  match xs with
  | [] => Ok []
  | x :: xs' =>
      match f x with
      | Raise e => Raise e
      | Ok y => match comprehension f xs' with
                | Raise e => Raise e
                | Ok ys => Ok (y :: ys)
                end
      end
  end.

(** ** Python text: [bytes], [str] and the string builtins *)

Definition bytes := list byte.

(** A [str] is a sequence of Unicode code points. *)
Definition str := list N.

Definition LF : byte := x0a.

Definition str_of_string (s : string) : str :=
  map Byte.to_N (list_byte_of_string s).

Definition is_continuation (n : N) : bool := (128 <=? n)%N && (n <=? 191)%N.

Definition in_range (lo hi n : N) : bool := (lo <=? n)%N && (n <=? hi)%N.

(** [bytes.decode('utf-8')] with the default strict error handling: ill-formed
    sequences (stray continuation bytes, overlong forms, surrogates, code
    points above U+10FFFF, truncated sequences) raise [UnicodeDecodeError]. *)
Fixpoint decode_utf8 (bs : bytes) : result str :=
  match bs with
  | [] => Ok []
  | b0 :: r0 =>
      let n0 := Byte.to_N b0 in
      if (n0 <? 128)%N then
        rbind (decode_utf8 r0) (fun s => Ok (n0 :: s))
      else if in_range 194 223 n0 then
        match r0 with
        | b1 :: r1 =>
            let n1 := Byte.to_N b1 in
            if is_continuation n1 then
              rbind (decode_utf8 r1)
                    (fun s => Ok (((n0 - 192) * 64 + (n1 - 128))%N :: s))
            else Raise UnicodeDecodeError
        | [] => Raise UnicodeDecodeError
        end
      else if in_range 224 239 n0 then
        match r0 with
        | b1 :: b2 :: r2 =>
            let n1 := Byte.to_N b1 in
            let n2 := Byte.to_N b2 in
            let lo := if (n0 =? 224)%N then 160%N else 128%N in
            let hi := if (n0 =? 237)%N then 159%N else 191%N in
            if in_range lo hi n1 && is_continuation n2 then
              rbind (decode_utf8 r2)
                    (fun s => Ok (((n0 - 224) * 4096 + (n1 - 128) * 64
                                   + (n2 - 128))%N :: s))
            else Raise UnicodeDecodeError
        | _ => Raise UnicodeDecodeError
        end
      else if in_range 240 244 n0 then
        match r0 with
        | b1 :: b2 :: b3 :: r3 =>
            let n1 := Byte.to_N b1 in
            let n2 := Byte.to_N b2 in
            let n3 := Byte.to_N b3 in
            let lo := if (n0 =? 240)%N then 144%N else 128%N in
            let hi := if (n0 =? 244)%N then 143%N else 191%N in
            if in_range lo hi n1 && is_continuation n2 && is_continuation n3 then
              rbind (decode_utf8 r3)
                    (fun s => Ok (((n0 - 240) * 262144 + (n1 - 128) * 4096
                                   + (n2 - 128) * 64 + (n3 - 128))%N :: s))
            else Raise UnicodeDecodeError
        | _ => Raise UnicodeDecodeError
        end
      else Raise UnicodeDecodeError
  end.

(** [str.isspace] on one code point: the characters [strip] and [split]
    treat as whitespace. *)
Definition isspace (c : N) : bool :=
  in_range 9 13 c || in_range 28 32 c || (c =? 133)%N || (c =? 160)%N
  || (c =? 5760)%N || in_range 8192 8202 c || (c =? 8232)%N || (c =? 8233)%N
  || (c =? 8239)%N || (c =? 8287)%N || (c =? 12288)%N.

Fixpoint lstrip (s : str) : str :=
  match s with
  | c :: r => if isspace c then lstrip r else s
  | [] => []
  end.

Definition rstrip (s : str) : str := rev (lstrip (rev s)).

(** [s.strip()] *)
Definition strip (s : str) : str := rstrip (lstrip s).

(** [s.split()]: maximal runs of non-whitespace characters.  [cur] is the
    token being accumulated. *)
Fixpoint split_from (cur : str) (s : str) : list str :=
  match s with
  | [] => match cur with [] => [] | _ => [cur] end
  | c :: r =>
      if isspace c then
        match cur with
        | [] => split_from [] r
        | _ => cur :: split_from [] r
        end
      else split_from (cur ++ [c]) r
  end.

Definition split (s : str) : list str := split_from [] s.

Fixpoint startswith (p s : str) : bool :=
  match p, s with
  | [], _ => true
  | a :: p', b :: s' => (a =? b)%N && startswith p' s'
  | _ :: _, [] => false
  end.

(** [p in s] for strings: [p] occurs in [s] as a contiguous substring. *)
Fixpoint contains (p s : str) : bool :=
  startswith p s ||
  match s with
  | [] => false
  | _ :: s' => contains p s'
  end.

Fixpoint str_eqb (a b : str) : bool :=
  match a, b with
  | [], [] => true
  | x :: a', y :: b' => (x =? y)%N && str_eqb a' b'
  | _, _ => false
  end.

(** ** Python's [float(str)] *)

(** The value of a float.  A finite value is kept as the exact rational its
    literal denotes: rounding to binary64, overflow to infinity and
    underflow to zero are not modelled (no statement below depends on
    them).  Minus zero, which [float] gives for a zero literal with a minus
    sign, is kept apart from zero. *)
Inductive pyfloat : Type :=
| Finite (q : Q)
| NegativeZero
| Infinity (negative : bool)
| NaN.

Definition zero : pyfloat := Finite 0.

Definition isdigit (c : N) : bool := in_range 48 57 c.

Definition lower (c : N) : N := if in_range 65 90 c then (c + 32)%N else c.

Fixpoint span_digits (s : str) : str * str :=
  match s with
  | c :: r =>
      if isdigit c then let (d, t) := span_digits r in (c :: d, t)
      else ([], s)
  | [] => ([], [])
  end.

Definition digits_value (ds : str) : N :=
  fold_left (fun acc c => (acc * 10 + (c - 48))%N) ds 0%N.

(** Underscores are allowed only between two digits; they are dropped before
    the literal is read.  [prev] is the previous character (NUL at the
    start). *)
Fixpoint remove_underscores (prev : N) (s : str) : option str :=
  match s with
  | [] => if (prev =? 95)%N then None else Some []
  | c :: r =>
      if (c =? 95)%N then
        if isdigit prev then remove_underscores c r else None
      else if (prev =? 95)%N && negb (isdigit c) then None
      else option_map (cons c) (remove_underscores c r)
  end.

Definition take_sign (s : str) : bool * str :=
  match s with
  | c :: r => if (c =? 43)%N then (false, r)
              else if (c =? 45)%N then (true, r)
              else (false, s)
  | [] => (false, [])
  end.

(** [m * 10 ^ e], signed and in lowest terms. *)
Definition decimal (negative : bool) (m : N) (e : Z) : Q :=
  let q := if (0 <=? e)%Z
           then Qmake (Z.of_N m * 10 ^ e) 1
           else Qmake (Z.of_N m) (Z.to_pos (10 ^ (- e))) in
  Qred (if negative then Qopp q else q).

(** The value of the literal [m * 10 ^ e] with its sign. *)
Definition finite (negative : bool) (m : N) (e : Z) : pyfloat :=
  if negative && (m =? 0)%N then NegativeZero
  else Finite (decimal negative m e).

(** The literal grammar: an optional sign, then [inf], [infinity] or [nan] in
    any letter case, or digits with an optional fraction (at least one digit
    in all) and an optional exponent with at least one digit.  Digits are the
    ASCII digits; other Unicode decimal digits are outside the model. *)
Definition parse_float (t : str) : result pyfloat :=
  let (negative, u) := take_sign t in
  let lu := map lower u in
  if str_eqb lu (str_of_string "inf") || str_eqb lu (str_of_string "infinity")
  then Ok (Infinity negative)
  else if str_eqb lu (str_of_string "nan") then Ok NaN
  else
    let (ip, r1) := span_digits u in
    let (fp, r2) := match r1 with
                    | c :: r => if (c =? 46)%N then span_digits r else ([], r1)
                    | [] => ([], [])
                    end in
    match ip ++ fp with
    | [] => Raise ValueError
    | _ :: _ =>
        let m := digits_value (ip ++ fp) in
        let scale := Z.of_nat (length fp) in
        match r2 with
        | [] => Ok (finite negative m (- scale))
        | c :: r3 =>
            if (c =? 101)%N || (c =? 69)%N then
              let (eneg, r4) := take_sign r3 in
              let (ed, r5) := span_digits r4 in
              match ed, r5 with
              | _ :: _, [] =>
                  let ex := Z.of_N (digits_value ed) in
                  Ok (finite negative m
                              ((if eneg then - ex else ex) - scale))
              | _, _ => Raise ValueError
              end
            else Raise ValueError
        end
    end.

(** [float(s)]: surrounding whitespace is ignored; anything that is not a
    float literal raises [ValueError].  The literal is read over ASCII: the
    decimal digits of other scripts, which [float] takes as well, are not
    modelled and are rejected here. *)
Definition py_float (s : str) : result pyfloat :=
  match remove_underscores 0 (strip s) with
  | None => Raise ValueError
  | Some t => parse_float t
  end.

(** ** numpy arrays as row lists *)

Definition grid (A : Type) := list (list A).

Fixpoint chunks {A} (rows cols : nat) (xs : list A) : grid A :=
  match rows with
  | O => []
  | S r => firstn cols xs :: chunks r cols (skipn cols xs)
  end.

(** [np.array(xs).reshape(rows, cols)] for [len(xs) = rows * cols] (the only
    use in the class): consecutive runs of [cols] elements, row-major. *)
Definition reshape {A} (rows cols : nat) (xs : list A) : grid A :=
  chunks rows cols xs.

(** [np.zeros((rows, cols))] *)
Definition zeros (rows cols : nat) : grid pyfloat :=
  repeat (repeat zero cols) rows.

(** [a.ravel()] *)
Definition ravel {A} (g : grid A) : list A := concat g.

Definition has_shape {A} (rows cols : nat) (g : grid A) : Prop :=
  length g = rows /\ Forall (fun row => length row = cols) g.

(** ** The serial port (pyserial, opened with [timeout=2]) *)

(** What the line does while the program waits in a read: a burst of bytes
    reaches the input buffer; nothing arrives for the length of the read
    timeout; or the read fails.  When the list of events is used up the line
    stays silent for good. *)
Inductive event : Type :=
| Recv (bs : bytes)
| Quiet
| Fault.

Record Serial : Type := {
  in_buffer : bytes;      (* received, not yet read *)
  wire : list event       (* still to come *)
}.

(** [ser.reset_input_buffer()]: drop what has been received and not read.
    The port stays open from [__init__] on.  A failure of the call itself
    (on a POSIX port whose device is gone [tcflush] raises [termios.error])
    is not modelled. *)
Definition reset_input_buffer (p : Serial) : Serial :=
  {| in_buffer := []; wire := wire p |}.

(** The bytes of [bs] up to and including the first newline, and what follows
    it ([None] when [bs] has no newline). *)
Fixpoint break_line (bs : bytes) : bytes * option bytes :=
  match bs with
  | [] => ([], None)
  | b :: r =>
      if Byte.eqb b LF then ([b], Some r)
      else let (l, rest) := break_line r in (b :: l, rest)
  end.

(** Reading on from the wire with [acc] already taken from the buffer.  A
    timeout hands back what was read so far (possibly nothing); it does not
    raise. *)
Fixpoint read_wire (acc : bytes) (w : list event) : result bytes * Serial :=
  match w with
  | [] => (Ok acc, {| in_buffer := []; wire := [] |})
  | Quiet :: w' => (Ok acc, {| in_buffer := []; wire := w' |})
  | Fault :: w' => (Raise SerialException, {| in_buffer := []; wire := w' |})
  | Recv bs :: w' =>
      match break_line bs with
      | (l, Some rest) => (Ok (acc ++ l), {| in_buffer := rest; wire := w' |})
      | (l, None) => read_wire (acc ++ l) w'
      end
  end.

(** [ser.readline()] *)
Definition readline (p : Serial) : result bytes * Serial :=
  match break_line (in_buffer p) with
  | (l, Some rest) => (Ok l, {| in_buffer := rest; wire := wire p |})
  | (l, None) => read_wire l (wire p)
  end.

(** ** The object and its methods *)

(** Program points of [read_thermal_data], recorded as the call runs:
    [SEARCHING_MARKER] after the buffer reset that opens an attempt,
    [READING_ROWS] once the marker line was seen, [VALIDATING] once the eight
    lines are in, [SUCCESS] at the [return] of a frame, [RETRY] when an
    attempt ends without one. *)
Inductive phase : Type :=
| SEARCHING_MARKER
| READING_ROWS
| VALIDATING
| SUCCESS
| RETRY.

Inductive artist : Type :=
| HeatmapOriginal
| HeatmapInterpolated.

(** The state of a [RobustThermalHeatmap] instance: the port, the arrays held
    by the two images, and (ghost) the program points passed so far. *)
Record RobustThermalHeatmap : Type := {
  ser : Serial;
  heatmap_original : grid pyfloat;
  heatmap_interpolated : grid pyfloat;
  protocol_trace : list phase
}.

Definition with_ser (p : Serial) (self : RobustThermalHeatmap) :=
  {| ser := p;
     heatmap_original := heatmap_original self;
     heatmap_interpolated := heatmap_interpolated self;
     protocol_trace := protocol_trace self |}.

Definition with_phase (ph : phase) (self : RobustThermalHeatmap) :=
  {| ser := ser self;
     heatmap_original := heatmap_original self;
     heatmap_interpolated := heatmap_interpolated self;
     protocol_trace := protocol_trace self ++ [ph] |}.

Definition with_array (a : artist) (A : grid pyfloat) (self : RobustThermalHeatmap) :=
  {| ser := ser self;
     heatmap_original :=
       match a with HeatmapOriginal => A | _ => heatmap_original self end;
     heatmap_interpolated :=
       match a with HeatmapInterpolated => A | _ => heatmap_interpolated self end;
     protocol_trace := protocol_trace self |}.

(** A method body: from the state of the object to [None] when the loop
    budget [fuel] runs out, or to a value or a raised exception together with
    the state reached. *)
Definition M (A : Type) : Type :=
  RobustThermalHeatmap -> option (result A * RobustThermalHeatmap).

Definition ret {A} (a : A) : M A := fun self => Some (Ok a, self).

Definition bind {A B} (c : M A) (k : A -> M B) : M B :=
  fun self =>
    match c self with
    | None => None
    | Some (Raise e, self') => Some (Raise e, self')
    | Some (Ok a, self') => k a self'
    end.

Definition lift {A} (r : result A) : M A := fun self => Some (r, self).

(** [try: body except <classes>: handler] *)
Definition try_except {A} (body : M A) (classes : exn -> bool)
           (handler : exn -> M A) : M A :=
  fun self =>
    match body self with
    | Some (Raise e, self') =>
        if classes e then handler e self' else Some (Raise e, self')
    | other => other
    end.

Declare Scope py_scope.
Delimit Scope py_scope with py.
Notation "x <- c ;; k" := (bind c (fun x => k))
  (at level 61, c at next level, right associativity) : py_scope.
Notation "c ;; k" := (bind c (fun _ => k))
  (at level 61, right associativity) : py_scope.
Local Open Scope py_scope.

Definition ser_reset_input_buffer : M unit :=
  fun self => Some (Ok tt, with_ser (reset_input_buffer (ser self)) self).

Definition ser_readline : M bytes :=
  fun self => let (r, p) := readline (ser self) in Some (r, with_ser p self).

Definition enter (ph : phase) : M unit :=
  fun self => Some (Ok tt, with_phase ph self).

Definition marker : str := str_of_string "Thermal data:".

Definition max_attempts : nat := 10.

(** [line = self.ser.readline().decode('utf-8').strip()] *)
Definition read_stripped_line : M str :=
  raw <- ser_readline ;;
  text <- lift (decode_utf8 raw) ;;
  ret (strip text).

(** [while True: line = ...; if 'Thermal data:' in line: break], run for at
    most [fuel] iterations. *)
Fixpoint wait_for_marker (fuel : nat) : M unit :=
  match fuel with
  | O => fun _ => None
  | S fuel' =>
      line <- read_stripped_line ;;
      if contains marker line then ret tt else wait_for_marker fuel'
  end.

(** [for _ in range(n): line = ...; data_lines.append(line.split())] *)
Fixpoint read_data_lines (n : nat) : M (list (list str)) :=
  match n with
  | O => ret []
  | S n' =>
      line <- read_stripped_line ;;
      rest <- read_data_lines n' ;;
      ret (split line :: rest)
  end.

(** The first half of the [try] body: clear the buffer, wait for the marker,
    read the next eight lines. *)
Definition read_payload (fuel : nat) : M (list (list str)) :=
  ser_reset_input_buffer ;;
  enter SEARCHING_MARKER ;;
  wait_for_marker fuel ;;
  enter READING_ROWS ;;
  read_data_lines 8.

(** The second half: flatten, convert, and return the frame when there are
    64 pixels.  [Some frame] stands for [return frame], [None] for reaching
    the end of the [try] body without returning. *)
Definition convert_payload (data_lines : list (list str))
  : M (option (grid pyfloat)) :=
  enter VALIDATING ;;
  pixels <- lift (comprehension py_float (concat data_lines)) ;;
  if length pixels =? 64
  then enter SUCCESS ;; ret (Some (reshape 8 8 pixels))
  else ret None.

(** The body of the [try] in [read_thermal_data]. *)
Definition attempt_body (fuel : nat) : M (option (grid pyfloat)) :=
  data_lines <- read_payload fuel ;;
  convert_payload data_lines.

(** [except (ValueError, serial.SerialException)] *)
Definition reader_catches (e : exn) : bool :=
  is_ValueError e || is_SerialException e.

(** One iteration of [for attempt in range(max_attempts)]: the handler
    prints and continues. *)
Definition one_attempt (fuel : nat) : M (option (grid pyfloat)) :=
  try_except (attempt_body fuel) reader_catches (fun _ => ret None).

(** The [for] loop with [remaining] iterations to go, and the fallback after
    it. *)
Fixpoint attempts (fuel : nat) (remaining : nat) : M (grid pyfloat) :=
  match remaining with
  | O => ret (zeros 8 8)
  | S remaining' =>
      r <- one_attempt fuel ;;
      match r with
      | Some frame => ret frame
      | None => enter RETRY ;; attempts fuel remaining'
      end
  end.

Definition read_thermal_data (fuel : nat) : M (grid pyfloat) :=
  attempts fuel max_attempts.

(** [np.linspace(start, stop, num)] for [num >= 2], with exact rationals for
    the coordinates. *)
Definition linspace (start stop : Q) (num : nat) : list Q :=
  let step := ((stop - start) / inject_Z (Z.of_nat (num - 1)))%Q in
  map (fun i => Qred (start + inject_Z (Z.of_nat i) * step)%Q) (seq 0 num).

(** [np.meshgrid(x, y)]: both arrays have [len(y)] rows and [len(x)]
    columns. *)
Definition meshgrid {A} (x y : list A) : grid A * grid A :=
  (map (fun _ => x) y, map (fun yj => map (fun _ => yj) x) y).

Inductive method : Type := linear | nearest | cubic.

(** The type of [scipy.interpolate.griddata(points, values, xi, method)]. *)
Definition griddata_t : Type :=
  list Q * list Q -> list pyfloat -> grid Q * grid Q -> method ->
  result (grid pyfloat).

(** What [AxesImage.set_array] may object to: [Some e] when the call raises
    [e] for that image and array. *)
Definition image_error_t : Type := artist -> grid pyfloat -> option exn.

Section Pipeline.

Variable griddata : griddata_t.
Variable image_error : image_error_t.

Definition interpolate_thermal_data (thermal_data : grid pyfloat)
  : grid pyfloat :=
  let x := linspace 0 7 8 in
  let y := linspace 0 7 8 in
  let (X, Y) := meshgrid x y in
  let xi := linspace 0 7 80 in
  let yi := linspace 0 7 80 in
  let (Xi, Yi) := meshgrid xi yi in
  match griddata (ravel X, ravel Y) (ravel thermal_data) (Xi, Yi) cubic with
  | Ok interpolated_data => interpolated_data
  | Raise _ => zeros 80 80      (* except Exception *)
  end.

(** [image.set_array(A)]: the image keeps [A] unless the call raises. *)
Definition set_array (a : artist) (A : grid pyfloat) : M unit :=
  fun self =>
    match image_error a A with
    | Some e => Some (Raise e, self)
    | None => Some (Ok tt, with_array a A self)
    end.

(** The animation callback: the artists to redraw. *)
Definition update (fuel : nat) (frame : nat) : M (list artist) :=
  try_except
    (current_frame <- read_thermal_data fuel ;;
     set_array HeatmapOriginal current_frame ;;
     let interpolated_frame := interpolate_thermal_data current_frame in
     set_array HeatmapInterpolated interpolated_frame ;;
     ret [HeatmapOriginal; HeatmapInterpolated])
    is_Exception
    (fun _ => ret []).

(** [FuncAnimation(fig, update, frames=num_frames, ...)]: one pass over the
    frame numbers, the callback run once for each, in order; an exception
    leaving the callback ends the run.  The result lists what each tick
    asked to redraw.  The call matplotlib makes with the first frame to set
    up the drawing (no [init_func] is given) and the restart of the sequence
    ([repeat] is left at its default) are not modelled. *)
Fixpoint animate (fuel : nat) (frames : list nat) : M (list (list artist)) :=
  match frames with
  | [] => ret []
  | frame :: frames' =>
      drawn <- update fuel frame ;;
      rest <- animate fuel frames' ;;
      ret (drawn :: rest)
  end.

Definition start_visualization (fuel : nat) (num_frames : nat) : M unit :=
  try_except
    (animate fuel (seq 0 num_frames) ;; ret tt)
    is_Exception
    (fun _ => ret tt).

End Pipeline.

(** * Vocabulary of the statements *)

(** [c] raises nothing but exceptions satisfying [P]. *)
Definition raises_only {A} (P : exn -> Prop) (c : M A) : Prop :=
  forall self e self1, c self = Some (Raise e, self1) -> P e.

Definition caught (e : exn) : Prop := reader_catches e = true.

(** The object reduced to its port: no image data, no history. *)
Definition bare (p : Serial) : RobustThermalHeatmap :=
  {| ser := p;
     heatmap_original := [];
     heatmap_interpolated := [];
     protocol_trace := [] |}.

(** The state [s] reached from [bare (ser self)], carried over to [self]:
    the port of [s], the images of [self], the history of [self] followed by
    that of [s]. *)
Definition graft (self s : RobustThermalHeatmap) : RobustThermalHeatmap :=
  {| ser := ser s;
     heatmap_original := heatmap_original self;
     heatmap_interpolated := heatmap_interpolated self;
     protocol_trace := protocol_trace self ++ protocol_trace s |}.

Definition grafted {A} (self : RobustThermalHeatmap)
           (out : option (result A * RobustThermalHeatmap))
  : option (result A * RobustThermalHeatmap) :=
  match out with
  | Some (r, s) => Some (r, graft self s)
  | None => None
  end.

(** [c] uses nothing of the object but its port, leaves the images alone
    and only adds to the history. *)
Definition port_only {A} (c : M A) : Prop :=
  forall self, c self = grafted self (c (bare (ser self))).

(** What a call of [read_thermal_data] does on a line with the deliveries
    [w] to come: the value returned, the program points passed, the port as
    it is left. *)
Definition acquisition (fuel : nat) (w : list event)
  : option (result (grid pyfloat) * list phase * Serial) :=
  match read_thermal_data fuel (bare {| in_buffer := []; wire := w |}) with
  | Some (r, s) => Some (r, protocol_trace s, ser s)
  | None => None
  end.

(** ** Concrete streams and objects *)

(** A line of text as it travels on the wire, newline included. *)
Definition line (s : string) : bytes := list_byte_of_string s ++ [LF].

(** One burst per line. *)
Definition line_by_line (ls : list string) : list event :=
  map (fun s => Recv (line s)) ls.

(** The object as [__init__] leaves it, on the port [p]. *)
Definition opened (p : Serial) : RobustThermalHeatmap :=
  {| ser := p;
     heatmap_original := zeros 8 8;
     heatmap_interpolated := zeros 80 80;
     protocol_trace := [] |}.

Definition listening (w : list event) : RobustThermalHeatmap :=
  opened {| in_buffer := []; wire := w |}.

(** A line that stays silent. *)
Definition silent_line : list event := [].

(** A read fault, then silence. *)
Definition faulty_line : list event := [Fault].

(** The bytes a wire delivers, pauses and faults left out. *)
Definition wire_bytes (w : list event) : bytes :=
  flat_map (fun ev => match ev with Recv bs => bs | _ => [] end) w.

Definition frame_lines (row : string) : list string :=
  "Thermal data:"%string :: repeat row 8.

Definition frame_1_to_8 : grid pyfloat :=
  repeat (map (fun n => Finite (inject_Z n)) [1; 2; 3; 4; 5; 6; 7; 8]%Z) 8.

Definition frame_of_nines : grid pyfloat := repeat (repeat (Finite 9) 8) 8.

Definition frame_of_fives : grid pyfloat := repeat (repeat (Finite 5) 8) 8.

Definition two_frames : list string :=
  frame_lines "1 2 3 4 5 6 7 8" ++ frame_lines "9 9 9 9 9 9 9 9".

(** Two frames, a burst per line, no pause. *)
Definition steady_delivery : list event := line_by_line two_frames.

(** The same bytes, with the line silent for the length of a read timeout in
    the middle of the first row. *)
Definition halting_delivery : list event :=
  Recv (line "Thermal data:")
  :: Recv (list_byte_of_string "1 2 3 4")
  :: Quiet
  :: Recv (line " 5 6 7 8")
  :: line_by_line (repeat "1 2 3 4 5 6 7 8"%string 7
                   ++ frame_lines "9 9 9 9 9 9 9 9").

(** All that is still to be read: the buffer, then the bytes still on the
    wire. *)
Definition pending (p : Serial) : bytes := in_buffer p ++ wire_bytes (wire p).

(** A wire without pause or fault. *)
Definition steady (w : list event) : bool :=
  forallb (fun ev => match ev with Recv _ => true | _ => false end) w.

(** A wire without fault. *)
Definition faultless (w : list event) : bool :=
  forallb (fun ev => match ev with Fault => false | _ => true end) w.

Definition no_newline (bs : bytes) : bool :=
  forallb (fun b => negb (Byte.eqb b LF)) bs.

Definition byte_values (bs : bytes) : str := map Byte.to_N bs.

Definition ascii_only (bs : bytes) : bool :=
  forallb (fun b => (Byte.to_N b <? 128)%N) bs.

(** The byte stream holds the marker nowhere. *)
Definition marker_free (bs : bytes) : bool :=
  negb (contains marker (byte_values bs)).

(** Lines put on the wire one after the other, each closed by a newline. *)
Definition stream_of (ls : list bytes) : bytes :=
  concat (map (fun l => l ++ [LF]) ls).

(** The text the reader makes of a raw line: decoded, then stripped. *)
Definition line_text (raw : bytes) : result str :=
  rbind (decode_utf8 raw) (fun text => Ok (strip text)).

(** The tokens of each of the raw lines [rows]. *)
Definition payload_tokens (rows : list bytes) : result (list (list str)) :=
  comprehension (fun raw => rbind (line_text (raw ++ [LF]))
                                  (fun text => Ok (split text))) rows.

(** The values of all tokens of [rows], in reading order. *)
Definition payload_values (rows : list bytes) : result (list pyfloat) :=
  rbind (payload_tokens rows)
        (fun data_lines => comprehension py_float (concat data_lines)).

(** Scenario A: a marker line, then eight rows [1 2 3 4 5 6 7 8]. *)
Definition scenario_A_rows : list bytes :=
  map list_byte_of_string (repeat "1 2 3 4 5 6 7 8"%string 8).

Definition scenario_A_stream : bytes :=
  stream_of (list_byte_of_string "Thermal data:" :: scenario_A_rows).

(** The bytes of Scenario A with the line silent for the length of a read
    timeout in the middle of the first row; then silence. *)
Definition paused_A : list event :=
  Recv (line "Thermal data:")
  :: Recv (list_byte_of_string "1 2 3 4")
  :: Quiet
  :: Recv (line " 5 6 7 8")
  :: line_by_line (repeat "1 2 3 4 5 6 7 8"%string 7).

(** The bytes of Scenario A with a fault of the port after the marker
    line; then silence. *)
Definition faulted_A : list event :=
  Recv (line "Thermal data:")
  :: Fault
  :: line_by_line (repeat "1 2 3 4 5 6 7 8"%string 8).

(** Scenario A received in full before the call; then silence. *)
Definition buffered_A : Serial :=
  {| in_buffer := scenario_A_stream; wire := [] |}.

(** [n] attempts in a row, each ending without a frame, lead from [self] to
    [self'] (the [RETRY] point passed after each one included). *)
Inductive failed_attempts (fuel : nat)
  : nat -> RobustThermalHeatmap -> RobustThermalHeatmap -> Prop :=
| failed_none self : failed_attempts fuel 0 self self
| failed_next n self self1 self2 :
    one_attempt fuel self = Some (Ok None, self1) ->
    failed_attempts fuel n (with_phase RETRY self1) self2 ->
    failed_attempts fuel (S n) self self2.

(** Ten frames whose rows hold seven numbers each: 56 tokens a frame. *)
Definition short_frames : list event :=
  concat (repeat (line_by_line (frame_lines "1 2 3 4 5 6 7")) 10).

(** The two ways a line read can fail. *)
Definition line_error (e : exn) : Prop :=
  e = UnicodeDecodeError \/ e = SerialException.

(** Lines without the marker, then silence. *)
Definition chatter : list event :=
  line_by_line ["boot ok"; "sensor ready"; "21.5 22.0"]%string.

(** The object at the start of a marker search: buffer dropped,
    [SEARCHING_MARKER] recorded. *)
Definition searching (self : RobustThermalHeatmap) : RobustThermalHeatmap :=
  with_phase SEARCHING_MARKER (with_ser (reset_input_buffer (ser self)) self).

(** The letters of [inf], [infinity], [nan] and of the exponent mark. *)
Definition float_letter (c : N) : bool :=
  existsb (N.eqb c) [97; 101; 102; 105; 110; 116; 121]%N.

(** The characters that can occur in an argument [float] accepts. *)
Definition float_char (c : N) : bool :=
  isspace c || isdigit c || (c =? 43)%N || (c =? 45)%N || (c =? 46)%N
  || (c =? 95)%N || float_letter (lower c).

(** Scenario B: a marker, seven rows, a second marker and its full payload
    of nines; then silence. *)
Definition scenario_B_rows : list bytes :=
  map list_byte_of_string (repeat "1 2 3 4 5 6 7 8"%string 7).

Definition scenario_B_rest : bytes :=
  stream_of (map list_byte_of_string (repeat "9 9 9 9 9 9 9 9"%string 8)).

Definition scenario_B : list event :=
  line_by_line ("Thermal data:"%string :: repeat "1 2 3 4 5 6 7 8"%string 7
                ++ frame_lines "9 9 9 9 9 9 9 9").

(** The bytes of Scenario B with the line silent for the length of a read
    timeout in the middle of the first row. *)
Definition paused_B : list event :=
  Recv (line "Thermal data:")
  :: Recv (list_byte_of_string "1 2 3 4")
  :: Quiet
  :: Recv (line " 5 6 7 8")
  :: line_by_line (repeat "1 2 3 4 5 6 7 8"%string 6
                   ++ frame_lines "9 9 9 9 9 9 9 9").

(** Scenario B with a third frame, of fives, after the second one. *)
Definition scenario_B_continued : list event :=
  scenario_B ++ line_by_line (frame_lines "5 5 5 5 5 5 5 5").

(** The arguments [interpolate_thermal_data] passes to [griddata]. *)
Definition source_points : list Q * list Q :=
  let (X, Y) := meshgrid (linspace 0 7 8) (linspace 0 7 8) in
  (ravel X, ravel Y).

Definition target_grid : grid Q * grid Q :=
  meshgrid (linspace 0 7 80) (linspace 0 7 80).

(** What is asked of [griddata]: when it returns, the result has the shape
    of the grid of target coordinates. *)
Definition shape_preserving (griddata : griddata_t) : Prop :=
  forall points values Xi Yi m out rows cols,
    has_shape rows cols Xi ->
    griddata points values (Xi, Yi) m = Ok out ->
    has_shape rows cols out.

(** A stand-in for [griddata]: it rejects a number of values other than the
    number of points, as the real one does, and otherwise fills the target
    grid with the first value. *)
Definition griddata_flat : griddata_t :=
  fun points values xi _ =>
    if length (fst points) =? length values then
      match values with
      | v :: _ => Ok (map (map (fun _ => v)) (fst xi))
      | [] => Raise ValueError
      end
    else Raise ValueError.

(** A presenter whose interpolated image cannot take a new array. *)
Definition interpolated_image_fails : image_error_t :=
  fun a _ => match a with
             | HeatmapInterpolated => Some MemoryError
             | HeatmapOriginal => None
             end.

(** A presenter that takes every array. *)
Definition images_accept : image_error_t := fun _ _ => None.

(** * Further vocabulary *)

(** [c] returns nothing but values satisfying [P]. *)
Definition returns_only {A} (P : A -> Prop) (c : M A) : Prop :=
  forall self a self1, c self = Some (Ok a, self1) -> P a.

(** [c] takes deliveries from the front of the wire and puts nothing
    back: the wire it leaves is a suffix of the wire it found. *)
Definition consumes_in_order {A} (c : M A) : Prop :=
  forall self r self1,
    c self = Some (r, self1) -> exists w0, wire (ser self) = w0 ++ wire (ser self1).

(** A raw line the marker search passes over: it decodes and its text does
    not hold the marker. *)
Definition skippable (l : bytes) : bool :=
  match line_text (l ++ [LF]) with
  | Ok text => negb (contains marker text)
  | Raise _ => false
  end.

(** Boot messages, then Scenario A. *)
Definition chatter_then_frame : list event :=
  chatter ++ line_by_line (frame_lines "1 2 3 4 5 6 7 8").

(** [c] passes no program point: the history is left as it is. *)
Definition adds_no_phase {A} (c : M A) : Prop :=
  forall self r self1,
    c self = Some (r, self1) -> protocol_trace self1 = protocol_trace self.

(** How often a history passes a given program point. *)
Definition phase_eqb (a b : phase) : bool :=
  match a, b with
  | SEARCHING_MARKER, SEARCHING_MARKER | READING_ROWS, READING_ROWS
  | VALIDATING, VALIDATING | SUCCESS, SUCCESS | RETRY, RETRY => true
  | _, _ => false
  end.

Definition passes (ph : phase) (tr : list phase) : nat :=
  length (filter (phase_eqb ph) tr).

(** The program points one attempt can add to the history. *)
Definition attempt_history (returned : bool) (t : list phase) : Prop :=
  if returned
  then t = [SEARCHING_MARKER; READING_ROWS; VALIDATING; SUCCESS]
  else t = [SEARCHING_MARKER]
       \/ t = [SEARCHING_MARKER; READING_ROWS]
       \/ t = [SEARCHING_MARKER; READING_ROWS; VALIDATING].

(** A burst that is one whole line: it ends with its only newline. *)
Definition is_line_burst (ev : event) : bool :=
  match ev with
  | Recv bs => match break_line bs with
               | (_, Some []) => true
               | _ => false
               end
  | _ => false
  end.

Definition line_bursts (w : list event) : bool := forallb is_line_burst w.

(** Nothing is buffered and every burst to come is a whole line. *)
Definition tidy (p : Serial) : Prop :=
  in_buffer p = [] /\ line_bursts (wire p) = true.

Definition keeps_tidy {A} (c : M A) : Prop :=
  forall self r self1,
    tidy (ser self) -> c self = Some (r, self1) -> tidy (ser self1).

(** Two frames in a single burst. *)
Definition one_burst : list event :=
  [Recv (scenario_A_stream
         ++ stream_of (map list_byte_of_string
                           (frame_lines "9 9 9 9 9 9 9 9")))].

(** A frame of zeros written in several ways. *)
Definition zero_rows : list bytes :=
  map list_byte_of_string
      (repeat "0 0.0 0_0 0e5 00 .0 0. +0"%string 8).

(** * Properties *)

Unset Implicit Arguments.

(** ** Stepping through method bodies *)

Lemma bind_Ok {A B} (c : M A) (k : A -> M B) self a self1 :
  c self = Some (Ok a, self1) -> bind c k self = k a self1.
Proof. intros H. unfold bind. rewrite H. reflexivity. Qed.

Lemma bind_Raise {A B} (c : M A) (k : A -> M B) self e self1 :
  c self = Some (Raise e, self1) -> bind c k self = Some (Raise e, self1).
Proof. intros H. unfold bind. rewrite H. reflexivity. Qed.

Lemma bind_None {A B} (c : M A) (k : A -> M B) self :
  c self = None -> bind c k self = None.
Proof. intros H. unfold bind. rewrite H. reflexivity. Qed.

Lemma bind_inv {A B} (c : M A) (k : A -> M B) self out :
  bind c k self = Some out ->
  (exists e self1, c self = Some (Raise e, self1) /\ out = (Raise e, self1))
  \/ (exists a self1, c self = Some (Ok a, self1) /\ k a self1 = Some out).
Proof.
  unfold bind. destruct (c self) as [[[a|e] self1]|]; intros H.
  - right. eauto.
  - left. inversion H. eauto.
  - discriminate.
Qed.

Lemma returned_frame {A} (out : option (result A * RobustThermalHeatmap)) r :
  option_map fst out = Some r -> exists self', out = Some (r, self').
Proof.
  destruct out as [[r' s]|]; simpl; intros H; inversion H; subst. eauto.
Qed.

Lemma raises_only_ret {A} P (a : A) : raises_only P (ret a).
Proof. intros self e self1 H. discriminate. Qed.

Lemma raises_only_bind {A B} P (c : M A) (k : A -> M B) :
  raises_only P c -> (forall a, raises_only P (k a)) ->
  raises_only P (bind c k).
Proof.
  intros Hc Hk self e self1 H.
  apply bind_inv in H. destruct H as [(e' & s & H & E)|(a & s & H & H')].
  - inversion E; subst. eapply Hc; eauto.
  - eapply Hk; eauto.
Qed.

Lemma raises_only_enter P ph : raises_only P (enter ph).
Proof. intros self e self1 H. discriminate. Qed.

Lemma raises_only_reset P : raises_only P ser_reset_input_buffer.
Proof. intros self e self1 H. discriminate. Qed.

(** ** Which exceptions the primitives raise *)

Lemma read_wire_raises w : forall acc e p,
  read_wire acc w = (Raise e, p) -> e = SerialException.
Proof.
  induction w as [|ev w IH]; intros acc e p H; simpl in H.
  - discriminate.
  - destruct ev as [bs| |].
    + destruct (break_line bs) as [l [rest|]]; [discriminate|eauto].
    + discriminate.
    + congruence.
Qed.

Lemma readline_raises p e p' :
  readline p = (Raise e, p') -> e = SerialException.
Proof.
  unfold readline. destruct (break_line (in_buffer p)) as [l [rest|]].
  - discriminate.
  - apply read_wire_raises.
Qed.

Lemma rbind_raises {A B} (r : result A) (k : A -> result B) (P : exn -> Prop) e :
  (forall e', r = Raise e' -> P e') ->
  (forall a e', k a = Raise e' -> P e') ->
  rbind r k = Raise e -> P e.
Proof.
  intros Hr Hk. destruct r as [a|e0]; simpl; intros H.
  - eapply Hk; eauto.
  - apply Hr. congruence.
Qed.

Lemma decode_utf8_raises_bounded n : forall bs e,
  length bs <= n -> decode_utf8 bs = Raise e -> e = UnicodeDecodeError.
Proof.
  induction n as [|n IH]; intros bs e Hlen H.
  - destruct bs; [discriminate|simpl in Hlen; lia].
  - destruct bs as [|b0 r0]; [discriminate|].
    simpl in Hlen. cbn [decode_utf8] in H. cbv zeta in H.
    assert (Hk : forall (r : bytes) (c : N) e',
               length r <= n ->
               rbind (decode_utf8 r) (fun s => Ok (c :: s)) = Raise e' ->
               e' = UnicodeDecodeError).
    { intros r c e' Hr.
      apply (@rbind_raises _ _ (decode_utf8 r) (fun s => Ok (c :: s))
                           (fun x => x = UnicodeDecodeError)).
      - intros e'' He. eapply IH; eauto.
      - discriminate. }
    destruct (Byte.to_N b0 <? 128)%N.
    { eapply Hk; [|exact H]; lia. }
    destruct (in_range 194 223 (Byte.to_N b0)).
    { destruct r0 as [|b1 r1]; [congruence|].
      destruct (is_continuation (Byte.to_N b1)); [|congruence].
      simpl in Hlen. eapply Hk; [|exact H]; lia. }
    destruct (in_range 224 239 (Byte.to_N b0)).
    { destruct r0 as [|b1 [|b2 r2]]; try congruence.
      match type of H with (if ?c then _ else _) = _ => destruct c end;
        [|congruence].
      simpl in Hlen. eapply Hk; [|exact H]; lia. }
    destruct (in_range 240 244 (Byte.to_N b0)); [|congruence].
    destruct r0 as [|b1 [|b2 [|b3 r3]]]; try congruence.
    match type of H with (if ?c then _ else _) = _ => destruct c end;
      [|congruence].
    simpl in Hlen. eapply Hk; [|exact H]; lia.
Qed.

Lemma decode_utf8_raises bs e :
  decode_utf8 bs = Raise e -> e = UnicodeDecodeError.
Proof. apply decode_utf8_raises_bounded with (n := length bs). lia. Qed.

Lemma parse_float_raises t e : parse_float t = Raise e -> e = ValueError.
Proof.
  unfold parse_float.
  repeat match goal with
         | |- context [let (_, _) := ?x in _] => destruct x
         | |- context [if ?c then _ else _] => destruct c
         | |- context [match ?x with _ => _ end] => destruct x
         end; congruence.
Qed.

Lemma py_float_raises s e : py_float s = Raise e -> e = ValueError.
Proof.
  unfold py_float. destruct (remove_underscores 0 (strip s)).
  - apply parse_float_raises.
  - congruence.
Qed.

Lemma comprehension_raises {A B} (f : A -> result B) (P : exn -> Prop) xs :
  (forall x e, f x = Raise e -> P e) ->
  forall e, comprehension f xs = Raise e -> P e.
Proof.
  intros Hf. induction xs as [|x xs IH]; simpl; intros e H.
  - discriminate.
  - destruct (f x) eqn:Hx.
    + destruct (comprehension f xs); [discriminate|]. apply IH. congruence.
    + inversion H; subst. eauto.
Qed.

(** ** Exceptions inside [read_thermal_data] *)

Lemma raises_only_readline : raises_only caught ser_readline.
Proof.
  intros self e self1 H. unfold ser_readline in H.
  destruct (readline (ser self)) as [r p] eqn:Hr.
  inversion H; subst. apply readline_raises in Hr. subst. reflexivity.
Qed.

Lemma raises_only_lift {A} (P : exn -> Prop) (r : result A) :
  (forall e, r = Raise e -> P e) -> raises_only P (lift r).
Proof. intros Hr self e self1 H. inversion H. eauto. Qed.

Lemma raises_only_read_stripped_line : raises_only caught read_stripped_line.
Proof.
  unfold read_stripped_line.
  apply raises_only_bind; [apply raises_only_readline|]. intros raw.
  apply raises_only_bind; [|intros; apply raises_only_ret].
  apply raises_only_lift. intros e He.
  apply decode_utf8_raises in He. subst. reflexivity.
Qed.

Lemma raises_only_wait_for_marker fuel : raises_only caught (wait_for_marker fuel).
Proof.
  induction fuel as [|fuel IH]; simpl.
  - intros self e self1 H. discriminate.
  - apply raises_only_bind; [apply raises_only_read_stripped_line|].
    intros line. destruct (contains marker line); [apply raises_only_ret|exact IH].
Qed.

Lemma raises_only_read_data_lines n : raises_only caught (read_data_lines n).
Proof.
  induction n as [|n IH]; simpl.
  - apply raises_only_ret.
  - apply raises_only_bind; [apply raises_only_read_stripped_line|]. intros line.
    apply raises_only_bind; [exact IH|]. intros; apply raises_only_ret.
Qed.

Lemma raises_only_read_payload fuel : raises_only caught (read_payload fuel).
Proof.
  unfold read_payload.
  repeat (apply raises_only_bind; [|intros _]);
    auto using raises_only_reset, raises_only_enter,
               raises_only_wait_for_marker, raises_only_read_data_lines.
Qed.

Lemma raises_only_convert_payload data_lines :
  raises_only caught (convert_payload data_lines).
Proof.
  unfold convert_payload.
  apply raises_only_bind; [apply raises_only_enter|intros _].
  apply raises_only_bind.
  - apply raises_only_lift.
    apply (@comprehension_raises _ _ py_float caught).
    intros x e He. apply py_float_raises in He. subst. reflexivity.
  - intros pixels. destruct (length pixels =? 64).
    + apply raises_only_bind; [apply raises_only_enter|].
      intros; apply raises_only_ret.
    + apply raises_only_ret.
Qed.

Lemma raises_only_attempt_body fuel : raises_only caught (attempt_body fuel).
Proof.
  unfold attempt_body. apply raises_only_bind.
  - apply raises_only_read_payload.
  - apply raises_only_convert_payload.
Qed.

Lemma one_attempt_no_raise fuel : raises_only (fun _ => False) (one_attempt fuel).
Proof.
  intros self e self1 H. unfold one_attempt, try_except in H.
  destruct (attempt_body fuel self) as [[[a|e'] s]|] eqn:Hb; try discriminate.
  apply raises_only_attempt_body in Hb. unfold caught in Hb.
  rewrite Hb in H. discriminate.
Qed.

Lemma attempts_no_raise fuel remaining :
  raises_only (fun _ => False) (attempts fuel remaining).
Proof.
  induction remaining as [|k IH]; simpl.
  - apply raises_only_ret.
  - apply raises_only_bind; [apply one_attempt_no_raise|].
    intros [frame|]; [apply raises_only_ret|].
    apply raises_only_bind; [apply raises_only_enter|intros _; exact IH].
Qed.

(** An attempt that ends in an exception is resumed by the handler. *)
Lemma one_attempt_handles fuel self e self1 :
  attempt_body fuel self = Some (Raise e, self1) ->
  one_attempt fuel self = Some (Ok None, self1).
Proof.
  intros H. unfold one_attempt, try_except. rewrite H.
  apply raises_only_attempt_body in H. unfold caught in H. rewrite H.
  reflexivity.
Qed.

Lemma attempts_continue fuel k self self1 :
  one_attempt fuel self = Some (Ok None, self1) ->
  attempts fuel (S k) self = attempts fuel k (with_phase RETRY self1).
Proof. intros H. simpl. rewrite (bind_Ok _ _ _ _ _ H). reflexivity. Qed.

Lemma attempts_return fuel k self frame self1 :
  one_attempt fuel self = Some (Ok (Some frame), self1) ->
  attempts fuel (S k) self = Some (Ok frame, self1).
Proof. intros H. simpl. rewrite (bind_Ok _ _ _ _ _ H). reflexivity. Qed.

Lemma attempts_stuck fuel k self :
  one_attempt fuel self = None -> attempts fuel (S k) self = None.
Proof. intros H. simpl. apply bind_None. exact H. Qed.

(** The errors of reading, decoding and converting are contained.  On a
    port whose buffer reset succeeds, a call either is still running when
    the loop budget ends or has returned a frame; an exception raised inside
    an attempt is caught and the loop goes on with the attempts that remain;
    with no attempt left the all-zero 8x8 frame is returned.  The failure of
    [reset_input_buffer] itself is outside the port model: on a POSIX port
    whose device is gone it raises [termios.error], which the handler of
    [read_thermal_data] (only [ValueError] and [SerialException]) lets
    through to the caller. *)
Theorem read_errors_are_contained :
  (forall fuel self,
      read_thermal_data fuel self = None
      \/ exists frame self1,
          read_thermal_data fuel self = Some (Ok frame, self1))
  /\ (forall fuel k self e self1,
         attempt_body fuel self = Some (Raise e, self1) ->
         attempts fuel (S k) self = attempts fuel k (with_phase RETRY self1))
  /\ (forall fuel self, attempts fuel 0 self = Some (Ok (zeros 8 8), self)).
Proof.
  split; [|split].
  - intros fuel self.
    destruct (read_thermal_data fuel self) as [[[frame|e] self1]|] eqn:H.
    + right. eauto.
    + exfalso. exact (@attempts_no_raise fuel max_attempts self e self1 H).
    + left. reflexivity.
  - intros fuel k self e self1 H.
    apply attempts_continue, one_attempt_handles with (e := e). exact H.
  - reflexivity.
Qed.

Lemma read_errors_are_contained_witness :
  attempt_body 1 (listening faulty_line)
  = Some (Raise SerialException,
          with_phase SEARCHING_MARKER (listening silent_line))
  /\ attempts 1 1 (listening faulty_line)
     = attempts 1 0
         (with_phase RETRY (with_phase SEARCHING_MARKER (listening silent_line))).
Proof.
  split.
  - reflexivity.
  - apply (proj1 (proj2 read_errors_are_contained)
                 1 0 (listening faulty_line) SerialException).
    reflexivity.
Defined.

(** ** The reader depends on the port alone *)

Lemma graft_bare self : graft self (bare (ser self)) = self.
Proof. destruct self; unfold graft, bare; simpl. rewrite app_nil_r. reflexivity. Qed.

Lemma graft_graft self s x : graft self (graft s x) = graft (graft self s) x.
Proof. unfold graft; simpl. rewrite app_assoc. reflexivity. Qed.

Lemma port_only_ret {A} (a : A) : port_only (ret a).
Proof. intros self. unfold ret, grafted. rewrite graft_bare. reflexivity. Qed.

Lemma port_only_lift {A} (r : result A) : port_only (lift r).
Proof. intros self. unfold lift, grafted. rewrite graft_bare. reflexivity. Qed.

Lemma port_only_bind {A B} (c : M A) (k : A -> M B) :
  port_only c -> (forall a, port_only (k a)) -> port_only (bind c k).
Proof.
  intros Hc Hk self. unfold bind. rewrite (Hc self).
  destruct (c (bare (ser self))) as [[[a|e] s]|]; simpl; try reflexivity.
  rewrite (Hk a (graft self s)), (Hk a s). simpl.
  destruct (k a (bare (ser s))) as [[r x]|]; simpl; [|reflexivity].
  rewrite graft_graft. reflexivity.
Qed.

Lemma port_only_try_except {A} (body : M A) classes handler :
  port_only body -> (forall e, port_only (handler e)) ->
  port_only (try_except body classes handler).
Proof.
  intros Hb Hh self. unfold try_except. rewrite (Hb self).
  destruct (body (bare (ser self))) as [[[a|e] s]|]; simpl; try reflexivity.
  destruct (classes e); [|reflexivity].
  rewrite (Hh e (graft self s)), (Hh e s). simpl.
  destruct (handler e (bare (ser s))) as [[r x]|]; simpl; [|reflexivity].
  rewrite graft_graft. reflexivity.
Qed.

Lemma port_only_enter ph : port_only (enter ph).
Proof. intros self. reflexivity. Qed.

Lemma port_only_reset : port_only ser_reset_input_buffer.
Proof.
  intros self. unfold ser_reset_input_buffer, grafted, graft, with_ser; simpl.
  rewrite app_nil_r. reflexivity.
Qed.

Lemma port_only_readline : port_only ser_readline.
Proof.
  intros self. unfold ser_readline; simpl.
  destruct (readline (ser self)) as [r p]. unfold grafted, graft, with_ser; simpl.
  rewrite app_nil_r. reflexivity.
Qed.

Lemma port_only_read_stripped_line : port_only read_stripped_line.
Proof.
  unfold read_stripped_line.
  apply port_only_bind; [apply port_only_readline|intros raw].
  apply port_only_bind; [apply port_only_lift|intros text; apply port_only_ret].
Qed.

Lemma port_only_wait_for_marker fuel : port_only (wait_for_marker fuel).
Proof.
  induction fuel as [|fuel IH]; simpl.
  - intros self. reflexivity.
  - apply port_only_bind; [apply port_only_read_stripped_line|intros l].
    destruct (contains marker l); [apply port_only_ret|exact IH].
Qed.

Lemma port_only_read_data_lines n : port_only (read_data_lines n).
Proof.
  induction n as [|n IH]; simpl.
  - apply port_only_ret.
  - apply port_only_bind; [apply port_only_read_stripped_line|intros l].
    apply port_only_bind; [exact IH|intros; apply port_only_ret].
Qed.

Lemma port_only_one_attempt fuel : port_only (one_attempt fuel).
Proof.
  unfold one_attempt. apply port_only_try_except; [|intros; apply port_only_ret].
  unfold attempt_body. apply port_only_bind.
  - unfold read_payload.
    repeat (apply port_only_bind; [|intros _]);
      auto using port_only_reset, port_only_enter, port_only_wait_for_marker,
                 port_only_read_data_lines.
  - intros data_lines. unfold convert_payload.
    apply port_only_bind; [apply port_only_enter|intros _].
    apply port_only_bind; [apply port_only_lift|intros pixels].
    destruct (length pixels =? 64); [|apply port_only_ret].
    apply port_only_bind; [apply port_only_enter|intros; apply port_only_ret].
Qed.

Lemma port_only_attempts fuel k : port_only (attempts fuel k).
Proof.
  induction k as [|k IH]; simpl.
  - apply port_only_ret.
  - apply port_only_bind; [apply port_only_one_attempt|].
    intros [frame|]; [apply port_only_ret|].
    apply port_only_bind; [apply port_only_enter|intros _; exact IH].
Qed.

(** ** The buffer reset that opens every attempt *)

Lemma one_attempt_resets fuel self :
  one_attempt fuel self
  = one_attempt fuel (with_ser (reset_input_buffer (ser self)) self).
Proof. reflexivity. Qed.

Lemma attempts_ignore_buffer fuel k self buffered :
  attempts fuel (S k)
    (with_ser {| in_buffer := buffered; wire := wire (ser self) |} self)
  = attempts fuel (S k) self.
Proof. reflexivity. Qed.

(** C10.  Every attempt, the first of a call included, opens by dropping the
    input buffer: an attempt run on the object as it is and one run after the
    buffer was emptied are the same, and the whole outcome of
    [read_thermal_data] (frame, program points, port left behind) is the
    same whatever bytes were buffered when it was called. *)
Theorem buffered_input_never_contributes :
  (forall fuel self,
      one_attempt fuel self
      = one_attempt fuel (with_ser (reset_input_buffer (ser self)) self))
  /\ (forall fuel self buffered,
         read_thermal_data fuel
           (with_ser {| in_buffer := buffered; wire := wire (ser self) |} self)
         = read_thermal_data fuel self).
Proof.
  split.
  - exact one_attempt_resets.
  - intros fuel self buffered. apply attempts_ignore_buffer.
Qed.

(** C9, counterexample.  Two deliveries of the same bytes, one of them with
    a pause inside the first row: the first call returns the first frame,
    the second call loses it and returns the frame that follows. *)
Lemma same_bytes_different_frames :
  wire_bytes steady_delivery = wire_bytes halting_delivery
  /\ (exists s1, read_thermal_data 20 (listening steady_delivery)
                 = Some (Ok frame_1_to_8, s1))
  /\ (exists s2, read_thermal_data 20 (listening halting_delivery)
                 = Some (Ok frame_of_nines, s2))
  /\ frame_1_to_8 <> frame_of_nines.
Proof.
  split; [vm_compute; reflexivity|].
  split; [apply returned_frame; vm_compute; reflexivity|].
  split; [apply returned_frame; vm_compute; reflexivity|].
  discriminate.
Qed.

(** C9, as amended.  The frame returned, the program points passed and the
    port as it is left are a function of the deliveries on the wire (bytes
    with their pauses and faults) and of nothing else in the object: not of
    what was buffered, not of the images, not of earlier calls. *)
Theorem acquisition_determined_by_deliveries : forall fuel self,
  read_thermal_data fuel self
  = match acquisition fuel (wire (ser self)) with
    | Some (r, passed, p) =>
        Some (r, {| ser := p;
                    heatmap_original := heatmap_original self;
                    heatmap_interpolated := heatmap_interpolated self;
                    protocol_trace := protocol_trace self ++ passed |})
    | None => None
    end.
Proof.
  intros fuel self. unfold acquisition, read_thermal_data.
  rewrite (port_only_attempts fuel max_attempts self).
  change (attempts fuel max_attempts (bare (ser self)))
    with (attempts fuel max_attempts
            (bare {| in_buffer := []; wire := wire (ser self) |})).
  destruct (attempts fuel max_attempts
              (bare {| in_buffer := []; wire := wire (ser self) |}))
    as [[r s]|]; reflexivity.
Qed.

(** ** Lines on the wire *)

Lemma break_line_Some bs : forall l rest,
  break_line bs = (l, Some rest) ->
  bs = l ++ rest /\ exists x, l = x ++ [LF] /\ no_newline x = true.
Proof.
  induction bs as [|b r IH]; simpl; intros l rest H.
  - discriminate.
  - destruct (Byte.eqb b LF) eqn:Hb.
    + inversion H; subst. apply Byte.byte_dec_bl in Hb. subst.
      split; [reflexivity|]. exists []. split; reflexivity.
    + destruct (break_line r) as [l' o]. inversion H; subst.
      destruct (IH l' rest eq_refl) as (E & x & El & Hx). subst.
      split; [reflexivity|]. exists (b :: x). simpl. rewrite Hb, Hx.
      split; reflexivity.
Qed.

Lemma break_line_None bs : forall l,
  break_line bs = (l, None) -> l = bs /\ no_newline bs = true.
Proof.
  induction bs as [|b r IH]; simpl; intros l H.
  - inversion H. split; reflexivity.
  - destruct (Byte.eqb b LF) eqn:Hb; [discriminate|].
    destruct (break_line r) as [l' o]. inversion H; subst.
    destruct (IH l' eq_refl) as (E & Hr). subst. rewrite Hr.
    split; reflexivity.
Qed.

Lemma no_newline_app a b :
  no_newline (a ++ b) = no_newline a && no_newline b.
Proof. apply forallb_app. Qed.

(** The first newline of a byte sequence is where it is. *)
Lemma first_newline_unique a : forall b r1 r2,
  no_newline a = true -> no_newline b = true ->
  a ++ LF :: r1 = b ++ LF :: r2 -> a = b /\ r1 = r2.
Proof.
  induction a as [|x a IH]; intros [|y b] r1 r2 Ha Hb E; simpl in *.
  - inversion E. split; reflexivity.
  - inversion E; subst. discriminate.
  - inversion E; subst. discriminate.
  - inversion E; subst.
    apply andb_prop in Ha, Hb. destruct Ha as [_ Ha], Hb as [_ Hb].
    destruct (IH b r1 r2 Ha Hb H1). subst. split; reflexivity.
Qed.

Lemma no_newline_no_LF a r : no_newline (a ++ LF :: r) = false.
Proof.
  rewrite no_newline_app. simpl. apply andb_false_r.
Qed.

(** What a read consumes is a prefix of what was pending; what it returns,
    when it returns, is that prefix. *)
Lemma read_wire_pending w : forall acc r p',
  read_wire acc w = (r, p') ->
  exists pre, wire_bytes w = pre ++ pending p'
              /\ forall l, r = Ok l -> l = acc ++ pre.
Proof.
  induction w as [|ev w IH]; intros acc r p' H; simpl in H.
  - inversion H; subst. exists []. split; [reflexivity|].
    intros l E. inversion E. rewrite app_nil_r. reflexivity.
  - destruct ev as [bs| |].
    + destruct (break_line bs) as [l0 [rest|]] eqn:Hb.
      * inversion H; subst. apply break_line_Some in Hb.
        destruct Hb as (E & _). subst. exists l0. unfold pending; simpl.
        split; [rewrite app_assoc; reflexivity|].
        intros l E. inversion E. reflexivity.
      * apply break_line_None in Hb. destruct Hb as (E & _). subst.
        destruct (IH _ _ _ H) as (pre & Hw & Hl).
        exists (bs ++ pre). simpl. rewrite Hw. split.
        -- rewrite app_assoc. reflexivity.
        -- intros l E. rewrite (Hl l E). rewrite app_assoc. reflexivity.
    + inversion H; subst. exists []. split; [reflexivity|].
      intros l E. inversion E. rewrite app_nil_r. reflexivity.
    + inversion H; subst. exists []. split; [reflexivity|]. discriminate.
Qed.

Lemma readline_pending p r p' :
  readline p = (r, p') ->
  exists pre, pending p = pre ++ pending p'
              /\ forall l, r = Ok l -> l = pre.
Proof.
  unfold readline. destruct (break_line (in_buffer p)) as [l0 [rest|]] eqn:Hb.
  - intros H. inversion H; subst. apply break_line_Some in Hb.
    destruct Hb as (E & _). exists l0. unfold pending; simpl. rewrite E.
    split; [rewrite app_assoc; reflexivity|].
    intros l El. inversion El. reflexivity.
  - intros H. apply break_line_None in Hb. destruct Hb as (E & _). subst.
    destruct (read_wire_pending _ _ _ _ H) as (pre & Hw & Hl).
    exists (in_buffer p ++ pre). unfold pending at 1. rewrite Hw. split.
    + rewrite app_assoc. reflexivity.
    + exact Hl.
Qed.

(** The wire left by a read is a suffix of the wire before it. *)
Lemma read_wire_suffix w : forall acc r p',
  read_wire acc w = (r, p') -> exists w0, w = w0 ++ wire p'.
Proof.
  induction w as [|ev w IH]; intros acc r p' H; simpl in H.
  - inversion H; subst. exists []. reflexivity.
  - destruct ev as [bs| |].
    + destruct (break_line bs) as [l0 [rest|]].
      * inversion H; subst. exists [Recv bs]. reflexivity.
      * destruct (IH _ _ _ H) as (w0 & E). exists (Recv bs :: w0).
        simpl. rewrite <- E. reflexivity.
    + inversion H; subst. exists [Quiet]. reflexivity.
    + inversion H; subst. exists [Fault]. reflexivity.
Qed.

Lemma readline_suffix p r p' :
  readline p = (r, p') -> exists w0, wire p = w0 ++ wire p'.
Proof.
  unfold readline. destruct (break_line (in_buffer p)) as [l0 [rest|]].
  - intros H. inversion H; subst. exists []. reflexivity.
  - apply read_wire_suffix.
Qed.

(** Without a fault on the wire a read returns. *)
Lemma read_wire_faultless w : forall acc r p',
  faultless w = true -> read_wire acc w = (r, p') -> exists l, r = Ok l.
Proof.
  induction w as [|ev w IH]; intros acc r p' Hf H; simpl in H.
  - inversion H; subst. eauto.
  - simpl in Hf. apply andb_prop in Hf. destruct Hf as [Hev Hf].
    destruct ev as [bs| |]; try discriminate.
    + destruct (break_line bs) as [l0 [rest|]].
      * inversion H; subst. eauto.
      * eapply IH; eauto.
    + inversion H; subst. eauto.
Qed.

Lemma readline_faultless p r p' :
  faultless (wire p) = true -> readline p = (r, p') ->
  (exists l, r = Ok l) /\ faultless (wire p') = true.
Proof.
  intros Hf H. split.
  - revert H. unfold readline.
    destruct (break_line (in_buffer p)) as [l0 [rest|]].
    + intros H. inversion H; subst. eauto.
    + apply read_wire_faultless. exact Hf.
  - destruct (readline_suffix _ _ _ H) as (w0 & E). rewrite E in Hf.
    unfold faultless in Hf. rewrite forallb_app in Hf.
    apply andb_prop in Hf. apply Hf.
Qed.

(** On a steady wire a pending newline-terminated line is read whole. *)
Lemma read_wire_line w : forall acc l rest,
  steady w = true -> no_newline acc = true -> no_newline l = true ->
  acc ++ wire_bytes w = l ++ LF :: rest ->
  exists p', read_wire acc w = (Ok (l ++ [LF]), p')
             /\ pending p' = rest /\ steady (wire p') = true.
Proof.
  induction w as [|ev w IH]; intros acc l rest Hs Hacc Hl E; simpl in *.
  - rewrite app_nil_r in E. subst. rewrite no_newline_no_LF in Hacc.
    discriminate.
  - apply andb_prop in Hs. destruct Hs as [Hev Hs].
    destruct ev as [bs| |]; try discriminate.
    destruct (break_line bs) as [l0 [r0|]] eqn:Hb.
    + apply break_line_Some in Hb. destruct Hb as (Ebs & x & El0 & Hx). subst.
      assert (E' : (acc ++ x) ++ LF :: (r0 ++ wire_bytes w) = l ++ LF :: rest).
      { rewrite <- E. repeat rewrite <- app_assoc. reflexivity. }
      apply first_newline_unique in E'; [|rewrite no_newline_app, Hacc, Hx; reflexivity|exact Hl].
      destruct E' as [El Er]. subst.
      eexists. split; [rewrite app_assoc; reflexivity|].
      split; [reflexivity|exact Hs].
    + apply break_line_None in Hb. destruct Hb as (El0 & Hbs). subst.
      apply IH; auto.
      * rewrite no_newline_app, Hacc, Hbs. reflexivity.
      * rewrite <- E, <- app_assoc. reflexivity.
Qed.

Lemma readline_line p l rest :
  steady (wire p) = true -> no_newline l = true ->
  pending p = l ++ LF :: rest ->
  exists p', readline p = (Ok (l ++ [LF]), p')
             /\ pending p' = rest /\ steady (wire p') = true.
Proof.
  intros Hs Hl E. unfold readline, pending in *.
  destruct (break_line (in_buffer p)) as [l0 [r0|]] eqn:Hb.
  - apply break_line_Some in Hb. destruct Hb as (Eb & x & El0 & Hx).
    rewrite Eb, El0 in E. repeat rewrite <- app_assoc in E. simpl in E.
    apply first_newline_unique in E; auto. destruct E as [El Er]. subst.
    eexists. split; [reflexivity|]. split; [reflexivity|exact Hs].
  - apply break_line_None in Hb. destruct Hb as (El0 & Hbuf). subst.
    apply read_wire_line; auto.
Qed.

(** ** Reading lines through the object *)

Lemma read_stripped_line_Ok self raw p' :
  readline (ser self) = (Ok raw, p') ->
  read_stripped_line self = Some (line_text raw, with_ser p' self).
Proof.
  intros H. unfold read_stripped_line, bind, ser_readline, lift, line_text.
  rewrite H. destruct (decode_utf8 raw); reflexivity.
Qed.

Lemma read_stripped_line_Raise self e p' :
  readline (ser self) = (Raise e, p') ->
  read_stripped_line self = Some (Raise e, with_ser p' self).
Proof.
  intros H. unfold read_stripped_line, bind, ser_readline. rewrite H.
  reflexivity.
Qed.

Lemma read_stripped_line_steady self l rest :
  steady (wire (ser self)) = true -> no_newline l = true ->
  pending (ser self) = l ++ LF :: rest ->
  exists self', read_stripped_line self = Some (line_text (l ++ [LF]), self')
                /\ pending (ser self') = rest
                /\ steady (wire (ser self')) = true.
Proof.
  intros Hs Hl E.
  destruct (readline_line _ _ _ Hs Hl E) as (p' & Hr & Hp & Hs').
  exists (with_ser p' self). rewrite (read_stripped_line_Ok _ _ _ Hr). auto.
Qed.

Lemma stream_of_cons l ls rest :
  stream_of (l :: ls) ++ rest = l ++ LF :: (stream_of ls ++ rest).
Proof.
  unfold stream_of. simpl. repeat rewrite <- app_assoc. reflexivity.
Qed.

Lemma payload_tokens_cons l rows :
  payload_tokens (l :: rows)
  = match line_text (l ++ [LF]) with
    | Raise e => Raise e
    | Ok text => match payload_tokens rows with
                 | Raise e => Raise e
                 | Ok toks => Ok (split text :: toks)
                 end
    end.
Proof.
  unfold payload_tokens. simpl. destruct (line_text (l ++ [LF])); reflexivity.
Qed.

(** On a steady wire that holds the lines [rows] next, all of them decodable,
    [read_data_lines] reads exactly these lines and hands back their
    tokens. *)
Lemma read_data_lines_stream rows : forall self rest data_lines,
  steady (wire (ser self)) = true ->
  forallb no_newline rows = true ->
  pending (ser self) = stream_of rows ++ rest ->
  payload_tokens rows = Ok data_lines ->
  exists self', read_data_lines (length rows) self = Some (Ok data_lines, self')
                /\ pending (ser self') = rest
                /\ steady (wire (ser self')) = true.
Proof.
  induction rows as [|l rows IH]; intros self rest data_lines Hs Hn E Ht.
  - simpl in *. inversion Ht; subst. exists self. auto.
  - simpl in Hn. apply andb_prop in Hn. destruct Hn as [Hl Hn].
    rewrite stream_of_cons in E.
    destruct (read_stripped_line_steady _ _ _ Hs Hl E) as (s1 & H1 & E1 & Hs1).
    rewrite payload_tokens_cons in Ht.
    destruct (line_text (l ++ [LF])) as [text|e] eqn:Htext; [|discriminate].
    destruct (payload_tokens rows) as [toks|e] eqn:Hrows; [|discriminate].
    inversion Ht; subst.
    destruct (IH s1 rest toks Hs1 Hn E1 eq_refl) as (s2 & H2 & E2 & Hs2).
    exists s2. simpl. rewrite (bind_Ok _ _ _ _ _ H1), (bind_Ok _ _ _ _ _ H2). auto.
Qed.

(** A marker line that is pending on a steady wire ends the search at
    once. *)
Lemma wait_for_marker_found fuel self m rest text :
  steady (wire (ser self)) = true -> no_newline m = true ->
  pending (ser self) = m ++ LF :: rest ->
  line_text (m ++ [LF]) = Ok text -> contains marker text = true ->
  exists self', wait_for_marker (S fuel) self = Some (Ok tt, self')
                /\ pending (ser self') = rest
                /\ steady (wire (ser self')) = true
                /\ protocol_trace self' = protocol_trace self.
Proof.
  intros Hs Hm E Ht Hc.
  destruct (readline_line _ _ _ Hs Hm E) as (p' & Hr & Hp & Hs').
  exists (with_ser p' self). simpl.
  rewrite (bind_Ok _ _ _ text (with_ser p' self)).
  - rewrite Hc. auto.
  - rewrite (read_stripped_line_Ok _ _ _ Hr), Ht. reflexivity.
Qed.

(** The first half of an attempt on a steady wire that delivers a marker
    line and then the lines [rows]. *)
Lemma read_payload_stream fuel self m rows rest text data_lines :
  steady (wire (ser self)) = true ->
  wire_bytes (wire (ser self)) = stream_of (m :: rows) ++ rest ->
  no_newline m = true -> forallb no_newline rows = true ->
  line_text (m ++ [LF]) = Ok text -> contains marker text = true ->
  length rows = 8 ->
  payload_tokens rows = Ok data_lines ->
  exists self', read_payload (S fuel) self = Some (Ok data_lines, self')
                /\ pending (ser self') = rest
                /\ steady (wire (ser self')) = true.
Proof.
  intros Hs E Hm Hn Ht Hc Hlen Htok.
  rewrite stream_of_cons in E.
  set (s0 := with_phase SEARCHING_MARKER
               (with_ser (reset_input_buffer (ser self)) self)).
  assert (Hs0 : steady (wire (ser s0)) = true) by exact Hs.
  assert (E0 : pending (ser s0) = m ++ LF :: (stream_of rows ++ rest)) by exact E.
  destruct (wait_for_marker_found fuel _ _ _ _ Hs0 Hm E0 Ht Hc)
    as (s1 & H1 & E1 & Hs1 & _).
  set (s1' := with_phase READING_ROWS s1).
  destruct (read_data_lines_stream rows s1' rest data_lines Hs1 Hn E1 Htok)
    as (s2 & H2 & E2 & Hs2).
  exists s2. unfold read_payload.
  change (bind ser_reset_input_buffer ?k self) with (k tt (with_ser (reset_input_buffer (ser self)) self)).
  cbv beta.
  change (bind (enter SEARCHING_MARKER) ?k (with_ser (reset_input_buffer (ser self)) self))
    with (k tt s0).
  cbv beta. rewrite (bind_Ok _ _ _ _ _ H1).
  change (bind (enter READING_ROWS) ?k s1) with (k tt s1').
  cbv beta. rewrite <- Hlen. auto.
Qed.

(** ** Row-major reshaping *)

Lemma chunks_length {A} rows cols : forall xs : list A,
  length (chunks rows cols xs) = rows.
Proof. induction rows as [|r IH]; simpl; intros xs; [|rewrite IH]; reflexivity. Qed.

Lemma chunks_rows {A} rows cols : forall xs : list A,
  rows * cols <= length xs ->
  Forall (fun row => length row = cols) (chunks rows cols xs).
Proof.
  induction rows as [|r IH]; simpl; intros xs Hlen; constructor.
  - rewrite length_firstn. lia.
  - apply IH. rewrite length_skipn. lia.
Qed.

Lemma nth_firstn_below {A} (d : A) k : forall xs c,
  c < k -> nth c (firstn k xs) d = nth c xs d.
Proof.
  induction k as [|k IH]; intros xs c Hc; [lia|].
  destruct xs as [|x xs]; [destruct c; reflexivity|].
  destruct c as [|c]; simpl; [reflexivity|]. apply IH. lia.
Qed.

Lemma chunks_nth {A} (d : A) rows cols : forall xs r c,
  r < rows -> c < cols ->
  nth c (nth r (chunks rows cols xs) []) d = nth (cols * r + c) xs d.
Proof.
  induction rows as [|n IH]; intros xs r c Hr Hc; [lia|].
  destruct r as [|r]; simpl.
  - rewrite Nat.mul_0_r. simpl. apply nth_firstn_below. exact Hc.
  - rewrite IH by lia. rewrite nth_skipn. f_equal. lia.
Qed.

(** ** The second half of an attempt *)

Lemma convert_payload_frame data_lines pixels self :
  comprehension py_float (concat data_lines) = Ok pixels ->
  length pixels = 64 ->
  convert_payload data_lines self
  = Some (Ok (Some (reshape 8 8 pixels)),
          with_phase SUCCESS (with_phase VALIDATING self)).
Proof.
  intros Hp Hlen. unfold convert_payload, bind, enter, lift.
  rewrite Hp, Hlen. reflexivity.
Qed.

Lemma convert_payload_mismatch data_lines pixels self :
  comprehension py_float (concat data_lines) = Ok pixels ->
  length pixels <> 64 ->
  convert_payload data_lines self = Some (Ok None, with_phase VALIDATING self).
Proof.
  intros Hp Hlen. unfold convert_payload, bind, enter, lift.
  rewrite Hp. apply Nat.eqb_neq in Hlen. rewrite Hlen. reflexivity.
Qed.

Lemma convert_payload_raise data_lines e self :
  comprehension py_float (concat data_lines) = Raise e ->
  convert_payload data_lines self = Some (Raise e, with_phase VALIDATING self).
Proof.
  intros Hp. unfold convert_payload, bind, enter, lift. rewrite Hp. reflexivity.
Qed.

Lemma comprehension_length {A B} (f : A -> result B) xs : forall ys,
  comprehension f xs = Ok ys -> length ys = length xs.
Proof.
  induction xs as [|x xs IH]; simpl; intros ys H.
  - inversion H. reflexivity.
  - destruct (f x); [|discriminate].
    destruct (comprehension f xs); [|discriminate].
    inversion H; subst. simpl. rewrite (IH _ eq_refl). reflexivity.
Qed.

(** An attempt on a steady wire that delivers a marker line and then eight
    lines with 64 numeric tokens returns their values as a frame. *)
Lemma one_attempt_frame fuel self m rows rest text pixels :
  steady (wire (ser self)) = true ->
  wire_bytes (wire (ser self)) = stream_of (m :: rows) ++ rest ->
  no_newline m = true -> forallb no_newline rows = true ->
  line_text (m ++ [LF]) = Ok text -> contains marker text = true ->
  length rows = 8 ->
  payload_values rows = Ok pixels -> length pixels = 64 ->
  exists self', one_attempt (S fuel) self
                = Some (Ok (Some (reshape 8 8 pixels)), self').
Proof.
  intros Hs E Hm Hn Ht Hc Hrows Hv Hlen.
  unfold payload_values in Hv.
  destruct (payload_tokens rows) as [data_lines|e] eqn:Htok; [|discriminate].
  simpl in Hv.
  destruct (read_payload_stream fuel self m rows rest text data_lines
              Hs E Hm Hn Ht Hc Hrows Htok) as (s2 & H2 & _).
  eexists. unfold one_attempt, try_except, attempt_body.
  rewrite (bind_Ok _ _ _ _ _ H2).
  rewrite (convert_payload_frame _ _ _ Hv Hlen). reflexivity.
Qed.

(** C3, as amended.  A stream that arrives after the call has started,
    without pause or fault, and that opens with a line holding the marker
    followed by eight lines whose tokens are 64 numbers makes
    [read_thermal_data] return, in its first attempt, the 8x8 frame of the
    64 values in row-major order; with eight rows [1 2 3 4 5 6 7 8] every
    row of the frame is [1, 2, ..., 8]. *)
Theorem well_formed_frame_is_returned :
  (forall fuel self m rows rest text pixels,
      steady (wire (ser self)) = true ->
      wire_bytes (wire (ser self)) = stream_of (m :: rows) ++ rest ->
      no_newline m = true -> forallb no_newline rows = true ->
      line_text (m ++ [LF]) = Ok text -> contains marker text = true ->
      length rows = 8 ->
      payload_values rows = Ok pixels -> length pixels = 64 ->
      exists frame self',
        read_thermal_data (S fuel) self = Some (Ok frame, self')
        /\ has_shape 8 8 frame
        /\ forall r c, r < 8 -> c < 8 ->
                       nth c (nth r frame []) zero = nth (8 * r + c) pixels zero)
  /\ (forall fuel self,
         steady (wire (ser self)) = true ->
         wire_bytes (wire (ser self)) = scenario_A_stream ->
         exists self',
           read_thermal_data (S fuel) self = Some (Ok frame_1_to_8, self')).
Proof.
  assert (G : forall fuel self m rows rest text pixels,
      steady (wire (ser self)) = true ->
      wire_bytes (wire (ser self)) = stream_of (m :: rows) ++ rest ->
      no_newline m = true -> forallb no_newline rows = true ->
      line_text (m ++ [LF]) = Ok text -> contains marker text = true ->
      length rows = 8 ->
      payload_values rows = Ok pixels -> length pixels = 64 ->
      exists self',
        read_thermal_data (S fuel) self = Some (Ok (reshape 8 8 pixels), self')).
  { intros fuel self m rows rest text pixels Hs E Hm Hn Ht Hc Hrows Hv Hlen.
    destruct (one_attempt_frame fuel self m rows rest text pixels
                Hs E Hm Hn Ht Hc Hrows Hv Hlen) as (s & H).
    exists s. apply attempts_return. exact H. }
  split.
  - intros fuel self m rows rest text pixels Hs E Hm Hn Ht Hc Hrows Hv Hlen.
    destruct (G fuel self m rows rest text pixels
                Hs E Hm Hn Ht Hc Hrows Hv Hlen) as (s & H).
    exists (reshape 8 8 pixels), s. split; [exact H|]. split.
    + split; [apply chunks_length|apply chunks_rows; lia].
    + intros r c Hr Hc'. apply chunks_nth; assumption.
  - intros fuel self Hs E.
    change frame_1_to_8 with (reshape 8 8 (concat frame_1_to_8)).
    apply (G fuel self (list_byte_of_string "Thermal data:") scenario_A_rows
             [] (str_of_string "Thermal data:") (concat frame_1_to_8)).
    + exact Hs.
    + rewrite app_nil_r. exact E.
    + vm_compute; reflexivity.
    + vm_compute; reflexivity.
    + vm_compute; reflexivity.
    + vm_compute; reflexivity.
    + reflexivity.
    + vm_compute; reflexivity.
    + reflexivity.
Qed.

Lemma well_formed_frame_is_returned_witness :
  exists frame self',
    read_thermal_data 1 (listening [Recv scenario_A_stream])
    = Some (Ok frame, self')
    /\ has_shape 8 8 frame
    /\ forall r c, r < 8 -> c < 8 ->
                   nth c (nth r frame []) zero
                   = nth (8 * r + c) (concat frame_1_to_8) zero.
Proof.
  apply (proj1 well_formed_frame_is_returned 0
               (listening [Recv scenario_A_stream])
               (list_byte_of_string "Thermal data:") scenario_A_rows []
               (str_of_string "Thermal data:") (concat frame_1_to_8));
    vm_compute; reflexivity.
Defined.

(** ** Failed attempts *)

Lemma failed_attempts_fallback fuel n : forall self self',
  failed_attempts fuel n self self' ->
  attempts fuel n self = Some (Ok (zeros 8 8), self').
Proof.
  induction n as [|n IH]; intros self self' H; inversion H; subst.
  - reflexivity.
  - rewrite (attempts_continue fuel n self self1) by assumption.
    apply IH. assumption.
Qed.

Lemma one_attempt_wrong_count fuel self data_lines self2 :
  read_payload fuel self = Some (Ok data_lines, self2) ->
  length (concat data_lines) <> 64 ->
  one_attempt fuel self = Some (Ok None, with_phase VALIDATING self2).
Proof.
  intros Hp Hlen.
  destruct (comprehension py_float (concat data_lines)) as [pixels|e] eqn:Hc.
  - unfold one_attempt, try_except, attempt_body.
    rewrite (bind_Ok _ _ _ _ _ Hp).
    rewrite (convert_payload_mismatch _ pixels); [reflexivity|exact Hc|].
    rewrite (comprehension_length _ _ _ Hc). exact Hlen.
  - apply one_attempt_handles with (e := e). unfold attempt_body.
    rewrite (bind_Ok _ _ _ _ _ Hp). apply convert_payload_raise. exact Hc.
Qed.

(** C7.  An attempt whose eight payload lines hold a number of tokens other
    than 64 yields no frame: the loop goes on to its next iteration, which
    opens with the buffer reset and a new marker search, from the port as
    the eight reads left it; and after [max_attempts] attempts in a row
    without a frame the all-zero 8x8 grid is returned. *)
Theorem wrong_token_count_is_retried :
  (forall fuel k self data_lines self2,
      read_payload fuel self = Some (Ok data_lines, self2) ->
      length (concat data_lines) <> 64 ->
      exists self3,
        one_attempt fuel self = Some (Ok None, self3)
        /\ ser self3 = ser self2
        /\ attempts fuel (S k) self = attempts fuel k (with_phase RETRY self3))
  /\ (forall fuel self self',
         failed_attempts fuel max_attempts self self' ->
         read_thermal_data fuel self = Some (Ok (zeros 8 8), self')).
Proof.
  split.
  - intros fuel k self data_lines self2 Hp Hlen.
    exists (with_phase VALIDATING self2).
    pose proof (one_attempt_wrong_count fuel self data_lines self2 Hp Hlen) as H.
    split; [exact H|]. split; [reflexivity|].
    apply attempts_continue. exact H.
  - intros fuel self self' H. apply failed_attempts_fallback. exact H.
Qed.

Lemma wrong_token_count_is_retried_witness :
  (exists self3,
      one_attempt 1 (listening short_frames) = Some (Ok None, self3)
      /\ attempts 1 10 (listening short_frames)
         = attempts 1 9 (with_phase RETRY self3))
  /\ exists self',
      read_thermal_data 1 (listening short_frames)
      = Some (Ok (zeros 8 8), self').
Proof.
  split.
  - destruct (proj1 wrong_token_count_is_retried 1 9 (listening short_frames)
                (repeat (map str_of_string ["1"; "2"; "3"; "4"; "5"; "6"; "7"]%string) 8)
                (with_phase READING_ROWS
                   (with_phase SEARCHING_MARKER
                      (listening (skipn 9 short_frames)))))
      as (self3 & H1 & _ & H2).
    + vm_compute. reflexivity.
    + vm_compute. discriminate.
    + exists self3. split; assumption.
  - eexists.
    apply (proj2 wrong_token_count_is_retried 1 (listening short_frames)).
    unfold max_attempts.
    repeat (eapply failed_next; [vm_compute; reflexivity|]).
    apply failed_none.
Defined.

(** ** Substrings *)

Lemma startswith_spec p : forall s,
  startswith p s = true <-> exists b, s = p ++ b.
Proof.
  induction p as [|a p IH]; intros s; simpl.
  - split; [intros _; exists s; reflexivity|reflexivity].
  - destruct s as [|c s].
    + split; [discriminate|intros (b & E); discriminate].
    + rewrite andb_true_iff, N.eqb_eq, IH. split.
      * intros (E & b & Es). subst. exists b. reflexivity.
      * intros (b & E). inversion E; subst. split; [reflexivity|eauto].
Qed.

Lemma contains_spec p : forall s,
  contains p s = true <-> exists a b, s = a ++ p ++ b.
Proof.
  induction s as [|c s IH].
  - simpl. rewrite orb_false_r, startswith_spec. split.
    + intros (b & E). exists [], b. exact E.
    + intros (a & b & E). destruct a; [exists b; exact E|discriminate].
  - cbn [contains]. rewrite orb_true_iff, startswith_spec, IH. split.
    + intros [(b & E)|(a & b & E)].
      * exists [], b. exact E.
      * exists (c :: a), b. rewrite E. reflexivity.
    + intros (a & b & E). destruct a as [|x a].
      * left. exists b. exact E.
      * right. inversion E; subst. eauto.
Qed.

Lemma contains_infix p a t b :
  contains p t = true -> contains p (a ++ t ++ b) = true.
Proof.
  rewrite !contains_spec. intros (x & y & E). subst.
  exists (a ++ x), (y ++ b). repeat rewrite <- app_assoc. reflexivity.
Qed.

Lemma lstrip_suffix s : exists a, s = a ++ lstrip s.
Proof.
  induction s as [|c s (a & IH)]; simpl.
  - exists []. reflexivity.
  - destruct (isspace c).
    + exists (c :: a). simpl. rewrite <- IH. reflexivity.
    + exists []. reflexivity.
Qed.

Lemma strip_infix s : exists a b, s = a ++ strip s ++ b.
Proof.
  unfold strip, rstrip.
  destruct (lstrip_suffix s) as (a & Ea).
  destruct (lstrip_suffix (rev (lstrip s))) as (b & Eb).
  exists a, (rev b).
  rewrite <- rev_app_distr, <- Eb, rev_involutive. exact Ea.
Qed.

Lemma contains_strip p s :
  contains p (strip s) = true -> contains p s = true.
Proof.
  intros H. destruct (strip_infix s) as (a & b & E).
  rewrite E. apply contains_infix. exact H.
Qed.

(** ** Decoding and ASCII *)

Lemma decode_utf8_ascii bs :
  ascii_only bs = true -> decode_utf8 bs = Ok (byte_values bs).
Proof.
  induction bs as [|b r IH]; simpl; intros H; [reflexivity|].
  apply andb_prop in H. destruct H as [Hb Hr].
  rewrite Hb, (IH Hr). reflexivity.
Qed.

Lemma rbind_cons_Ok (r : result str) (c c0 : N) s :
  rbind r (fun t => Ok (c :: t)) = Ok (c0 :: s) -> c0 = c /\ r = Ok s.
Proof. destruct r; simpl; intros H; inversion H; auto. Qed.

Lemma in_range_true lo hi n :
  in_range lo hi n = true -> (lo <= n /\ n <= hi)%N.
Proof.
  unfold in_range. rewrite andb_true_iff, !N.leb_le. auto.
Qed.

(** The first code point of a decoded text comes from a single byte of the
    same value when it is below 128; otherwise it is 128 or more.  Either
    way the rest of the text is the decoding of the bytes that follow. *)
Lemma decode_utf8_cons bs c s :
  decode_utf8 bs = Ok (c :: s) ->
  exists pre rest,
    bs = pre ++ rest /\ decode_utf8 rest = Ok s
    /\ ((c < 128)%N -> exists b, pre = [b] /\ Byte.to_N b = c).
Proof.
  destruct bs as [|b0 r0]; [discriminate|].
  cbn [decode_utf8]. cbv zeta.
  destruct (Byte.to_N b0 <? 128)%N eqn:H0.
  { intros H. apply rbind_cons_Ok in H. destruct H as [Ec Hr]. subst.
    exists [b0], r0. split; [reflexivity|]. split; [exact Hr|]. eauto. }
  apply N.ltb_ge in H0.
  destruct (in_range 194 223 (Byte.to_N b0)) eqn:H1.
  { apply in_range_true in H1.
    destruct r0 as [|b1 r1]; [discriminate|].
    destruct (is_continuation (Byte.to_N b1)) eqn:C1; [|discriminate].
    apply in_range_true in C1.
    intros H. apply rbind_cons_Ok in H. destruct H as [Ec Hr].
    exists [b0; b1], r1. split; [reflexivity|]. split; [exact Hr|].
    intros Hc. exfalso. lia. }
  destruct (in_range 224 239 (Byte.to_N b0)) eqn:H2.
  { apply in_range_true in H2.
    destruct r0 as [|b1 [|b2 r2]]; try discriminate.
    match goal with |- (if ?g then _ else _) = _ -> _ => destruct g eqn:G end;
      [|discriminate].
    apply andb_prop in G. destruct G as [G1 G2].
    apply in_range_true in G1, G2.
    intros H. apply rbind_cons_Ok in H. destruct H as [Ec Hr].
    exists [b0; b1; b2], r2. split; [reflexivity|]. split; [exact Hr|].
    intros Hc. exfalso.
    destruct (Byte.to_N b0 =? 224)%N eqn:E0;
      [apply N.eqb_eq in E0|apply N.eqb_neq in E0]; lia. }
  destruct (in_range 240 244 (Byte.to_N b0)) eqn:H3; [|discriminate].
  apply in_range_true in H3.
  destruct r0 as [|b1 [|b2 [|b3 r3]]]; try discriminate.
  match goal with |- (if ?g then _ else _) = _ -> _ => destruct g eqn:G end;
    [|discriminate].
  apply andb_prop in G. destruct G as [G G3].
  apply andb_prop in G. destruct G as [G1 G2].
  apply in_range_true in G1, G2, G3.
  intros H. apply rbind_cons_Ok in H. destruct H as [Ec Hr].
  exists [b0; b1; b2; b3], r3. split; [reflexivity|]. split; [exact Hr|].
  intros Hc. exfalso.
  destruct (Byte.to_N b0 =? 240)%N eqn:E0;
    [apply N.eqb_eq in E0|apply N.eqb_neq in E0]; lia.
Qed.

Lemma startswith_contains p s : startswith p s = true -> contains p s = true.
Proof. intros H. destruct s; simpl in *; rewrite H; reflexivity. Qed.

Lemma decode_utf8_startswith p : forall bs s,
  forallb (fun c => (c <? 128)%N) p = true ->
  decode_utf8 bs = Ok s -> startswith p s = true ->
  startswith p (byte_values bs) = true.
Proof.
  induction p as [|a p IH]; intros bs s Hp Hd Hs; [reflexivity|].
  simpl in Hp. apply andb_prop in Hp. destruct Hp as [Ha Hp].
  destruct s as [|c s]; [discriminate|]. simpl in Hs.
  apply andb_prop in Hs. destruct Hs as [Hac Hs].
  apply N.eqb_eq in Hac. subst c. apply N.ltb_lt in Ha.
  destruct (decode_utf8_cons _ _ _ Hd) as (pre & rest & E & Hr & Hone).
  destruct (Hone Ha) as (b & Epre & Eb). subst. simpl.
  rewrite N.eqb_refl. simpl. apply (IH rest s); assumption.
Qed.

(** A run of ASCII characters found in a decoded text is found in the raw
    bytes as well. *)
Lemma decode_utf8_contains p :
  forallb (fun c => (c <? 128)%N) p = true ->
  forall s bs, decode_utf8 bs = Ok s -> contains p s = true ->
               contains p (byte_values bs) = true.
Proof.
  intros Hp. induction s as [|c s IH]; intros bs Hd Hc.
  - apply startswith_contains. apply (decode_utf8_startswith p bs []); auto.
    simpl in Hc. rewrite orb_false_r in Hc. exact Hc.
  - cbn [contains] in Hc. apply orb_prop in Hc. destruct Hc as [Hs|Hc].
    + apply startswith_contains.
      apply (decode_utf8_startswith p bs (c :: s)); auto.
    + destruct (decode_utf8_cons _ _ _ Hd) as (pre & rest & E & Hr & _).
      subst bs. unfold byte_values. rewrite map_app.
      rewrite <- (app_nil_r (map Byte.to_N rest)).
      apply contains_infix. apply IH; assumption.
Qed.

Lemma line_text_contains raw text :
  line_text raw = Ok text -> contains marker text = true ->
  contains marker (byte_values raw) = true.
Proof.
  unfold line_text. destruct (decode_utf8 raw) as [s|e] eqn:Hd; [|discriminate].
  simpl. intros H Hc. inversion H; subst.
  apply (decode_utf8_contains marker eq_refl s raw Hd).
  apply contains_strip. exact Hc.
Qed.

(** ** Streams without the marker *)

Lemma marker_free_app a b :
  marker_free (a ++ b) = true ->
  marker_free a = true /\ marker_free b = true.
Proof.
  unfold marker_free, byte_values. rewrite map_app. intros H.
  apply negb_true_iff in H. split; apply negb_true_iff.
  - destruct (contains marker (map Byte.to_N a)) eqn:Hc; [|reflexivity].
    rewrite <- H. symmetry.
    apply (contains_infix marker [] _ (map Byte.to_N b)). exact Hc.
  - destruct (contains marker (map Byte.to_N b)) eqn:Hc; [|reflexivity].
    rewrite <- H. symmetry.
    rewrite <- (app_nil_r (map Byte.to_N b)).
    apply contains_infix. exact Hc.
Qed.

(** A read on a port whose pending bytes hold no marker: the line, if one
    comes back, holds no marker, and no marker is pending afterwards. *)
Lemma read_stripped_line_marker_free self :
  marker_free (pending (ser self)) = true ->
  exists r self',
    read_stripped_line self = Some (r, self')
    /\ marker_free (pending (ser self')) = true
    /\ (forall text, r = Ok text -> contains marker text = false)
    /\ (forall e, r = Raise e -> line_error e).
Proof.
  intros Hfree.
  destruct (readline (ser self)) as [[raw|e] p'] eqn:Hr.
  - destruct (readline_pending _ _ _ Hr) as (pre & E & Hl).
    rewrite (Hl raw eq_refl) in *. clear Hl.
    rewrite E in Hfree. apply marker_free_app in Hfree.
    destruct Hfree as [Hpre Hp'].
    exists (line_text pre), (with_ser p' self).
    split; [apply read_stripped_line_Ok; exact Hr|].
    split; [exact Hp'|]. split.
    + intros text Ht. destruct (contains marker text) eqn:Hc; [|reflexivity].
      pose proof (line_text_contains _ _ Ht Hc) as Hraw.
      unfold marker_free in Hpre. rewrite Hraw in Hpre. discriminate.
    + intros e. unfold line_text.
      destruct (decode_utf8 pre) as [s|e'] eqn:Hd; simpl; [discriminate|].
      intros He. inversion He; subst. apply decode_utf8_raises in Hd.
      left. exact Hd.
  - destruct (readline_pending _ _ _ Hr) as (pre & E & _).
    rewrite E in Hfree. apply marker_free_app in Hfree.
    exists (Raise e), (with_ser p' self).
    split; [apply read_stripped_line_Raise; exact Hr|].
    split; [apply Hfree|]. split; [discriminate|].
    intros e' He. inversion He; subst. apply readline_raises in Hr.
    right. exact Hr.
Qed.

(** The marker search on such a port never succeeds: it is still going on
    when the loop budget ends, or it was ended by an undecodable line or a
    fault of the port. *)
Lemma wait_for_marker_marker_free fuel : forall self,
  marker_free (pending (ser self)) = true ->
  wait_for_marker fuel self = None
  \/ exists e self', wait_for_marker fuel self = Some (Raise e, self')
                     /\ line_error e
                     /\ marker_free (pending (ser self')) = true.
Proof.
  induction fuel as [|fuel IH]; intros self Hfree; [left; reflexivity|].
  destruct (read_stripped_line_marker_free self Hfree)
    as (r & s1 & Hr & Hfree1 & Hok & Hraise).
  simpl. destruct r as [text|e].
  - rewrite (bind_Ok _ _ _ _ _ Hr), (Hok text eq_refl).
    apply IH. exact Hfree1.
  - right. exists e, s1. rewrite (bind_Raise _ _ _ _ _ Hr). auto.
Qed.

(** An attempt, step by step. *)
Lemma attempt_body_unfold fuel self :
  attempt_body fuel self
  = match wait_for_marker fuel (searching self) with
    | None => None
    | Some (Raise e, s) => Some (Raise e, s)
    | Some (Ok _, s) =>
        bind (read_data_lines 8) convert_payload (with_phase READING_ROWS s)
    end.
Proof.
  unfold attempt_body, read_payload, searching, bind, ser_reset_input_buffer, enter.
  destruct (wait_for_marker fuel _) as [[[u|e] s]|]; reflexivity.
Qed.

Lemma attempt_body_marker_free fuel self :
  marker_free (wire_bytes (wire (ser self))) = true ->
  attempt_body fuel self = None
  \/ exists e self', attempt_body fuel self = Some (Raise e, self')
                     /\ line_error e
                     /\ marker_free (wire_bytes (wire (ser self'))) = true.
Proof.
  intros Hfree. rewrite attempt_body_unfold.
  assert (H0 : marker_free (pending (ser (searching self))) = true) by exact Hfree.
  destruct (wait_for_marker_marker_free fuel (searching self) H0)
    as [Hn|(e & s1 & Hw & He & Hfree1)].
  - left. rewrite Hn. reflexivity.
  - right. exists e, s1. rewrite Hw. split; [reflexivity|]. split; [exact He|].
    unfold pending in Hfree1. apply marker_free_app in Hfree1. apply Hfree1.
Qed.

Lemma line_error_caught e : line_error e -> reader_catches e = true.
Proof. intros [E|E]; subst; reflexivity. Qed.

Lemma attempts_marker_free fuel k : forall self,
  marker_free (wire_bytes (wire (ser self))) = true ->
  attempts fuel k self = None
  \/ exists self', failed_attempts fuel k self self'
                   /\ attempts fuel k self = Some (Ok (zeros 8 8), self').
Proof.
  induction k as [|k IH]; intros self Hfree.
  - right. exists self. split; [constructor|reflexivity].
  - destruct (attempt_body_marker_free fuel self Hfree)
      as [Hn|(e & s1 & Hb & He & Hfree1)].
    + left. apply attempts_stuck. unfold one_attempt, try_except.
      rewrite Hn. reflexivity.
    + pose proof (one_attempt_handles fuel self e s1 Hb) as H1.
      rewrite (attempts_continue fuel k self s1 H1).
      destruct (IH (with_phase RETRY s1) Hfree1) as [Hn|(s2 & Hf & Hr)].
      * left. exact Hn.
      * right. exists s2. split; [|exact Hr].
        apply failed_next with (self1 := s1); assumption.
Qed.

(** ** A silent or chattering line *)

Lemma ascii_only_app a b :
  ascii_only (a ++ b) = ascii_only a && ascii_only b.
Proof. apply forallb_app. Qed.

(** With no fault on the wire, only ASCII bytes and no marker pending, a
    read hands back a line without the marker and these three facts still
    hold. *)
Lemma read_stripped_line_no_marker self :
  faultless (wire (ser self)) = true ->
  ascii_only (pending (ser self)) = true ->
  marker_free (pending (ser self)) = true ->
  exists text self',
    read_stripped_line self = Some (Ok text, self')
    /\ contains marker text = false
    /\ faultless (wire (ser self')) = true
    /\ ascii_only (pending (ser self')) = true
    /\ marker_free (pending (ser self')) = true.
Proof.
  intros Hf Ha Hm.
  destruct (readline (ser self)) as [r p'] eqn:Hr.
  destruct (readline_faultless _ _ _ Hf Hr) as ((raw & Eraw) & Hf'). subst r.
  destruct (readline_pending _ _ _ Hr) as (pre & E & Hl).
  rewrite (Hl raw eq_refl) in *. clear Hl.
  rewrite E, ascii_only_app in Ha. apply andb_prop in Ha. destruct Ha as [Ha1 Ha2].
  destruct (read_stripped_line_marker_free self Hm)
    as (r & s1 & Hs & Hm1 & Hok & _).
  rewrite (read_stripped_line_Ok _ _ _ Hr) in Hs. inversion Hs; subst.
  unfold line_text in *. rewrite (decode_utf8_ascii _ Ha1) in *. simpl in *.
  exists (strip (byte_values pre)), (with_ser p' self). split.
  - rewrite (read_stripped_line_Ok _ _ _ Hr). unfold line_text.
    rewrite (decode_utf8_ascii _ Ha1). reflexivity.
  - repeat split; auto.
Qed.

Lemma wait_for_marker_hangs fuel : forall self,
  faultless (wire (ser self)) = true ->
  ascii_only (pending (ser self)) = true ->
  marker_free (pending (ser self)) = true ->
  wait_for_marker fuel self = None.
Proof.
  induction fuel as [|fuel IH]; intros self Hf Ha Hm; [reflexivity|].
  destruct (read_stripped_line_no_marker self Hf Ha Hm)
    as (text & s1 & Hr & Hc & Hf1 & Ha1 & Hm1).
  simpl. rewrite (bind_Ok _ _ _ _ _ Hr), Hc. apply IH; assumption.
Qed.

Lemma attempts_hang fuel k self :
  faultless (wire (ser self)) = true ->
  ascii_only (wire_bytes (wire (ser self))) = true ->
  marker_free (wire_bytes (wire (ser self))) = true ->
  attempts fuel (S k) self = None.
Proof.
  intros Hf Ha Hm. apply attempts_stuck.
  unfold one_attempt, try_except. rewrite attempt_body_unfold.
  rewrite (wait_for_marker_hangs fuel (searching self)); [reflexivity|..];
    assumption.
Qed.

(** C1, counterexample.  On a line that stays silent every read times out
    and hands back an empty line; the marker search goes on, and no loop
    budget lets [read_thermal_data] return anything, the fallback
    included. *)
Lemma silent_line_never_returns :
  ~ exists fuel frame self',
      read_thermal_data fuel (listening silent_line) = Some (Ok frame, self').
Proof.
  intros (fuel & frame & s & H).
  unfold read_thermal_data, max_attempts in H.
  rewrite attempts_hang in H; [discriminate|reflexivity..].
Qed.

(** C1, as amended.  On a stream without the marker an attempt is never
    ended by a timeout: it goes on searching, or is ended by an undecodable
    line or a fault of the port.  [read_thermal_data] is therefore still
    running when the loop budget ends or has returned the all-zero 8x8
    fallback after [max_attempts] attempts ended that way; with no fault
    and only ASCII bytes on the wire it never returns. *)
Theorem markerless_stream_outcome :
  (forall fuel self,
      marker_free (wire_bytes (wire (ser self))) = true ->
      attempt_body fuel self = None
      \/ exists e self', attempt_body fuel self = Some (Raise e, self')
                         /\ line_error e)
  /\ (forall fuel self,
         marker_free (wire_bytes (wire (ser self))) = true ->
         read_thermal_data fuel self = None
         \/ exists self',
             failed_attempts fuel max_attempts self self'
             /\ read_thermal_data fuel self = Some (Ok (zeros 8 8), self'))
  /\ (forall fuel self,
         marker_free (wire_bytes (wire (ser self))) = true ->
         faultless (wire (ser self)) = true ->
         ascii_only (wire_bytes (wire (ser self))) = true ->
         read_thermal_data fuel self = None).
Proof.
  split; [|split].
  - intros fuel self Hm.
    destruct (attempt_body_marker_free fuel self Hm) as [H|(e & s & H & He & _)];
      [left; exact H|right; eauto].
  - intros fuel self Hm. apply attempts_marker_free. exact Hm.
  - intros fuel self Hm Hf Ha. apply attempts_hang; assumption.
Qed.

Lemma markerless_stream_outcome_witness :
  read_thermal_data 50 (listening chatter) = None
  /\ exists self', read_thermal_data 50 (listening (repeat Fault 10))
                   = Some (Ok (zeros 8 8), self').
Proof.
  split.
  - apply (proj2 (proj2 markerless_stream_outcome) 50 (listening chatter));
      reflexivity.
  - destruct (proj1 (proj2 markerless_stream_outcome) 50
                    (listening (repeat Fault 10)) eq_refl)
      as [H|(s & _ & H)].
    + vm_compute in H. discriminate H.
    + exists s. exact H.
Defined.

(** ** A well-formed frame that is lost *)

(** With a pause inside the first row the eight reads stop one row short,
    and the row that is left holds no marker. *)
Lemma paused_A_hangs fuel :
  read_thermal_data (S fuel) (listening paused_A) = None.
Proof.
  unfold read_thermal_data, max_attempts.
  rewrite (attempts_continue (S fuel) 9 (listening paused_A)
             (with_phase VALIDATING (with_phase READING_ROWS
                (with_phase SEARCHING_MARKER
                   (listening (line_by_line ["1 2 3 4 5 6 7 8"%string]))))));
    [|vm_compute; reflexivity].
  apply attempts_hang; vm_compute; reflexivity.
Qed.

(** After a fault behind the marker line the next attempt finds only the
    rows, which hold no marker. *)
Lemma faulted_A_hangs fuel :
  read_thermal_data (S fuel) (listening faulted_A) = None.
Proof.
  unfold read_thermal_data, max_attempts.
  rewrite (attempts_continue (S fuel) 9 (listening faulted_A)
             (with_phase READING_ROWS
                (with_phase SEARCHING_MARKER
                   (listening
                      (line_by_line (repeat "1 2 3 4 5 6 7 8"%string 8))))));
    [|vm_compute; reflexivity].
  apply attempts_hang; vm_compute; reflexivity.
Qed.

(** What was received before the call is dropped. *)
Lemma buffered_A_hangs fuel :
  read_thermal_data (S fuel) (opened buffered_A) = None.
Proof.
  unfold read_thermal_data, max_attempts.
  apply attempts_hang; vm_compute; reflexivity.
Qed.

(** C3, counterexample.  The bytes of Scenario A, a marker line and eight
    rows [1 2 3 4 5 6 7 8], do not always give a frame.  Delivered with a
    pause as long as the read timeout inside the first row, the row is read
    as two lines, the eight reads stop one row short with 56 tokens, and the
    next attempt finds no marker in the row that is left: no loop budget
    lets the call return.  With a fault of the port behind the marker line
    the attempt is given up and the next one finds no marker in the rows.
    Received in full before the call, the bytes are dropped by the reset
    that opens the attempt.  In all three cases the call never returns. *)
Lemma paused_or_buffered_frame_is_lost :
  (wire_bytes paused_A = scenario_A_stream
   /\ ~ exists fuel frame self',
         read_thermal_data fuel (listening paused_A) = Some (Ok frame, self'))
  /\ (wire_bytes faulted_A = scenario_A_stream
      /\ ~ exists fuel frame self',
            read_thermal_data fuel (listening faulted_A)
            = Some (Ok frame, self'))
  /\ (in_buffer buffered_A = scenario_A_stream
      /\ ~ exists fuel frame self',
            read_thermal_data fuel (opened buffered_A)
            = Some (Ok frame, self')).
Proof.
  split; [|split]; (split; [vm_compute; reflexivity|]);
    intros (fuel & frame & s & H); (destruct fuel as [|fuel]; [discriminate H|]).
  - rewrite paused_A_hangs in H. discriminate H.
  - rewrite faulted_A_hangs in H. discriminate H.
  - rewrite buffered_A_hangs in H. discriminate H.
Qed.

(** ** What [float] accepts *)

Lemma span_digits_spec s : forall d t,
  span_digits s = (d, t) -> s = d ++ t /\ forallb isdigit d = true.
Proof.
  induction s as [|c r IH]; simpl; intros d t H.
  - inversion H. split; reflexivity.
  - destruct (isdigit c) eqn:Hc.
    + destruct (span_digits r) as [d' t']. inversion H; subst.
      destruct (IH d' t eq_refl) as [E Hd]. subst. simpl. rewrite Hc, Hd.
      split; reflexivity.
    + inversion H. split; reflexivity.
Qed.

Lemma digits_float_char d :
  forallb isdigit d = true -> forallb float_char d = true.
Proof.
  induction d as [|c d IH]; simpl; intros H; [reflexivity|].
  apply andb_prop in H. destruct H as [Hc Hd]. rewrite (IH Hd).
  unfold float_char. rewrite Hc. rewrite orb_true_r. reflexivity.
Qed.

Lemma take_sign_float_char s negative t :
  take_sign s = (negative, t) ->
  forallb float_char t = true -> forallb float_char s = true.
Proof.
  destruct s as [|c r]; simpl; intros H Ht.
  - reflexivity.
  - destruct (c =? 43)%N eqn:H43.
    + inversion H; subst. rewrite Ht. apply N.eqb_eq in H43. subst. reflexivity.
    + destruct (c =? 45)%N eqn:H45.
      * inversion H; subst. rewrite Ht. apply N.eqb_eq in H45. subst.
        reflexivity.
      * inversion H; subst. exact Ht.
Qed.

Lemma str_eqb_eq a : forall b, str_eqb a b = true -> a = b.
Proof.
  induction a as [|x a IH]; intros [|y b]; simpl; intros H;
    try discriminate; [reflexivity|].
  apply andb_prop in H. destruct H as [Hx Ha].
  apply N.eqb_eq in Hx. rewrite (IH b Ha), Hx. reflexivity.
Qed.

Lemma letters_float_char u lit :
  str_eqb (map lower u) lit = true ->
  forallb float_letter lit = true -> forallb float_char u = true.
Proof.
  intros E Hl. apply str_eqb_eq in E. subst lit.
  induction u as [|c u IH]; simpl in *; [reflexivity|].
  apply andb_prop in Hl. destruct Hl as [Hc Hu]. rewrite (IH Hu).
  unfold float_char. rewrite Hc. rewrite orb_true_r. reflexivity.
Qed.

Lemma exponent_float_char c r3 eneg r4 ed :
  ((c =? 101)%N || (c =? 69)%N) = true ->
  take_sign r3 = (eneg, r4) -> span_digits r4 = (ed, []) ->
  forallb float_char (c :: r3) = true.
Proof.
  intros Hc Hs Hd. simpl. apply andb_true_intro. split.
  - apply orb_prop in Hc. destruct Hc as [E|E]; apply N.eqb_eq in E;
      subst; reflexivity.
  - apply (take_sign_float_char _ _ _ Hs).
    apply span_digits_spec in Hd. destruct Hd as [E Hd]. subst.
    rewrite app_nil_r. apply digits_float_char. exact Hd.
Qed.

Lemma forallb_float_char_app a b :
  forallb float_char a = true -> forallb float_char b = true ->
  forallb float_char (a ++ b) = true.
Proof. intros Ha Hb. rewrite forallb_app, Ha, Hb. reflexivity. Qed.

Lemma parse_float_chars t v :
  parse_float t = Ok v -> forallb float_char t = true.
Proof.
  unfold parse_float. destruct (take_sign t) as [negative u] eqn:Hs.
  intros H. apply (take_sign_float_char _ _ _ Hs). clear Hs.
  destruct (str_eqb (map lower u) (str_of_string "inf")) eqn:Hinf.
  { apply (letters_float_char _ _ Hinf). reflexivity. }
  destruct (str_eqb (map lower u) (str_of_string "infinity")) eqn:Hinfinity.
  { apply (letters_float_char _ _ Hinfinity). reflexivity. }
  destruct (str_eqb (map lower u) (str_of_string "nan")) eqn:Hnan.
  { apply (letters_float_char _ _ Hnan). reflexivity. }
  simpl in H.
  destruct (span_digits u) as [ip r1] eqn:H1.
  apply span_digits_spec in H1. destruct H1 as [Eu Hip]. subst u.
  apply forallb_float_char_app; [apply digits_float_char; exact Hip|].
  assert (Htail : forall r2,
    match r2 with
    | [] => True
    | c :: r3 =>
        if (c =? 101)%N || (c =? 69)%N
        then exists eneg r4 ed, take_sign r3 = (eneg, r4)
                                /\ span_digits r4 = (ed, [])
        else False
    end -> forallb float_char r2 = true).
  { intros [|c r3]; [reflexivity|].
    destruct ((c =? 101)%N || (c =? 69)%N) eqn:Hc; [|tauto].
    intros (eneg & r4 & ed & Hs & Hd).
    apply (exponent_float_char _ _ _ _ _ Hc Hs Hd). }
  assert (Hexp : forall (fp r2 : str),
    match ip ++ fp with
    | [] => Raise ValueError
    | _ :: _ =>
        let m := digits_value (ip ++ fp) in
        let scale := Z.of_nat (length fp) in
        match r2 with
        | [] => Ok (finite negative m (- scale))
        | c :: r3 =>
            if (c =? 101)%N || (c =? 69)%N then
              let (eneg, r4) := take_sign r3 in
              let (ed, r5) := span_digits r4 in
              match ed, r5 with
              | _ :: _, [] =>
                  let ex := Z.of_N (digits_value ed) in
                  Ok (finite negative m
                              ((if eneg then - ex else ex) - scale))
              | _, _ => Raise ValueError
              end
            else Raise ValueError
        end
    end = Ok v -> forallb float_char r2 = true).
  { intros fp r2 Hv. apply Htail.
    destruct (ip ++ fp); [discriminate|].
    destruct r2 as [|c r3]; [exact I|]. cbv zeta in Hv.
    destruct ((c =? 101)%N || (c =? 69)%N); [|discriminate].
    destruct (take_sign r3) as [eneg r4] eqn:Hs.
    destruct (span_digits r4) as [ed r5] eqn:Hd.
    destruct ed; [discriminate|]. destruct r5; [|discriminate].
    eauto. }
  destruct r1 as [|c r].
  - reflexivity.
  - destruct (c =? 46)%N eqn:Hdot.
    + destruct (span_digits r) as [fp r2] eqn:H2.
      apply span_digits_spec in H2. destruct H2 as [Er Hfp]. subst r.
      simpl. apply andb_true_intro. split.
      * apply N.eqb_eq in Hdot. subst. reflexivity.
      * apply forallb_float_char_app; [apply digits_float_char; exact Hfp|].
        apply (Hexp fp r2). exact H.
    + apply (Hexp [] (c :: r)). exact H.
Qed.

Lemma remove_underscores_chars u : forall prev t,
  remove_underscores prev u = Some t ->
  forallb float_char t = true -> forallb float_char u = true.
Proof.
  induction u as [|c r IH]; simpl; intros prev t H Ht; [reflexivity|].
  destruct (c =? 95)%N eqn:Hc.
  - apply N.eqb_eq in Hc. subst c.
    destruct (isdigit prev); [|discriminate].
    rewrite (IH _ _ H Ht). reflexivity.
  - destruct ((prev =? 95)%N && negb (isdigit c)); [discriminate|].
    destruct (remove_underscores c r) as [t'|] eqn:Hr; [|discriminate].
    inversion H; subst. simpl in Ht. apply andb_prop in Ht.
    destruct Ht as [Hc' Ht']. rewrite Hc', (IH _ _ Hr Ht'). reflexivity.
Qed.

Lemma lstrip_spaces s :
  exists a, s = a ++ lstrip s /\ forallb isspace a = true.
Proof.
  induction s as [|c s (a & IH & Ha)]; simpl.
  - exists []. split; reflexivity.
  - destruct (isspace c) eqn:Hc.
    + exists (c :: a). simpl. rewrite <- IH, Hc, Ha. split; reflexivity.
    + exists []. split; reflexivity.
Qed.

Lemma forallb_rev {A} (f : A -> bool) l :
  forallb f l = true -> forallb f (rev l) = true.
Proof.
  rewrite !forallb_forall. intros H x Hx. apply H, in_rev. exact Hx.
Qed.

Lemma spaces_float_char a :
  forallb isspace a = true -> forallb float_char a = true.
Proof.
  induction a as [|c a IH]; simpl; intros H; [reflexivity|].
  apply andb_prop in H. destruct H as [Hc Ha]. rewrite (IH Ha).
  unfold float_char. rewrite Hc. reflexivity.
Qed.

Lemma strip_float_char s :
  forallb float_char (strip s) = true -> forallb float_char s = true.
Proof.
  unfold strip, rstrip. intros H.
  destruct (lstrip_spaces s) as (a & Ea & Ha).
  destruct (lstrip_spaces (rev (lstrip s))) as (b & Eb & Hb).
  rewrite Ea. apply forallb_float_char_app; [apply spaces_float_char, Ha|].
  rewrite <- (rev_involutive (lstrip s)), Eb, rev_app_distr.
  apply forallb_float_char_app; [exact H|].
  apply spaces_float_char, forallb_rev, Hb.
Qed.

(** Every character of an accepted argument is one a float literal can
    hold. *)
Lemma py_float_chars s v : py_float s = Ok v -> forallb float_char s = true.
Proof.
  unfold py_float.
  destruct (remove_underscores 0 (strip s)) as [t|] eqn:Hu; [|discriminate].
  intros H. apply strip_float_char.
  apply (remove_underscores_chars _ _ _ Hu).
  apply (parse_float_chars _ _ H).
Qed.

Lemma py_float_rejects tok c :
  In c tok -> float_char c = false -> py_float tok = Raise ValueError.
Proof.
  intros Hin Hc. destruct (py_float tok) as [v|e] eqn:H.
  - apply py_float_chars in H. rewrite forallb_forall in H.
    rewrite (H c Hin) in Hc. discriminate.
  - apply py_float_raises in H. subst. reflexivity.
Qed.

(** ** Tokens *)

Lemma split_from_covers s : forall cur c,
  In c cur \/ In c s -> isspace c = false ->
  exists tok, In tok (split_from cur s) /\ In c tok.
Proof.
  induction s as [|x r IH]; intros cur c Hin Hc; simpl.
  - destruct Hin as [Hin|[]]. destruct cur as [|y cur]; [destruct Hin|].
    exists (y :: cur). split; [left; reflexivity|exact Hin].
  - destruct (isspace x) eqn:Hx.
    + destruct Hin as [Hin|[E|Hin]].
      * destruct cur as [|y cur]; [destruct Hin|].
        exists (y :: cur). split; [left; reflexivity|exact Hin].
      * subst. congruence.
      * destruct (IH [] c (or_intror Hin) Hc) as (tok & Ht & Hct).
        exists tok. split; [|exact Hct].
        destruct cur; [exact Ht|right; exact Ht].
    + apply IH; [|exact Hc].
      destruct Hin as [Hin|[E|Hin]].
      * left. apply in_or_app. left. exact Hin.
      * left. apply in_or_app. right. left. exact E.
      * right. exact Hin.
Qed.

Lemma split_covers s c :
  In c s -> isspace c = false -> exists tok, In tok (split s) /\ In c tok.
Proof. intros Hin. apply split_from_covers. right. exact Hin. Qed.

(** A line that holds the marker has a token [float] rejects. *)
Lemma marker_line_not_numeric text :
  contains marker text = true ->
  exists tok, In tok (split text) /\ py_float tok = Raise ValueError.
Proof.
  intros H. apply contains_spec in H. destruct H as (a & b & E).
  assert (Hin : In 104%N text).
  { subst. apply in_or_app. right. apply in_or_app. left.
    vm_compute. tauto. }
  destruct (split_covers text 104%N Hin eq_refl) as (tok & Ht & Hc).
  exists tok. split; [exact Ht|].
  apply (py_float_rejects tok 104%N Hc). reflexivity.
Qed.

Lemma comprehension_rejects {A B} (f : A -> result B) e0 xs x :
  (forall y e, f y = Raise e -> e = e0) ->
  In x xs -> f x = Raise e0 -> comprehension f xs = Raise e0.
Proof.
  intros Hf. induction xs as [|y xs IH]; simpl; intros Hin Hx; [destruct Hin|].
  destruct (f y) as [v|e] eqn:Hy.
  - destruct Hin as [E|Hin]; [congruence|]. rewrite (IH Hin Hx). reflexivity.
  - rewrite (Hf y e Hy). reflexivity.
Qed.

(** ** A marker inside the payload *)

Lemma payload_tokens_snoc rows : forall toks m text,
  payload_tokens rows = Ok toks -> line_text (m ++ [LF]) = Ok text ->
  payload_tokens (rows ++ [m]) = Ok (toks ++ [split text]).
Proof.
  induction rows as [|l rows IH]; intros toks m text Hr Hm.
  - inversion Hr; subst. simpl. rewrite payload_tokens_cons, Hm. reflexivity.
  - simpl. rewrite payload_tokens_cons in *.
    destruct (line_text (l ++ [LF])) as [t|e]; [|discriminate].
    destruct (payload_tokens rows) as [ts|e] eqn:Hrows; [|discriminate].
    inversion Hr; subst. rewrite (IH ts m text eq_refl Hm). reflexivity.
Qed.

Lemma steady_faultless w : steady w = true -> faultless w = true.
Proof.
  induction w as [|ev w IH]; simpl; intros H; [reflexivity|].
  apply andb_prop in H. destruct H as [Hev Hw]. rewrite (IH Hw).
  destruct ev; [reflexivity|discriminate..].
Qed.

(** The attempt that meets a second marker after seven payload lines takes
    the marker line as its eighth line and ends without a frame, with what
    follows the second marker line still to be read. *)
Lemma one_attempt_second_marker fuel self m1 rows m2 rest text1 text2 toks :
  steady (wire (ser self)) = true ->
  wire_bytes (wire (ser self)) = stream_of (m1 :: rows ++ [m2]) ++ rest ->
  no_newline m1 = true -> forallb no_newline rows = true ->
  no_newline m2 = true ->
  line_text (m1 ++ [LF]) = Ok text1 -> contains marker text1 = true ->
  length rows = 7 -> payload_tokens rows = Ok toks ->
  line_text (m2 ++ [LF]) = Ok text2 -> contains marker text2 = true ->
  exists self1,
    one_attempt (S fuel) self = Some (Ok None, self1)
    /\ pending (ser self1) = rest
    /\ steady (wire (ser self1)) = true.
Proof.
  intros Hs E Hm1 Hrows Hm2 Ht1 Hc1 Hlen Htoks Ht2 Hc2.
  assert (Hn : forallb no_newline (rows ++ [m2]) = true).
  { rewrite forallb_app, Hrows. simpl. rewrite Hm2. reflexivity. }
  assert (Hlen8 : length (rows ++ [m2]) = 8).
  { rewrite length_app, Hlen. reflexivity. }
  pose proof (payload_tokens_snoc rows toks m2 text2 Htoks Ht2) as Htok8.
  destruct (read_payload_stream fuel self m1 (rows ++ [m2]) rest text1
              (toks ++ [split text2]) Hs E Hm1 Hn Ht1 Hc1 Hlen8 Htok8)
    as (s2 & H2 & E2 & Hs2).
  exists (with_phase VALIDATING s2). split; [|split; assumption].
  apply one_attempt_handles with (e := ValueError). unfold attempt_body.
  rewrite (bind_Ok _ _ _ _ _ H2). apply convert_payload_raise.
  destruct (marker_line_not_numeric text2 Hc2) as (tok & Hin & Hf).
  apply (comprehension_rejects py_float ValueError _ tok).
  - intros y e. apply py_float_raises.
  - rewrite concat_app. apply in_or_app. right. simpl.
    rewrite app_nil_r. exact Hin.
  - exact Hf.
Qed.

(** When only marker-free ASCII text follows the second marker line, the
    search of the second attempt never ends. *)
Lemma second_marker_then_no_marker fuel self m1 rows m2 rest text1 text2 toks :
  steady (wire (ser self)) = true ->
  wire_bytes (wire (ser self)) = stream_of (m1 :: rows ++ [m2]) ++ rest ->
  no_newline m1 = true -> forallb no_newline rows = true ->
  no_newline m2 = true ->
  line_text (m1 ++ [LF]) = Ok text1 -> contains marker text1 = true ->
  length rows = 7 -> payload_tokens rows = Ok toks ->
  line_text (m2 ++ [LF]) = Ok text2 -> contains marker text2 = true ->
  ascii_only rest = true -> marker_free rest = true ->
  read_thermal_data (S fuel) self = None.
Proof.
  intros Hs E Hm1 Hrows Hm2 Ht1 Hc1 Hlen Htoks Ht2 Hc2 Ha Hm.
  destruct (one_attempt_second_marker fuel self m1 rows m2 rest text1 text2
              toks Hs E Hm1 Hrows Hm2 Ht1 Hc1 Hlen Htoks Ht2 Hc2)
    as (s1 & H1 & E1 & Hs1).
  unfold read_thermal_data, max_attempts.
  rewrite (attempts_continue (S fuel) 9 self s1 H1).
  rewrite <- E1 in Ha, Hm. unfold pending in Ha, Hm.
  rewrite ascii_only_app in Ha. apply andb_prop in Ha.
  apply marker_free_app in Hm.
  apply attempts_hang; [apply steady_faultless; exact Hs1|apply Ha|apply Hm].
Qed.

Lemma scenario_B_hangs fuel :
  read_thermal_data (S fuel) (listening scenario_B) = None.
Proof.
  apply (second_marker_then_no_marker fuel (listening scenario_B)
           (list_byte_of_string "Thermal data:") scenario_B_rows
           (list_byte_of_string "Thermal data:") scenario_B_rest
           (str_of_string "Thermal data:") (str_of_string "Thermal data:")
           (repeat (map str_of_string
                      ["1"; "2"; "3"; "4"; "5"; "6"; "7"; "8"]%string) 7));
    vm_compute; reflexivity.
Qed.

(** C8, counterexample.  Scenario B followed by a third frame: the call
    returns the third frame, of fives, not the frame of nines that follows
    the second marker; and with nothing after the second frame no loop
    budget lets the call return at all. *)
Lemma frame_after_second_marker_is_skipped :
  (exists self', read_thermal_data 30 (listening scenario_B_continued)
                 = Some (Ok frame_of_fives, self'))
  /\ frame_of_fives <> frame_of_nines
  /\ ~ exists fuel frame self',
         read_thermal_data fuel (listening scenario_B)
         = Some (Ok frame, self').
Proof.
  split; [apply returned_frame; vm_compute; reflexivity|].
  split; [discriminate|].
  intros (fuel & frame & s & H).
  destruct fuel as [|fuel].
  - discriminate H.
  - rewrite scenario_B_hangs in H. discriminate H.
Qed.

(** C8, as amended.  With a marker line, seven payload lines and a second
    marker line on a steady stream, the first attempt reads the second
    marker line as its eighth payload line and fails on it; the partial
    data and the second marker line are gone, and the call goes on with the
    nine attempts left, the first of which searches for a marker in what
    follows the second marker line.  The payload of the second marker is
    therefore passed over: when nothing but marker-free ASCII text follows
    it, the call never returns. *)
Theorem second_marker_is_consumed :
  (forall fuel self m1 rows m2 rest text1 text2 toks,
      steady (wire (ser self)) = true ->
      wire_bytes (wire (ser self)) = stream_of (m1 :: rows ++ [m2]) ++ rest ->
      no_newline m1 = true -> forallb no_newline rows = true ->
      no_newline m2 = true ->
      line_text (m1 ++ [LF]) = Ok text1 -> contains marker text1 = true ->
      length rows = 7 -> payload_tokens rows = Ok toks ->
      line_text (m2 ++ [LF]) = Ok text2 -> contains marker text2 = true ->
      exists self1,
        one_attempt (S fuel) self = Some (Ok None, self1)
        /\ pending (ser self1) = rest
        /\ read_thermal_data (S fuel) self
           = attempts (S fuel) 9 (with_phase RETRY self1))
  /\ (forall fuel self m1 rows m2 rest text1 text2 toks,
         steady (wire (ser self)) = true ->
         wire_bytes (wire (ser self)) = stream_of (m1 :: rows ++ [m2]) ++ rest ->
         no_newline m1 = true -> forallb no_newline rows = true ->
         no_newline m2 = true ->
         line_text (m1 ++ [LF]) = Ok text1 -> contains marker text1 = true ->
         length rows = 7 -> payload_tokens rows = Ok toks ->
         line_text (m2 ++ [LF]) = Ok text2 -> contains marker text2 = true ->
         ascii_only rest = true -> marker_free rest = true ->
         read_thermal_data (S fuel) self = None).
Proof.
  split.
  - intros fuel self m1 rows m2 rest text1 text2 toks
           Hs E Hm1 Hrows Hm2 Ht1 Hc1 Hlen Htoks Ht2 Hc2.
    destruct (one_attempt_second_marker fuel self m1 rows m2 rest text1 text2
                toks Hs E Hm1 Hrows Hm2 Ht1 Hc1 Hlen Htoks Ht2 Hc2)
      as (s1 & H1 & E1 & Hs1).
    exists s1. split; [exact H1|]. split; [exact E1|].
    apply attempts_continue. exact H1.
  - intros fuel self m1 rows m2 rest text1 text2 toks
           Hs E Hm1 Hrows Hm2 Ht1 Hc1 Hlen Htoks Ht2 Hc2 Ha Hm.
    apply (second_marker_then_no_marker fuel self m1 rows m2 rest text1 text2
             toks); assumption.
Qed.

Lemma second_marker_is_consumed_witness :
  read_thermal_data 5 (listening scenario_B) = None.
Proof.
  apply (proj2 second_marker_is_consumed 4 (listening scenario_B)
               (list_byte_of_string "Thermal data:") scenario_B_rows
               (list_byte_of_string "Thermal data:") scenario_B_rest
               (str_of_string "Thermal data:") (str_of_string "Thermal data:")
               (repeat (map str_of_string
                          ["1"; "2"; "3"; "4"; "5"; "6"; "7"; "8"]%string) 7));
    vm_compute; reflexivity.
Defined.

(** Why the stream is taken without pauses: with the line silent for the
    length of a read timeout inside the first row, the eight reads of the
    first attempt stop before the second marker line, and the second
    attempt finds it and returns the frame of nines. *)
Lemma paused_second_marker_is_found :
  wire_bytes paused_B = wire_bytes scenario_B
  /\ exists self',
       read_thermal_data 1 (listening paused_B)
       = Some (Ok frame_of_nines, self').
Proof.
  split; [vm_compute; reflexivity|].
  apply returned_frame. vm_compute. reflexivity.
Qed.

(** ** Upsampling *)

Lemma linspace_length start stop num : length (linspace start stop num) = num.
Proof. unfold linspace. rewrite length_map, length_seq. reflexivity. Qed.

Lemma meshgrid_shape {A} (x y : list A) :
  has_shape (length y) (length x) (fst (meshgrid x y))
  /\ has_shape (length y) (length x) (snd (meshgrid x y)).
Proof.
  unfold meshgrid, has_shape; simpl. rewrite !length_map.
  repeat split; apply Forall_forall; intros row Hrow;
    apply in_map_iff in Hrow; destruct Hrow as (yj & E & _); subst;
    [reflexivity|apply length_map].
Qed.

Lemma zeros_shape rows cols : has_shape rows cols (zeros rows cols).
Proof.
  unfold zeros, has_shape. rewrite repeat_length. split; [reflexivity|].
  apply Forall_forall. intros row Hrow. apply repeat_spec in Hrow. subst.
  apply repeat_length.
Qed.

Lemma interpolate_thermal_data_unfold griddata thermal_data :
  interpolate_thermal_data griddata thermal_data
  = match griddata source_points (ravel thermal_data) target_grid cubic with
    | Ok interpolated_data => interpolated_data
    | Raise _ => zeros 80 80
    end.
Proof. reflexivity. Qed.

Lemma target_grid_shape : has_shape 80 80 (fst target_grid).
Proof.
  pose proof (meshgrid_shape (linspace 0 7 80) (linspace 0 7 80)) as [H _].
  rewrite linspace_length in H. exact H.
Qed.

Lemma griddata_flat_shape : shape_preserving griddata_flat.
Proof.
  intros points values Xi Yi m out rows cols [Hr Hc] H.
  unfold griddata_flat in H.
  destruct (length (fst points) =? length values); [|discriminate].
  destruct values as [|v vs]; [discriminate|]. inversion H; subst. simpl.
  split; [apply length_map|].
  apply Forall_forall. intros row Hrow. apply in_map_iff in Hrow.
  destruct Hrow as (r & E & Hin). subst. rewrite length_map.
  rewrite Forall_forall in Hc. apply Hc. exact Hin.
Qed.

(** C5.  For a [griddata] that hands back results of the shape of its
    target grid, [interpolate_thermal_data] returns an 80x80 grid for every
    input: the result of [griddata] when it returns one, the all-zero 80x80
    grid when it raises. *)
Theorem upsample_is_80_by_80 : forall griddata,
  shape_preserving griddata ->
  forall thermal_data,
    has_shape 80 80 (interpolate_thermal_data griddata thermal_data)
    /\ (forall out,
           griddata source_points (ravel thermal_data) target_grid cubic = Ok out ->
           interpolate_thermal_data griddata thermal_data = out)
    /\ (forall e,
           griddata source_points (ravel thermal_data) target_grid cubic = Raise e ->
           interpolate_thermal_data griddata thermal_data = zeros 80 80).
Proof.
  intros griddata Hshape thermal_data.
  rewrite interpolate_thermal_data_unfold.
  destruct (griddata source_points (ravel thermal_data) target_grid cubic)
    as [out|e] eqn:Hg.
  - split; [|split; [intros o E; congruence|discriminate]].
    apply (Hshape source_points (ravel thermal_data)
                  (fst target_grid) (snd target_grid) cubic out).
    + apply target_grid_shape.
    + rewrite <- Hg. reflexivity.
  - split; [apply zeros_shape|]. split; [discriminate|reflexivity].
Qed.

Lemma upsample_is_80_by_80_witness :
  has_shape 80 80 (interpolate_thermal_data griddata_flat frame_1_to_8)
  /\ interpolate_thermal_data griddata_flat [[zero]] = zeros 80 80.
Proof.
  split.
  - apply (upsample_is_80_by_80 griddata_flat griddata_flat_shape frame_1_to_8).
  - apply (proj2 (proj2 (upsample_is_80_by_80 griddata_flat griddata_flat_shape
                                              [[zero]])) ValueError).
    reflexivity.
Defined.

(** ** Ticks *)

Lemma read_thermal_data_images fuel self r self1 :
  read_thermal_data fuel self = Some (r, self1) ->
  heatmap_original self1 = heatmap_original self
  /\ heatmap_interpolated self1 = heatmap_interpolated self.
Proof.
  unfold read_thermal_data. rewrite (port_only_attempts fuel max_attempts self).
  destruct (attempts fuel max_attempts (bare (ser self))) as [[r' s]|];
    simpl; intros H; inversion H; subst. split; reflexivity.
Qed.

Section Ticks.

Variable griddata : griddata_t.
Variable image_error : image_error_t.

(** A tick, case by case. *)
Lemma update_unfold fuel frame self :
  update griddata image_error fuel frame self
  = match read_thermal_data fuel self with
    | None => None
    | Some (Raise _, s1) => Some (Ok [], s1)
    | Some (Ok current_frame, s1) =>
        match image_error HeatmapOriginal current_frame with
        | Some _ => Some (Ok [], s1)
        | None =>
            let s2 := with_array HeatmapOriginal current_frame s1 in
            match image_error HeatmapInterpolated
                              (interpolate_thermal_data griddata current_frame) with
            | Some _ => Some (Ok [], s2)
            | None =>
                Some (Ok [HeatmapOriginal; HeatmapInterpolated],
                      with_array HeatmapInterpolated
                        (interpolate_thermal_data griddata current_frame) s2)
            end
        end
    end.
Proof.
  unfold update, try_except, bind, set_array.
  destruct (read_thermal_data fuel self) as [[[current|e] s1]|];
    [|destruct e; reflexivity|reflexivity].
  destruct (image_error HeatmapOriginal current) as [e|];
    [destruct e; reflexivity|].
  destruct (image_error HeatmapInterpolated _) as [e|];
    [destruct e; reflexivity|reflexivity].
Qed.

Lemma update_no_raise fuel frame :
  raises_only (fun _ => False) (update griddata image_error fuel frame).
Proof.
  intros self e self1. rewrite update_unfold. cbv zeta.
  destruct (read_thermal_data fuel self) as [[[current|e'] s1]|];
    try discriminate.
  destruct (image_error HeatmapOriginal current); [discriminate|].
  destruct (image_error HeatmapInterpolated _); discriminate.
Qed.

Lemma animate_runs_all fuel frames : forall self,
  animate griddata image_error fuel frames self = None
  \/ exists drawn self',
      animate griddata image_error fuel frames self = Some (Ok drawn, self')
      /\ length drawn = length frames.
Proof.
  induction frames as [|frame frames IH]; intros self; simpl.
  - right. exists [], self. split; reflexivity.
  - destruct (update griddata image_error fuel frame self)
      as [[[d|e] s1]|] eqn:Hu.
    + rewrite (bind_Ok _ _ _ _ _ Hu).
      destruct (IH s1) as [Hn|(ds & s2 & Ha & Hl)].
      * left. apply bind_None. exact Hn.
      * right. exists (d :: ds), s2. rewrite (bind_Ok _ _ _ _ _ Ha).
        split; [reflexivity|simpl; rewrite Hl; reflexivity].
    + exfalso. exact (update_no_raise fuel frame self e s1 Hu).
    + left. apply bind_None. exact Hu.
Qed.

End Ticks.

(** C4, counterexample.  A tick on Scenario A with a presenter whose
    interpolated image raises: the error is caught and the tick asks for
    nothing to be redrawn, but the raw image already holds the new frame in
    place of the zeros it held before. *)
Lemma failed_tick_keeps_raw_update :
  interpolated_image_fails HeatmapInterpolated
    (interpolate_thermal_data griddata_flat frame_1_to_8) = Some MemoryError
  /\ exists self',
      update griddata_flat interpolated_image_fails 1 0
             (listening [Recv scenario_A_stream]) = Some (Ok [], self')
      /\ heatmap_original (listening [Recv scenario_A_stream]) = zeros 8 8
      /\ heatmap_original self' = frame_1_to_8
      /\ frame_1_to_8 <> zeros 8 8.
Proof.
  split; [reflexivity|].
  exists (with_array HeatmapOriginal frame_1_to_8
            (with_phase SUCCESS
               (with_phase VALIDATING
                  (with_phase READING_ROWS
                     (with_phase SEARCHING_MARKER (listening [])))))).
  split; [vm_compute; reflexivity|].
  split; [reflexivity|]. split; [reflexivity|]. discriminate.
Qed.

(** C4, as amended.  No exception leaves a tick: a tick in which one is
    raised asks for nothing to be redrawn, and the animation runs the next
    tick from the state the failed one left, through all its frames.  When
    the raw image rejects the frame, both images hold what they held
    before; when the interpolated image rejects its array, the raw image
    has already taken the new frame and keeps it. *)
Theorem tick_errors_are_contained : forall griddata image_error,
  (forall fuel frame self,
      update griddata image_error fuel frame self = None
      \/ exists drawn self',
          update griddata image_error fuel frame self = Some (Ok drawn, self'))
  /\ (forall fuel frame self current self1 e,
         read_thermal_data fuel self = Some (Ok current, self1) ->
         image_error HeatmapOriginal current = Some e ->
         update griddata image_error fuel frame self = Some (Ok [], self1)
         /\ heatmap_original self1 = heatmap_original self
         /\ heatmap_interpolated self1 = heatmap_interpolated self)
  /\ (forall fuel frame self current self1 e,
         read_thermal_data fuel self = Some (Ok current, self1) ->
         image_error HeatmapOriginal current = None ->
         image_error HeatmapInterpolated
                     (interpolate_thermal_data griddata current) = Some e ->
         update griddata image_error fuel frame self
         = Some (Ok [], with_array HeatmapOriginal current self1))
  /\ (forall fuel frame frames self drawn self1,
         update griddata image_error fuel frame self = Some (Ok drawn, self1) ->
         animate griddata image_error fuel (frame :: frames) self
         = bind (animate griddata image_error fuel frames)
                (fun rest => ret (drawn :: rest)) self1)
  /\ (forall fuel num_frames self,
         animate griddata image_error fuel (seq 0 num_frames) self = None
         \/ exists drawn self',
             animate griddata image_error fuel (seq 0 num_frames) self
             = Some (Ok drawn, self')
             /\ length drawn = num_frames).
Proof.
  intros griddata image_error.
  split; [|split; [|split; [|split]]].
  - intros fuel frame self.
    destruct (update griddata image_error fuel frame self)
      as [[[d|e] s1]|] eqn:Hu.
    + right. eauto.
    + exfalso. exact (update_no_raise griddata image_error fuel frame self e s1 Hu).
    + left. reflexivity.
  - intros fuel frame self current self1 e Hr H1. split.
    + rewrite update_unfold, Hr, H1. reflexivity.
    + apply (read_thermal_data_images fuel self (Ok current) self1 Hr).
  - intros fuel frame self current self1 e Hr H1 H2.
    rewrite update_unfold, Hr, H1. cbv zeta. rewrite H2. reflexivity.
  - intros fuel frame frames self drawn self1 Hu. simpl.
    rewrite (bind_Ok _ _ _ _ _ Hu). reflexivity.
  - intros fuel num_frames self.
    destruct (animate_runs_all griddata image_error fuel (seq 0 num_frames) self)
      as [Hn|(ds & s & Ha & Hl)]; [left; exact Hn|].
    right. exists ds, s. rewrite length_seq in Hl. auto.
Qed.

Lemma tick_errors_are_contained_witness :
  update griddata_flat interpolated_image_fails 1 0
         (listening [Recv scenario_A_stream])
  = Some (Ok [], with_array HeatmapOriginal frame_1_to_8
                   (with_phase SUCCESS
                      (with_phase VALIDATING
                         (with_phase READING_ROWS
                            (with_phase SEARCHING_MARKER (listening [])))))).
Proof.
  apply (proj1 (proj2 (proj2 (tick_errors_are_contained
                                griddata_flat interpolated_image_fails)))
               1 0 (listening [Recv scenario_A_stream]) frame_1_to_8 _
               MemoryError); reflexivity.
Defined.

(** * Further properties of the reader and of the tick *)

(** ** Every frame handed back is 8x8 *)

Lemma returns_only_bind {A B} (P : B -> Prop) (c : M A) (k : A -> M B) :
  (forall a, returns_only P (k a)) -> returns_only P (bind c k).
Proof.
  intros Hk self b self1 H. apply bind_inv in H.
  destruct H as [(e & s & _ & E)|(a & s & _ & H)]; [discriminate|].
  exact (Hk a s b self1 H).
Qed.

Lemma convert_payload_returns data_lines :
  returns_only (fun r => match r with
                         | Some frame => has_shape 8 8 frame
                         | None => True
                         end) (convert_payload data_lines).
Proof.
  intros self r self1 H.
  destruct (comprehension py_float (concat data_lines)) as [pixels|e] eqn:Hc.
  - destruct (Nat.eq_dec (length pixels) 64) as [Hlen|Hlen].
    + rewrite (convert_payload_frame _ _ _ Hc Hlen) in H.
      assert (Hshape : has_shape 8 8 (reshape 8 8 pixels))
        by (split; [apply chunks_length|apply chunks_rows; lia]).
      remember (reshape 8 8 pixels) as frame eqn:Ef. clear Ef.
      inversion H; subst. exact Hshape.
    + rewrite (convert_payload_mismatch _ _ _ Hc Hlen) in H.
      inversion H; subst. exact I.
  - rewrite (convert_payload_raise _ _ _ Hc) in H. discriminate.
Qed.

Lemma one_attempt_returns fuel :
  returns_only (fun r => match r with
                         | Some frame => has_shape 8 8 frame
                         | None => True
                         end) (one_attempt fuel).
Proof.
  intros self r self1 H. unfold one_attempt, try_except in H.
  destruct (attempt_body fuel self) as [[[a|e] s]|] eqn:Hb.
  - inversion H; subst. unfold attempt_body in Hb.
    exact (returns_only_bind _ _ _ convert_payload_returns self r self1 Hb).
  - destruct (reader_catches e); inversion H; subst. exact I.
  - discriminate.
Qed.

Lemma returned_frame_is_8_by_8_aux fuel self frame self1 :
  read_thermal_data fuel self = Some (Ok frame, self1) ->
  has_shape 8 8 frame.
Proof.
  revert self frame self1. unfold read_thermal_data.
  induction max_attempts as [|k IH]; intros self frame self1 H; simpl in H.
  - inversion H; subst. apply zeros_shape.
  - apply bind_inv in H.
    destruct H as [(e & s & _ & E)|([f|] & s & H1 & H)]; [discriminate| |].
    + inversion H; subst. exact (one_attempt_returns fuel self (Some frame) self1 H1).
    + exact (IH _ _ _ H).
Qed.

(** X1.  Whatever arrives on the port, a frame returned by
    [read_thermal_data] has eight rows of eight values. *)
Theorem returned_frame_is_8_by_8 : forall fuel self frame self1,
  read_thermal_data fuel self = Some (Ok frame, self1) ->
  has_shape 8 8 frame.
Proof. exact returned_frame_is_8_by_8_aux. Qed.

Lemma returned_frame_is_8_by_8_witness :
  has_shape 8 8 frame_of_nines.
Proof.
  apply (returned_frame_is_8_by_8 20 (listening halting_delivery) frame_of_nines
           (with_phase SUCCESS (with_phase VALIDATING (with_phase READING_ROWS
              (with_phase SEARCHING_MARKER (with_phase RETRY
                 (with_phase VALIDATING (with_phase READING_ROWS
                    (with_phase SEARCHING_MARKER (listening []))))))))));
    vm_compute; reflexivity.
Defined.

(** ** The stream is consumed in order *)

Lemma consumes_ret {A} (a : A) : consumes_in_order (ret a).
Proof. intros self r self1 H. inversion H; subst. exists []. reflexivity. Qed.

Lemma consumes_lift {A} (x : result A) : consumes_in_order (lift x).
Proof. intros self r self1 H. inversion H; subst. exists []. reflexivity. Qed.

Lemma consumes_enter ph : consumes_in_order (enter ph).
Proof. intros self r self1 H. inversion H; subst. exists []. reflexivity. Qed.

Lemma consumes_reset : consumes_in_order ser_reset_input_buffer.
Proof. intros self r self1 H. inversion H; subst. exists []. reflexivity. Qed.

Lemma consumes_readline : consumes_in_order ser_readline.
Proof.
  intros self r self1 H. unfold ser_readline in H.
  destruct (readline (ser self)) as [x p] eqn:Hr. inversion H; subst.
  exact (readline_suffix _ _ _ Hr).
Qed.

Lemma consumes_bind {A B} (c : M A) (k : A -> M B) :
  consumes_in_order c -> (forall a, consumes_in_order (k a)) ->
  consumes_in_order (bind c k).
Proof.
  intros Hc Hk self r self1 H. apply bind_inv in H.
  destruct H as [(e & s & H & E)|(a & s & H & H')].
  - inversion E; subst. exact (Hc _ _ _ H).
  - destruct (Hc _ _ _ H) as (w0 & E0). destruct (Hk a _ _ _ H') as (w1 & E1).
    exists (w0 ++ w1). rewrite E0, E1, app_assoc. reflexivity.
Qed.

Lemma consumes_try_except {A} (body : M A) classes handler :
  consumes_in_order body -> (forall e, consumes_in_order (handler e)) ->
  consumes_in_order (try_except body classes handler).
Proof.
  intros Hb Hh self r self1 H. unfold try_except in H.
  destruct (body self) as [[[a|e] s]|] eqn:Hbody; try discriminate.
  - inversion H; subst. exact (Hb _ _ _ Hbody).
  - destruct (classes e).
    + destruct (Hb _ _ _ Hbody) as (w0 & E0).
      destruct (Hh e _ _ _ H) as (w1 & E1).
      exists (w0 ++ w1). rewrite E0, E1, app_assoc. reflexivity.
    + inversion H; subst. exact (Hb _ _ _ Hbody).
Qed.

Lemma consumes_read_stripped_line : consumes_in_order read_stripped_line.
Proof.
  unfold read_stripped_line.
  apply consumes_bind; [apply consumes_readline|intros raw].
  apply consumes_bind; [apply consumes_lift|intros; apply consumes_ret].
Qed.

Lemma consumes_wait_for_marker fuel : consumes_in_order (wait_for_marker fuel).
Proof.
  induction fuel as [|fuel IH]; simpl.
  - intros self r self1 H. discriminate.
  - apply consumes_bind; [apply consumes_read_stripped_line|intros l].
    destruct (contains marker l); [apply consumes_ret|exact IH].
Qed.

Lemma consumes_read_data_lines n : consumes_in_order (read_data_lines n).
Proof.
  induction n as [|n IH]; simpl.
  - apply consumes_ret.
  - apply consumes_bind; [apply consumes_read_stripped_line|intros l].
    apply consumes_bind; [exact IH|intros; apply consumes_ret].
Qed.

Lemma consumes_one_attempt fuel : consumes_in_order (one_attempt fuel).
Proof.
  unfold one_attempt. apply consumes_try_except; [|intros; apply consumes_ret].
  unfold attempt_body. apply consumes_bind.
  - unfold read_payload.
    repeat (apply consumes_bind; [|intros _]);
      auto using consumes_reset, consumes_enter, consumes_wait_for_marker,
                 consumes_read_data_lines.
  - intros data_lines. unfold convert_payload.
    apply consumes_bind; [apply consumes_enter|intros _].
    apply consumes_bind; [apply consumes_lift|intros pixels].
    destruct (length pixels =? 64); [|apply consumes_ret].
    apply consumes_bind; [apply consumes_enter|intros; apply consumes_ret].
Qed.

Lemma consumes_attempts fuel k : consumes_in_order (attempts fuel k).
Proof.
  induction k as [|k IH]; simpl.
  - apply consumes_ret.
  - apply consumes_bind; [apply consumes_one_attempt|].
    intros [frame|]; [apply consumes_ret|].
    apply consumes_bind; [apply consumes_enter|intros _; exact IH].
Qed.

(** X3.  [read_thermal_data] changes nothing of the object but the port:
    after a call, whatever its outcome, both images hold the arrays they
    held before, and the program points passed were added at the end of the
    history. *)
Theorem read_thermal_data_leaves_images : forall fuel self r self1,
  read_thermal_data fuel self = Some (r, self1) ->
  heatmap_original self1 = heatmap_original self
  /\ heatmap_interpolated self1 = heatmap_interpolated self
  /\ exists passed, protocol_trace self1 = protocol_trace self ++ passed.
Proof.
  intros fuel self r self1. unfold read_thermal_data.
  rewrite (port_only_attempts fuel max_attempts self).
  destruct (attempts fuel max_attempts (bare (ser self))) as [[r' s]|];
    simpl; intros H; inversion H; subst.
  split; [reflexivity|]. split; [reflexivity|].
  exists (protocol_trace s). reflexivity.
Qed.

Lemma read_thermal_data_leaves_images_witness :
  heatmap_original
    (with_phase SUCCESS (with_phase VALIDATING (with_phase READING_ROWS
       (with_phase SEARCHING_MARKER (listening [])))))
  = zeros 8 8.
Proof.
  apply (read_thermal_data_leaves_images 1 (listening [Recv scenario_A_stream])
           (Ok frame_1_to_8)
           (with_phase SUCCESS (with_phase VALIDATING (with_phase READING_ROWS
              (with_phase SEARCHING_MARKER (listening []))))));
    vm_compute; reflexivity.
Defined.

(** ** Reads pass no program point *)

Lemma silent_read_stripped_line : adds_no_phase read_stripped_line.
Proof.
  intros self r self' H.
  unfold read_stripped_line, bind, ser_readline, lift in H.
  destruct (readline (ser self)) as [[raw|e] p];
    [destruct (decode_utf8 raw)|]; inversion H; reflexivity.
Qed.

Lemma silent_wait_for_marker fuel : adds_no_phase (wait_for_marker fuel).
Proof.
  induction fuel as [|fuel IH]; intros self r self' H; simpl in H.
  - discriminate.
  - apply bind_inv in H. destruct H as [(e & s & H & E)|(l & s & H & H')].
    + inversion E; subst. exact (silent_read_stripped_line _ _ _ H).
    + rewrite <- (silent_read_stripped_line _ _ _ H).
      destruct (contains marker l); [inversion H'; reflexivity|].
      exact (IH _ _ _ H').
Qed.

Lemma silent_read_data_lines n : adds_no_phase (read_data_lines n).
Proof.
  induction n as [|n IH]; intros self r self' H; simpl in H.
  - inversion H. reflexivity.
  - apply bind_inv in H. destruct H as [(e & s & H & E)|(l & s & H & H')].
    + inversion E; subst. exact (silent_read_stripped_line _ _ _ H).
    + rewrite <- (silent_read_stripped_line _ _ _ H).
      apply bind_inv in H'.
      destruct H' as [(e & s' & H' & E)|(ls & s' & H' & H'')].
      * inversion E; subst. exact (IH _ _ _ H').
      * inversion H''; subst. exact (IH _ _ _ H').
Qed.

(** ** Lines before the marker *)

Lemma stream_of_app ls ls' : stream_of (ls ++ ls') = stream_of ls ++ stream_of ls'.
Proof. unfold stream_of. rewrite map_app, concat_app. reflexivity. Qed.

Lemma wait_for_marker_skips junk : forall fuel self m rest text,
  steady (wire (ser self)) = true ->
  forallb no_newline junk = true -> forallb skippable junk = true ->
  no_newline m = true ->
  pending (ser self) = stream_of junk ++ m ++ LF :: rest ->
  line_text (m ++ [LF]) = Ok text -> contains marker text = true ->
  exists self', wait_for_marker (length junk + S fuel) self = Some (Ok tt, self')
                /\ pending (ser self') = rest
                /\ steady (wire (ser self')) = true.
Proof.
  induction junk as [|l junk IH]; intros fuel self m rest text Hs Hn Hj Hm E Ht Hc.
  - simpl in E.
    destruct (wait_for_marker_found fuel self m rest text Hs Hm E Ht Hc)
      as (s & H & E' & Hs' & _).
    exists s. auto.
  - simpl in Hn, Hj. apply andb_prop in Hn, Hj.
    destruct Hn as [Hl Hn], Hj as [Hsk Hj].
    change (stream_of (l :: junk) ++ m ++ LF :: rest)
      with (stream_of (l :: junk) ++ (m ++ LF :: rest)) in E.
    rewrite stream_of_cons in E.
    destruct (read_stripped_line_steady self l _ Hs Hl E) as (s1 & H1 & E1 & Hs1).
    unfold skippable in Hsk.
    destruct (line_text (l ++ [LF])) as [t|e] eqn:Hlt; [|discriminate].
    apply negb_true_iff in Hsk.
    destruct (IH fuel s1 m rest text Hs1 Hn Hj Hm E1 Ht Hc)
      as (s2 & H2 & E2 & Hs2).
    exists s2. simpl. rewrite (bind_Ok _ _ _ _ _ H1), Hsk. auto.
Qed.

(** The loop, with at least one attempt to go, on a steady stream that
    holds lines to pass over and then a well-formed frame. *)
Lemma attempts_skip_to_frame k fuel self junk m rows rest text pixels :
  steady (wire (ser self)) = true ->
  wire_bytes (wire (ser self)) = stream_of (junk ++ m :: rows) ++ rest ->
  forallb no_newline junk = true -> forallb skippable junk = true ->
  no_newline m = true -> forallb no_newline rows = true ->
  line_text (m ++ [LF]) = Ok text -> contains marker text = true ->
  length rows = 8 ->
  payload_values rows = Ok pixels -> length pixels = 64 ->
  exists self1,
    attempts (length junk + S fuel) (S k) self
    = Some (Ok (reshape 8 8 pixels), self1)
    /\ pending (ser self1) = rest
    /\ steady (wire (ser self1)) = true
    /\ protocol_trace self1
       = protocol_trace self
         ++ [SEARCHING_MARKER; READING_ROWS; VALIDATING; SUCCESS].
Proof.
  intros Hs E Hnj Hj Hm Hn Ht Hc Hrows Hv Hlen.
  unfold payload_values in Hv.
  destruct (payload_tokens rows) as [data_lines|e] eqn:Htok; [|discriminate].
  simpl in Hv.
  rewrite stream_of_app, <- app_assoc, stream_of_cons in E.
  assert (E0 : pending (ser (searching self))
               = stream_of junk ++ m ++ LF :: (stream_of rows ++ rest))
    by exact E.
  destruct (wait_for_marker_skips junk fuel (searching self) m _ text
              Hs Hnj Hj Hm E0 Ht Hc) as (s1 & H1 & E1 & Hs1).
  destruct (read_data_lines_stream rows (with_phase READING_ROWS s1) rest
              data_lines Hs1 Hn E1 Htok) as (s2 & H2 & E2 & Hs2).
  pose proof (silent_wait_for_marker _ _ _ _ H1) as Htr1.
  pose proof (silent_read_data_lines _ _ _ _ H2) as Htr2.
  exists (with_phase SUCCESS (with_phase VALIDATING s2)).
  split; [|split; [|split]].
  - apply attempts_return. unfold one_attempt, try_except.
    rewrite Hrows in H2.
    rewrite attempt_body_unfold, H1. unfold bind at 1. rewrite H2.
    rewrite (convert_payload_frame _ _ _ Hv Hlen). reflexivity.
  - exact E2.
  - exact Hs2.
  - simpl. rewrite Htr2. simpl. rewrite Htr1. simpl.
    repeat rewrite <- app_assoc. reflexivity.
Qed.

(** X5.  Lines that arrive before the marker line are passed over: on a
    steady stream that holds any number of decodable marker-free lines, then
    a marker line and eight lines with 64 numeric tokens, the first attempt
    returns the frame of these values (given a search bound above the number
    of lines to pass over) and leaves what follows the frame to be read. *)
Theorem lines_before_marker_are_skipped :
  forall fuel self junk m rows rest text pixels,
    steady (wire (ser self)) = true ->
    wire_bytes (wire (ser self)) = stream_of (junk ++ m :: rows) ++ rest ->
    forallb no_newline junk = true -> forallb skippable junk = true ->
    no_newline m = true -> forallb no_newline rows = true ->
    line_text (m ++ [LF]) = Ok text -> contains marker text = true ->
    length rows = 8 ->
    payload_values rows = Ok pixels -> length pixels = 64 ->
    exists self1,
      read_thermal_data (length junk + S fuel) self
      = Some (Ok (reshape 8 8 pixels), self1)
      /\ pending (ser self1) = rest
      /\ protocol_trace self1
         = protocol_trace self
           ++ [SEARCHING_MARKER; READING_ROWS; VALIDATING; SUCCESS].
Proof.
  intros fuel self junk m rows rest text pixels
         Hs E Hnj Hj Hm Hn Ht Hc Hrows Hv Hlen.
  destruct (attempts_skip_to_frame 9 fuel self junk m rows rest text pixels
              Hs E Hnj Hj Hm Hn Ht Hc Hrows Hv Hlen)
    as (s1 & H & E1 & _ & Htr).
  exists s1. auto.
Qed.

Lemma lines_before_marker_are_skipped_witness :
  exists self1,
    read_thermal_data 4 (listening chatter_then_frame)
    = Some (Ok (reshape 8 8 (concat frame_1_to_8)), self1)
    /\ pending (ser self1) = []
    /\ protocol_trace self1
       = protocol_trace (listening chatter_then_frame)
         ++ [SEARCHING_MARKER; READING_ROWS; VALIDATING; SUCCESS].
Proof.
  apply (lines_before_marker_are_skipped 0 (listening chatter_then_frame)
           (map list_byte_of_string
                ["boot ok"; "sensor ready"; "21.5 22.0"]%string)
           (list_byte_of_string "Thermal data:") scenario_A_rows []
           (str_of_string "Thermal data:") (concat frame_1_to_8));
    vm_compute; reflexivity.
Defined.

(** ** Tokens that are not numbers *)

Lemma one_attempt_rejected_token fuel k self data_lines self2 tok :
  read_payload fuel self = Some (Ok data_lines, self2) ->
  In tok (concat data_lines) -> py_float tok = Raise ValueError ->
  one_attempt fuel self = Some (Ok None, with_phase VALIDATING self2)
  /\ attempts fuel (S k) self
     = attempts fuel k (with_phase RETRY (with_phase VALIDATING self2)).
Proof.
  intros Hp Hin Hf.
  assert (H1 : one_attempt fuel self
               = Some (Ok None, with_phase VALIDATING self2)).
  { apply one_attempt_handles with (e := ValueError). unfold attempt_body.
    rewrite (bind_Ok _ _ _ _ _ Hp). apply convert_payload_raise.
    apply (comprehension_rejects py_float ValueError _ tok);
      [intros y e; apply py_float_raises|exact Hin|exact Hf]. }
  split; [exact H1|]. apply attempts_continue. exact H1.
Qed.

(** X6.  An attempt whose eight payload lines hold a token with an ASCII
    character that cannot occur in a float literal (anything but a digit, a
    sign, the point, the underscore and the letters of [e], [inf],
    [infinity] and [nan]) returns no frame, whatever the number of tokens,
    and the loop goes on to its next attempt; a payload line that holds the
    marker always has such a token. *)
Theorem non_numeric_token_is_retried :
  (forall fuel k self data_lines self2 tok c,
      read_payload fuel self = Some (Ok data_lines, self2) ->
      In tok (concat data_lines) ->
      In c tok -> (c < 128)%N -> float_char c = false ->
      one_attempt fuel self = Some (Ok None, with_phase VALIDATING self2)
      /\ attempts fuel (S k) self
         = attempts fuel k (with_phase RETRY (with_phase VALIDATING self2)))
  /\ (forall fuel k self data_lines self2 text,
         read_payload fuel self = Some (Ok data_lines, self2) ->
         In (split text) data_lines -> contains marker text = true ->
         one_attempt fuel self = Some (Ok None, with_phase VALIDATING self2)
         /\ attempts fuel (S k) self
            = attempts fuel k (with_phase RETRY (with_phase VALIDATING self2))).
Proof.
  split.
  - intros fuel k self data_lines self2 tok c Hp Hin Hc _ Hf.
    apply (one_attempt_rejected_token fuel k self data_lines self2 tok Hp Hin).
    exact (py_float_rejects tok c Hc Hf).
  - intros fuel k self data_lines self2 text Hp Hin Hc.
    destruct (marker_line_not_numeric text Hc) as (tok & Ht & Hf).
    apply (one_attempt_rejected_token fuel k self data_lines self2 tok Hp);
      [|exact Hf].
    apply in_concat. exists (split text). split; assumption.
Qed.

Lemma non_numeric_token_is_retried_witness :
  one_attempt 1 (listening scenario_B)
  = Some (Ok None,
          with_phase VALIDATING
            (with_phase READING_ROWS
               (with_phase SEARCHING_MARKER
                  (listening (line_by_line (repeat "9 9 9 9 9 9 9 9"%string 8)))))).
Proof.
  apply (proj1 non_numeric_token_is_retried 1 0 (listening scenario_B)
           (repeat (map str_of_string
                      ["1"; "2"; "3"; "4"; "5"; "6"; "7"; "8"]%string) 7
            ++ [split (str_of_string "Thermal data:")])
           (with_phase READING_ROWS
              (with_phase SEARCHING_MARKER
                 (listening (line_by_line (repeat "9 9 9 9 9 9 9 9"%string 8)))))
           (str_of_string "Thermal")
           104%N).
  - vm_compute. reflexivity.
  - apply in_concat. exists (split (str_of_string "Thermal data:")).
    split; [apply in_or_app; right; left; reflexivity|left; reflexivity].
  - vm_compute. tauto.
  - reflexivity.
  - reflexivity.
Defined.

(** ** Recovery *)

(** X7.  Whatever ended the first attempt without a frame (a fault of the
    port, an undecodable line, a token that is not a number, a wrong token
    count): when what has not yet arrived at that moment comes without
    pause or fault and consists of lines that decode and do not hold the
    marker, then a marker line, then eight lines with 64 numeric tokens,
    the second attempt returns that frame and the call has passed [RETRY]
    once. *)
Theorem retry_recovers_next_frame :
  forall fuel self s1 junk m rows rest text pixels,
    one_attempt (length junk + S fuel) self = Some (Ok None, s1) ->
    steady (wire (ser s1)) = true ->
    wire_bytes (wire (ser s1)) = stream_of (junk ++ m :: rows) ++ rest ->
    forallb no_newline junk = true -> forallb skippable junk = true ->
    no_newline m = true -> forallb no_newline rows = true ->
    line_text (m ++ [LF]) = Ok text -> contains marker text = true ->
    length rows = 8 ->
    payload_values rows = Ok pixels -> length pixels = 64 ->
    exists self2,
      read_thermal_data (length junk + S fuel) self
      = Some (Ok (reshape 8 8 pixels), self2)
      /\ protocol_trace self2
         = protocol_trace s1
           ++ [RETRY; SEARCHING_MARKER; READING_ROWS; VALIDATING; SUCCESS].
Proof.
  intros fuel self s1 junk m rows rest text pixels
         H1 Hs E Hnj Hj Hm Hn Ht Hc Hrows Hv Hlen.
  destruct (attempts_skip_to_frame 8 fuel (with_phase RETRY s1) junk m rows rest
              text pixels Hs E Hnj Hj Hm Hn Ht Hc Hrows Hv Hlen)
    as (s2 & H2 & _ & _ & Htr).
  exists s2. split.
  - unfold read_thermal_data, max_attempts.
    rewrite (attempts_continue _ 9 self s1 H1). exact H2.
  - rewrite Htr. simpl. rewrite <- app_assoc. reflexivity.
Qed.

Lemma retry_recovers_next_frame_witness :
  exists self2,
    read_thermal_data 4 (listening (Recv [xff; LF] :: chatter_then_frame))
    = Some (Ok (reshape 8 8 (concat frame_1_to_8)), self2)
    /\ protocol_trace self2
       = [SEARCHING_MARKER; RETRY; SEARCHING_MARKER; READING_ROWS;
          VALIDATING; SUCCESS].
Proof.
  apply (retry_recovers_next_frame 0
           (listening (Recv [xff; LF] :: chatter_then_frame))
           (with_phase SEARCHING_MARKER (listening chatter_then_frame))
           (map list_byte_of_string
                ["boot ok"; "sensor ready"; "21.5 22.0"]%string)
           (list_byte_of_string "Thermal data:") scenario_A_rows []
           (str_of_string "Thermal data:") (concat frame_1_to_8));
    vm_compute; reflexivity.
Defined.

(** ** The attempt budget *)

Lemma py_float_raises_in_comprehension toks e :
  comprehension py_float toks = Raise e -> e = ValueError.
Proof.
  apply (comprehension_raises py_float (fun x => x = ValueError)).
  intros x e'. apply py_float_raises.
Qed.

Lemma passes_app ph a b : passes ph (a ++ b) = passes ph a + passes ph b.
Proof. unfold passes. rewrite filter_app, length_app. reflexivity. Qed.

(** One attempt passes [SEARCHING_MARKER] once, then the later points as far
    as it gets; [SUCCESS] exactly when it hands back a frame. *)
Lemma one_attempt_history fuel self r s1 :
  one_attempt fuel self = Some (r, s1) ->
  exists t,
    protocol_trace s1 = protocol_trace self ++ t
    /\ ((exists frame, r = Ok (Some frame)) /\ attempt_history true t
        \/ r = Ok None /\ attempt_history false t).
Proof.
  unfold one_attempt, try_except. rewrite attempt_body_unfold.
  destruct (wait_for_marker fuel (searching self)) as [[[u|e] s]|] eqn:Hw;
    [| |discriminate].
  - pose proof (silent_wait_for_marker _ _ _ _ Hw) as Hs.
    unfold bind.
    destruct (read_data_lines 8 (with_phase READING_ROWS s))
      as [[[data_lines|e] s2]|] eqn:Hd; [| |discriminate].
    + pose proof (silent_read_data_lines _ _ _ _ Hd) as Hs2.
      destruct (comprehension py_float (concat data_lines)) as [pixels|e] eqn:Hc.
      * destruct (Nat.eq_dec (length pixels) 64) as [Hlen|Hlen].
        -- rewrite (convert_payload_frame _ _ _ Hc Hlen).
           intros H. inversion H; subst. eexists. split.
           ++ simpl. rewrite Hs2. simpl. rewrite Hs. simpl.
              repeat rewrite <- app_assoc. reflexivity.
           ++ left. split; [eauto|reflexivity].
        -- rewrite (convert_payload_mismatch _ _ _ Hc Hlen).
           intros H. inversion H; subst. eexists. split.
           ++ simpl. rewrite Hs2. simpl. rewrite Hs. simpl.
              repeat rewrite <- app_assoc. reflexivity.
           ++ right. split; [reflexivity|]. right. right. reflexivity.
      * rewrite (convert_payload_raise _ _ _ Hc).
        apply py_float_raises_in_comprehension in Hc. subst e. simpl.
        intros H. inversion H; subst. eexists. split.
        -- simpl. rewrite Hs2. simpl. rewrite Hs. simpl.
           repeat rewrite <- app_assoc. reflexivity.
        -- right. split; [reflexivity|]. right. right. reflexivity.
    + pose proof (silent_read_data_lines _ _ _ _ Hd) as Hs2.
      pose proof (raises_only_read_data_lines 8 _ _ _ Hd) as He.
      unfold caught in He. rewrite He.
      intros H. inversion H; subst. eexists. split.
      * rewrite Hs2. simpl. rewrite Hs. simpl.
        repeat rewrite <- app_assoc. reflexivity.
      * right. split; [reflexivity|]. right. left. reflexivity.
  - pose proof (silent_wait_for_marker _ _ _ _ Hw) as Hs.
    pose proof (raises_only_wait_for_marker fuel _ _ _ Hw) as He.
    unfold caught in He. rewrite He.
    intros H. inversion H; subst. eexists. split.
    + rewrite Hs. reflexivity.
    + right. split; [reflexivity|]. left. reflexivity.
Qed.

Lemma attempts_budget fuel k : forall self r self1,
  attempts fuel k self = Some (r, self1) ->
  exists passed,
    protocol_trace self1 = protocol_trace self ++ passed
    /\ passes SEARCHING_MARKER passed <= k
    /\ ((exists pre, passed = pre ++ [SUCCESS])
        /\ passes RETRY passed + 1 = passes SEARCHING_MARKER passed
        \/ r = Ok (zeros 8 8)
           /\ passes SEARCHING_MARKER passed = k
           /\ passes RETRY passed = k).
Proof.
  induction k as [|k IH]; intros self r self1 H; simpl in H.
  - inversion H; subst. exists []. rewrite app_nil_r.
    split; [reflexivity|]. split; [apply Nat.le_refl|].
    right. split; [reflexivity|]. split; reflexivity.
  - apply bind_inv in H.
    destruct H as [(e & s & H & E)|(a & s & H1 & H)].
    + exfalso. exact (one_attempt_no_raise fuel self e s H).
    + destruct (one_attempt_history fuel self _ s H1)
        as (t & Ht & [((frame & Ea) & Hh)|(Ea & Hh)]);
        injection Ea as Ea; subst a.
      * inversion H; subst. simpl in Hh. subst t.
        exists [SEARCHING_MARKER; READING_ROWS; VALIDATING; SUCCESS].
        split; [exact Ht|]. split; [cbv; lia|].
        left. split; [exists [SEARCHING_MARKER; READING_ROWS; VALIDATING];
                      reflexivity|reflexivity].
      * destruct (IH (with_phase RETRY s) r self1 H)
          as (passed & Hp & Hle & Hcase).
        exists (t ++ RETRY :: passed). split.
        { rewrite Hp. simpl. rewrite Ht. repeat rewrite <- app_assoc.
          reflexivity. }
        assert (Hst : passes SEARCHING_MARKER t = 1 /\ passes RETRY t = 0).
        { simpl in Hh. destruct Hh as [E|[E|E]]; subst t; split; reflexivity. }
        destruct Hst as [Hs1 Hr0].
        rewrite !passes_app, Hs1, Hr0.
        change (passes SEARCHING_MARKER (RETRY :: passed))
          with (passes SEARCHING_MARKER passed).
        change (passes RETRY (RETRY :: passed)) with (S (passes RETRY passed)).
        split; [lia|].
        destruct Hcase as [((pre & Epre) & Hc)|(Er & Hs & Hr)].
        -- left. split; [|lia]. exists (t ++ RETRY :: pre). rewrite Epre.
           rewrite <- app_assoc. reflexivity.
        -- right. split; [exact Er|]. split; lia.
Qed.

(** X8.  A call never makes more than [max_attempts] attempts.  The program
    points it passes end with [SUCCESS], every attempt before the last
    having led to [RETRY]; or all [max_attempts] attempts led to [RETRY] and
    the all-zero frame is returned. *)
Theorem attempt_budget_is_respected : forall fuel self r self1,
  read_thermal_data fuel self = Some (r, self1) ->
  exists passed,
    protocol_trace self1 = protocol_trace self ++ passed
    /\ passes SEARCHING_MARKER passed <= max_attempts
    /\ ((exists pre, passed = pre ++ [SUCCESS])
        /\ passes RETRY passed + 1 = passes SEARCHING_MARKER passed
        \/ r = Ok (zeros 8 8)
           /\ passes SEARCHING_MARKER passed = max_attempts
           /\ passes RETRY passed = max_attempts).
Proof. intros fuel. exact (attempts_budget fuel max_attempts). Qed.

Lemma attempt_budget_is_respected_witness :
  exists passed,
    [SEARCHING_MARKER; READING_ROWS; VALIDATING; RETRY;
     SEARCHING_MARKER; READING_ROWS; VALIDATING; SUCCESS] = [] ++ passed
    /\ passes SEARCHING_MARKER passed <= max_attempts
    /\ ((exists pre, passed = pre ++ [SUCCESS])
        /\ passes RETRY passed + 1 = passes SEARCHING_MARKER passed
        \/ Ok frame_of_nines = Ok (zeros 8 8)
           /\ passes SEARCHING_MARKER passed = max_attempts
           /\ passes RETRY passed = max_attempts).
Proof.
  apply (attempt_budget_is_respected 20 (listening halting_delivery)
           (Ok frame_of_nines)
           (with_phase SUCCESS (with_phase VALIDATING (with_phase READING_ROWS
              (with_phase SEARCHING_MARKER (with_phase RETRY
                 (with_phase VALIDATING (with_phase READING_ROWS
                    (with_phase SEARCHING_MARKER (listening []))))))))));
    vm_compute; reflexivity.
Defined.

(** ** One line per burst *)

Lemma readline_tidy p r p' : tidy p -> readline p = (r, p') -> tidy p'.
Proof.
  intros [Hb Hw]. unfold readline. rewrite Hb. simpl.
  destruct (wire p) as [|ev w]; simpl.
  - intros H. inversion H; subst. split; reflexivity.
  - simpl in Hw. apply andb_prop in Hw. destruct Hw as [Hev Hw].
    destruct ev as [bs| |]; try discriminate. simpl in Hev.
    destruct (break_line bs) as [l [[|b rest]|]]; try discriminate.
    intros H. inversion H; subst. split; [reflexivity|exact Hw].
Qed.

Lemma tidy_ret {A} (a : A) : keeps_tidy (ret a).
Proof. intros self r self1 Ht H. inversion H; subst. exact Ht. Qed.

Lemma tidy_lift {A} (x : result A) : keeps_tidy (lift x).
Proof. intros self r self1 Ht H. inversion H; subst. exact Ht. Qed.

Lemma tidy_enter ph : keeps_tidy (enter ph).
Proof. intros self r self1 Ht H. inversion H; subst. exact Ht. Qed.

Lemma tidy_reset : keeps_tidy ser_reset_input_buffer.
Proof.
  intros self r self1 [_ Hw] H. inversion H; subst. split; [reflexivity|exact Hw].
Qed.

Lemma tidy_readline : keeps_tidy ser_readline.
Proof.
  intros self r self1 Ht H. unfold ser_readline in H.
  destruct (readline (ser self)) as [x p] eqn:Hr. inversion H; subst.
  exact (readline_tidy _ _ _ Ht Hr).
Qed.

Lemma tidy_bind {A B} (c : M A) (k : A -> M B) :
  keeps_tidy c -> (forall a, keeps_tidy (k a)) -> keeps_tidy (bind c k).
Proof.
  intros Hc Hk self r self1 Ht H. apply bind_inv in H.
  destruct H as [(e & s & H & E)|(a & s & H & H')].
  - inversion E; subst. exact (Hc _ _ _ Ht H).
  - exact (Hk a _ _ _ (Hc _ _ _ Ht H) H').
Qed.

Lemma tidy_try_except {A} (body : M A) classes handler :
  keeps_tidy body -> (forall e, keeps_tidy (handler e)) ->
  keeps_tidy (try_except body classes handler).
Proof.
  intros Hb Hh self r self1 Ht H. unfold try_except in H.
  destruct (body self) as [[[a|e] s]|] eqn:Hbody; try discriminate.
  - inversion H; subst. exact (Hb _ _ _ Ht Hbody).
  - destruct (classes e).
    + exact (Hh e _ _ _ (Hb _ _ _ Ht Hbody) H).
    + inversion H; subst. exact (Hb _ _ _ Ht Hbody).
Qed.

Lemma tidy_read_stripped_line : keeps_tidy read_stripped_line.
Proof.
  unfold read_stripped_line.
  apply tidy_bind; [apply tidy_readline|intros raw].
  apply tidy_bind; [apply tidy_lift|intros; apply tidy_ret].
Qed.

Lemma tidy_wait_for_marker fuel : keeps_tidy (wait_for_marker fuel).
Proof.
  induction fuel as [|fuel IH]; simpl.
  - intros self r self1 _ H. discriminate.
  - apply tidy_bind; [apply tidy_read_stripped_line|intros l].
    destruct (contains marker l); [apply tidy_ret|exact IH].
Qed.

Lemma tidy_read_data_lines n : keeps_tidy (read_data_lines n).
Proof.
  induction n as [|n IH]; simpl.
  - apply tidy_ret.
  - apply tidy_bind; [apply tidy_read_stripped_line|intros l].
    apply tidy_bind; [exact IH|intros; apply tidy_ret].
Qed.

Lemma tidy_one_attempt fuel : keeps_tidy (one_attempt fuel).
Proof.
  unfold one_attempt. apply tidy_try_except; [|intros; apply tidy_ret].
  unfold attempt_body. apply tidy_bind.
  - unfold read_payload.
    repeat (apply tidy_bind; [|intros _]);
      auto using tidy_reset, tidy_enter, tidy_wait_for_marker,
                 tidy_read_data_lines.
  - intros data_lines. unfold convert_payload.
    apply tidy_bind; [apply tidy_enter|intros _].
    apply tidy_bind; [apply tidy_lift|intros pixels].
    destruct (length pixels =? 64); [|apply tidy_ret].
    apply tidy_bind; [apply tidy_enter|intros; apply tidy_ret].
Qed.

Lemma tidy_attempts fuel k : keeps_tidy (attempts fuel k).
Proof.
  induction k as [|k IH]; simpl.
  - apply tidy_ret.
  - apply tidy_bind; [apply tidy_one_attempt|].
    intros [frame|]; [apply tidy_ret|].
    apply tidy_bind; [apply tidy_enter|intros _; exact IH].
Qed.

Lemma line_bursts_steady w : line_bursts w = true -> steady w = true.
Proof.
  induction w as [|ev w IH]; simpl; intros H; [reflexivity|].
  apply andb_prop in H. destruct H as [Hev Hw]. rewrite (IH Hw).
  destruct ev; [reflexivity|discriminate..].
Qed.

(** X9.  Successive calls return successive frames: when every line arrives
    as a burst of its own and the wire holds two well-formed frames, each
    possibly preceded by lines to pass over, the first call returns the
    first frame and the call after it returns the second. *)
Theorem successive_calls_return_successive_frames :
  forall fuel self junk1 m1 rows1 text1 pixels1
         junk2 m2 rows2 text2 pixels2 rest,
    line_bursts (wire (ser self)) = true ->
    wire_bytes (wire (ser self))
    = stream_of (junk1 ++ m1 :: rows1)
      ++ stream_of (junk2 ++ m2 :: rows2) ++ rest ->
    forallb no_newline junk1 = true -> forallb skippable junk1 = true ->
    no_newline m1 = true -> forallb no_newline rows1 = true ->
    line_text (m1 ++ [LF]) = Ok text1 -> contains marker text1 = true ->
    length rows1 = 8 ->
    payload_values rows1 = Ok pixels1 -> length pixels1 = 64 ->
    forallb no_newline junk2 = true -> forallb skippable junk2 = true ->
    no_newline m2 = true -> forallb no_newline rows2 = true ->
    line_text (m2 ++ [LF]) = Ok text2 -> contains marker text2 = true ->
    length rows2 = 8 ->
    payload_values rows2 = Ok pixels2 -> length pixels2 = 64 ->
    exists self1 self2,
      read_thermal_data (length junk1 + length junk2 + S fuel) self
      = Some (Ok (reshape 8 8 pixels1), self1)
      /\ read_thermal_data (length junk1 + length junk2 + S fuel) self1
         = Some (Ok (reshape 8 8 pixels2), self2)
      /\ pending (ser self2) = rest.
Proof.
  intros fuel self junk1 m1 rows1 text1 pixels1 junk2 m2 rows2 text2 pixels2 rest
         Hb E Hnj1 Hj1 Hm1 Hn1 Ht1 Hc1 Hr1 Hv1 Hl1
         Hnj2 Hj2 Hm2 Hn2 Ht2 Hc2 Hr2 Hv2 Hl2.
  pose proof (line_bursts_steady _ Hb) as Hs.
  replace (length junk1 + length junk2 + S fuel)
    with (length junk1 + S (length junk2 + fuel)) by lia.
  destruct (attempts_skip_to_frame 9 (length junk2 + fuel) self junk1 m1 rows1
              (stream_of (junk2 ++ m2 :: rows2) ++ rest) text1 pixels1
              Hs E Hnj1 Hj1 Hm1 Hn1 Ht1 Hc1 Hr1 Hv1 Hl1)
    as (s1 & H1 & E1 & Hs1 & _).
  assert (Htidy : tidy (ser s1)).
  { apply (tidy_attempts (length junk1 + S (length junk2 + fuel)) 10
             (with_ser (reset_input_buffer (ser self)) self)
             (Ok (reshape 8 8 pixels1)) s1); [split; [reflexivity|exact Hb]|].
    rewrite <- H1. reflexivity. }
  destruct Htidy as [Hbuf _].
  assert (E1' : wire_bytes (wire (ser s1))
                = stream_of (junk2 ++ m2 :: rows2) ++ rest).
  { unfold pending in E1. rewrite Hbuf in E1. exact E1. }
  replace (length junk1 + S (length junk2 + fuel))
    with (length junk2 + S (length junk1 + fuel)) in * by lia.
  destruct (attempts_skip_to_frame 9 (length junk1 + fuel) s1 junk2 m2 rows2
              rest text2 pixels2
              Hs1 E1' Hnj2 Hj2 Hm2 Hn2 Ht2 Hc2 Hr2 Hv2 Hl2)
    as (s2 & H2 & E2 & _ & _).
  exists s1, s2. auto.
Qed.

Lemma successive_calls_return_successive_frames_witness :
  exists self1 self2,
    read_thermal_data 1 (listening steady_delivery)
    = Some (Ok (reshape 8 8 (concat frame_1_to_8)), self1)
    /\ read_thermal_data 1 self1
       = Some (Ok (reshape 8 8 (concat frame_of_nines)), self2)
    /\ pending (ser self2) = [].
Proof.
  apply (successive_calls_return_successive_frames 0
           (listening steady_delivery)
           [] (list_byte_of_string "Thermal data:") scenario_A_rows
           (str_of_string "Thermal data:") (concat frame_1_to_8)
           [] (list_byte_of_string "Thermal data:")
           (map list_byte_of_string (repeat "9 9 9 9 9 9 9 9"%string 8))
           (str_of_string "Thermal data:") (concat frame_of_nines) []);
    vm_compute; reflexivity.
Defined.

(** ** Several frames in one burst *)

Lemma stream_of_cons_length l ls : 0 < length (stream_of (l :: ls)).
Proof.
  unfold stream_of. simpl. rewrite !length_app. simpl. lia.
Qed.

(** X10.  What a burst carries beyond the frame being read stays in the
    input buffer and is dropped when the next call opens its first attempt:
    when a well-formed frame and anything after it (further frames
    included) arrive in a single burst, the call returns the frame, and if
    nothing more arrives the next call never returns. *)
Theorem frames_buffered_behind_a_frame_are_lost :
  forall fuel fuel' self m rows rest text pixels,
    wire (ser self) = [Recv (stream_of (m :: rows) ++ rest)] ->
    no_newline m = true -> forallb no_newline rows = true ->
    line_text (m ++ [LF]) = Ok text -> contains marker text = true ->
    length rows = 8 ->
    payload_values rows = Ok pixels -> length pixels = 64 ->
    exists self1,
      read_thermal_data (S fuel) self = Some (Ok (reshape 8 8 pixels), self1)
      /\ in_buffer (ser self1) = rest
      /\ wire (ser self1) = []
      /\ read_thermal_data fuel' self1 = None.
Proof.
  intros fuel fuel' self m rows rest text pixels Hw Hm Hn Ht Hc Hrows Hv Hlen.
  assert (Hs : steady (wire (ser self)) = true) by (rewrite Hw; reflexivity).
  assert (E : wire_bytes (wire (ser self)) = stream_of ([] ++ m :: rows) ++ rest).
  { rewrite Hw. simpl. rewrite app_nil_r. reflexivity. }
  destruct (attempts_skip_to_frame 9 fuel self [] m rows rest text pixels
              Hs E eq_refl eq_refl Hm Hn Ht Hc Hrows Hv Hlen)
    as (s1 & H1 & E1 & _ & _).
  change (@length bytes [] + S fuel) with (S fuel) in H1.
  destruct (consumes_attempts (S fuel) 10 self _ s1 H1) as (w0 & Ew).
  rewrite Hw in Ew.
  assert (Hwire : wire (ser s1) = []).
  { destruct w0 as [|ev [|ev' w0]].
    - exfalso. simpl in Ew. unfold pending in E1. rewrite <- Ew in E1.
      simpl in E1. rewrite app_nil_r in E1.
      apply (f_equal (@length byte)) in E1. rewrite !length_app in E1.
      pose proof (stream_of_cons_length m rows). lia.
    - simpl in Ew. inversion Ew. reflexivity.
    - simpl in Ew. inversion Ew. }
  exists s1. split; [exact H1|]. split; [|split; [exact Hwire|]].
  - unfold pending in E1. rewrite Hwire in E1. simpl in E1.
    rewrite app_nil_r in E1. exact E1.
  - unfold read_thermal_data, max_attempts.
    apply attempts_hang; rewrite Hwire; reflexivity.
Qed.

Lemma frames_buffered_behind_a_frame_are_lost_witness :
  exists self1,
    read_thermal_data 1 (listening one_burst)
    = Some (Ok (reshape 8 8 (concat frame_1_to_8)), self1)
    /\ in_buffer (ser self1)
       = stream_of (map list_byte_of_string (frame_lines "9 9 9 9 9 9 9 9"))
    /\ wire (ser self1) = []
    /\ read_thermal_data 100 self1 = None.
Proof.
  apply (frames_buffered_behind_a_frame_are_lost 0 100 (listening one_burst)
           (list_byte_of_string "Thermal data:") scenario_A_rows
           (stream_of (map list_byte_of_string (frame_lines "9 9 9 9 9 9 9 9")))
           (str_of_string "Thermal data:") (concat frame_1_to_8));
    vm_compute; reflexivity.
Defined.

(** ** What a tick leaves in the images *)

(** X11.  A tick asks for both images to be redrawn or for nothing.  When it
    asks for both, the raw image holds the 8x8 frame the tick has read and
    the interpolated image holds the upsampling of exactly that frame (80x80
    when [griddata] keeps the shape of its target grid). *)
Theorem tick_updates_both_images_or_none :
  forall griddata image_error fuel frame self drawn self1,
    update griddata image_error fuel frame self = Some (Ok drawn, self1) ->
    drawn = []
    \/ drawn = [HeatmapOriginal; HeatmapInterpolated]
       /\ (exists s, read_thermal_data fuel self
                     = Some (Ok (heatmap_original self1), s))
       /\ has_shape 8 8 (heatmap_original self1)
       /\ heatmap_interpolated self1
          = interpolate_thermal_data griddata (heatmap_original self1)
       /\ (shape_preserving griddata ->
           has_shape 80 80 (heatmap_interpolated self1)).
Proof.
  intros griddata image_error fuel frame self drawn self1.
  rewrite update_unfold.
  destruct (read_thermal_data fuel self) as [[[current|e] s1]|] eqn:Hr;
    [| |discriminate].
  - destruct (image_error HeatmapOriginal current).
    + intros H. inversion H. left. reflexivity.
    + cbv zeta.
      destruct (image_error HeatmapInterpolated
                            (interpolate_thermal_data griddata current)).
      * intros H. inversion H. left. reflexivity.
      * intros H. inversion H; subst. right. simpl.
        split; [reflexivity|]. split; [eauto|].
        split; [exact (returned_frame_is_8_by_8_aux fuel self current s1 Hr)|].
        split; [reflexivity|].
        intros Hg. rewrite interpolate_thermal_data_unfold.
        destruct (griddata source_points (ravel current) target_grid cubic)
          as [out|e'] eqn:Hout; [|apply zeros_shape].
        apply (Hg source_points (ravel current) (fst target_grid)
                  (snd target_grid) cubic out); [apply target_grid_shape|].
        rewrite <- Hout. reflexivity.
  - intros H. inversion H. left. reflexivity.
Qed.

Lemma tick_updates_both_images_or_none_witness :
  [HeatmapOriginal; HeatmapInterpolated] = []
  \/ [HeatmapOriginal; HeatmapInterpolated] = [HeatmapOriginal; HeatmapInterpolated]
     /\ (exists s, read_thermal_data 1 (listening [Recv scenario_A_stream])
                   = Some (Ok frame_1_to_8, s))
     /\ has_shape 8 8 frame_1_to_8
     /\ interpolate_thermal_data griddata_flat frame_1_to_8
        = interpolate_thermal_data griddata_flat frame_1_to_8
     /\ (shape_preserving griddata_flat ->
         has_shape 80 80 (interpolate_thermal_data griddata_flat frame_1_to_8)).
Proof.
  apply (tick_updates_both_images_or_none griddata_flat images_accept 1 0
           (listening [Recv scenario_A_stream])
           [HeatmapOriginal; HeatmapInterpolated]
           (with_array HeatmapInterpolated
              (interpolate_thermal_data griddata_flat frame_1_to_8)
              (with_array HeatmapOriginal frame_1_to_8
                 (with_phase SUCCESS (with_phase VALIDATING
                    (with_phase READING_ROWS
                       (with_phase SEARCHING_MARKER (listening [])))))))).
  vm_compute. reflexivity.
Defined.

(** ** Where the samples and the targets lie *)

Lemma nth_concat_shape {A} (d : A) cols : forall (g : grid A) rows r c,
  has_shape rows cols g -> r < rows -> c < cols ->
  nth (cols * r + c) (concat g) d = nth c (nth r g []) d.
Proof.
  induction g as [|row g IH]; intros rows r c [Hlen Hall] Hr Hc.
  - simpl in Hlen. lia.
  - inversion Hall as [|x l Hrow Hrest]; subst. simpl concat.
    destruct r as [|r].
    + rewrite Nat.mul_0_r. simpl. apply app_nth1. lia.
    + simpl nth. rewrite app_nth2 by lia.
      replace (length row * S r + c - length row) with (length row * r + c) by lia.
      apply (IH (length g)); [split; [reflexivity|exact Hrest]|simpl in Hr; lia|exact Hc].
Qed.

Lemma source_points_flat :
  source_points
  = (map (fun k => inject_Z (Z.of_nat (k mod 8))) (seq 0 64),
     map (fun k => inject_Z (Z.of_nat (k / 8))) (seq 0 64)).
Proof. vm_compute. reflexivity. Qed.

Lemma nth_map_seq {B} (f : nat -> B) (d : B) n k :
  k < n -> nth k (map f (seq 0 n)) d = f k.
Proof.
  intros Hk. rewrite (nth_indep _ d (f 0)) by (rewrite length_map, length_seq; exact Hk).
  rewrite (map_nth f (seq 0 n) 0 k), seq_nth by exact Hk. reflexivity.
Qed.

(** X12.  The sample of row [r], column [c] of a frame is handed to
    [griddata] at the point [(x, y) = (c, r)]: values and coordinates are
    flattened in the same row-major order, and the coordinates are the whole
    numbers 0 to 7. *)
Theorem samples_sit_on_their_grid_points :
  forall (thermal_data : grid pyfloat) r c d,
    has_shape 8 8 thermal_data -> r < 8 -> c < 8 ->
    nth (8 * r + c) (ravel thermal_data) d = nth c (nth r thermal_data []) d
    /\ nth (8 * r + c) (fst source_points) 0%Q = inject_Z (Z.of_nat c)
    /\ nth (8 * r + c) (snd source_points) 0%Q = inject_Z (Z.of_nat r).
Proof.
  intros thermal_data r c d Hshape Hr Hc. split.
  - apply (nth_concat_shape d 8 thermal_data 8); assumption.
  - rewrite source_points_flat. cbn [fst snd].
    assert (Hk : 8 * r + c < 64) by lia.
    rewrite !nth_map_seq by exact Hk.
    replace ((8 * r + c) mod 8) with c
      by (rewrite Nat.add_comm, Nat.mul_comm, Nat.Div0.mod_add;
          symmetry; apply Nat.mod_small; exact Hc).
    replace ((8 * r + c) / 8) with r
      by (rewrite Nat.add_comm, Nat.mul_comm, Nat.div_add by lia;
          rewrite Nat.div_small by exact Hc; reflexivity).
    split; reflexivity.
Qed.

Lemma samples_sit_on_their_grid_points_witness :
  nth (8 * 2 + 5) (ravel frame_1_to_8) zero = nth 5 (nth 2 frame_1_to_8 []) zero
  /\ nth (8 * 2 + 5) (fst source_points) 0%Q = inject_Z (Z.of_nat 5)
  /\ nth (8 * 2 + 5) (snd source_points) 0%Q = inject_Z (Z.of_nat 2).
Proof.
  apply (samples_sit_on_their_grid_points frame_1_to_8 2 5 zero).
  - split; [reflexivity|]. repeat constructor.
  - lia.
  - lia.
Defined.

Lemma target_axis_in_range :
  forallb (fun q => Qle_bool 0 q && Qle_bool q 7) (linspace 0 7 80) = true.
Proof. vm_compute. reflexivity. Qed.

Lemma nth_map_const {A B} (x : B) (d : B) (l : list A) i :
  i < length l -> nth i (map (fun _ => x) l) d = x.
Proof.
  revert i. induction l as [|a l IH]; intros i Hi; simpl in *; [lia|].
  destruct i as [|i]; [reflexivity|]. apply IH. lia.
Qed.

Lemma meshgrid_nth {A} (x y : list A) d i j :
  i < length y -> j < length x ->
  nth j (nth i (fst (meshgrid x y)) []) d = nth j x d
  /\ nth j (nth i (snd (meshgrid x y)) []) d = nth i y d.
Proof.
  intros Hi Hj. unfold meshgrid. cbn [fst snd]. split.
  - rewrite nth_map_const by exact Hi. reflexivity.
  - rewrite (nth_indep _ [] ((fun yj => map (fun _ => yj) x) d))
      by (rewrite length_map; exact Hi).
    rewrite (map_nth (fun yj => map (fun _ => yj) x) y d i).
    apply nth_map_const. exact Hj.
Qed.

(** X13.  Every target coordinate of the upsampling lies between 0 and 7,
    the range the samples span, with the corners of the 80x80 grid on the
    corner samples: the x coordinate depends on the column only, the y
    coordinate on the row only, and both run from exactly 0 to exactly 7. *)
Theorem targets_span_the_sample_range :
  (forall i j,
      i < 80 -> j < 80 ->
      nth j (nth i (fst target_grid) []) 0%Q = nth j (linspace 0 7 80) 0%Q
      /\ nth j (nth i (snd target_grid) []) 0%Q = nth i (linspace 0 7 80) 0%Q
      /\ (0 <= nth j (nth i (fst target_grid) []) 0)%Q
      /\ (nth j (nth i (fst target_grid) []) 0 <= 7)%Q
      /\ (0 <= nth j (nth i (snd target_grid) []) 0)%Q
      /\ (nth j (nth i (snd target_grid) []) 0 <= 7)%Q)
  /\ nth 0 (linspace 0 7 80) 0%Q = 0%Q
  /\ nth 79 (linspace 0 7 80) 0%Q = 7%Q.
Proof.
  split; [|split; vm_compute; reflexivity].
  intros i j Hi Hj.
  destruct (meshgrid_nth (linspace 0 7 80) (linspace 0 7 80) 0%Q i j)
    as [Hx Hy]; [rewrite linspace_length; assumption..|].
  fold target_grid in Hx, Hy.
  split; [exact Hx|]. split; [exact Hy|].
  pose proof target_axis_in_range as Hall. rewrite forallb_forall in Hall.
  assert (Hin : forall k, k < 80 ->
                  (0 <= nth k (linspace 0 7 80) 0)%Q
                  /\ (nth k (linspace 0 7 80) 0 <= 7)%Q).
  { intros k Hk.
    assert (Hk' : In (nth k (linspace 0 7 80) 0%Q) (linspace 0 7 80))
      by (apply nth_In; rewrite linspace_length; exact Hk).
    apply Hall in Hk'. apply andb_prop in Hk'. destruct Hk' as [H0 H7].
    split; apply Qle_bool_imp_le; assumption. }
  rewrite Hx, Hy. destruct (Hin i Hi), (Hin j Hj). auto.
Qed.

Lemma targets_span_the_sample_range_witness :
  nth 79 (nth 0 (fst target_grid) []) 0%Q = nth 79 (linspace 0 7 80) 0%Q
  /\ nth 79 (nth 0 (snd target_grid) []) 0%Q = nth 0 (linspace 0 7 80) 0%Q
  /\ (0 <= nth 79 (nth 0 (fst target_grid) []) 0)%Q
  /\ (nth 79 (nth 0 (fst target_grid) []) 0 <= 7)%Q
  /\ (0 <= nth 79 (nth 0 (snd target_grid) []) 0)%Q
  /\ (nth 79 (nth 0 (snd target_grid) []) 0 <= 7)%Q.
Proof.
  apply (proj1 targets_span_the_sample_range 0 79); lia.
Defined.

(** ** Zeros *)

(** X15.  On a stream that arrives without pause or fault, a well-formed
    frame whose 64 tokens are all literals of zero without a minus sign is
    returned as the all-zero 8x8 grid, the very value a call returns when
    all its attempts have failed: the value returned does not tell a
    genuine all-zero reading from the fallback.  (A token such as [-0] gives
    minus zero, which is not the zero of the fallback.) *)
Theorem zero_frame_equals_fallback :
  forall fuel self m rows rest text other other1,
    steady (wire (ser self)) = true ->
    wire_bytes (wire (ser self)) = stream_of (m :: rows) ++ rest ->
    no_newline m = true -> forallb no_newline rows = true ->
    line_text (m ++ [LF]) = Ok text -> contains marker text = true ->
    length rows = 8 ->
    payload_values rows = Ok (repeat zero 64) ->
    failed_attempts (S fuel) max_attempts other other1 ->
    exists self1 frame,
      read_thermal_data (S fuel) self = Some (Ok frame, self1)
      /\ read_thermal_data (S fuel) other = Some (Ok frame, other1)
      /\ protocol_trace self1
         = protocol_trace self
           ++ [SEARCHING_MARKER; READING_ROWS; VALIDATING; SUCCESS].
Proof.
  intros fuel self m rows rest text other other1 Hs E Hm Hn Ht Hc Hrows Hv Hf.
  assert (E' : wire_bytes (wire (ser self)) = stream_of ([] ++ m :: rows) ++ rest)
    by exact E.
  destruct (attempts_skip_to_frame 9 fuel self [] m rows rest text
              (repeat zero 64) Hs E' eq_refl eq_refl Hm Hn Ht Hc Hrows Hv eq_refl)
    as (s1 & H1 & _ & _ & Htr).
  exists s1, (zeros 8 8). split; [exact H1|]. split; [|exact Htr].
  apply failed_attempts_fallback. exact Hf.
Qed.

Lemma zero_frame_equals_fallback_witness :
  exists self1 frame,
    read_thermal_data 1
      (listening [Recv (stream_of (list_byte_of_string "Thermal data:"
                                   :: zero_rows))])
    = Some (Ok frame, self1)
    /\ read_thermal_data 1 (listening (repeat Fault 10))
       = Some (Ok frame,
               Nat.iter 10 (fun s => with_phase RETRY
                                       (with_phase SEARCHING_MARKER s))
                        (listening []))
    /\ protocol_trace self1
       = protocol_trace
           (listening [Recv (stream_of (list_byte_of_string "Thermal data:"
                                        :: zero_rows))])
         ++ [SEARCHING_MARKER; READING_ROWS; VALIDATING; SUCCESS].
Proof.
  apply (zero_frame_equals_fallback 0
           (listening [Recv (stream_of (list_byte_of_string "Thermal data:"
                                        :: zero_rows))])
           (list_byte_of_string "Thermal data:") zero_rows []
           (str_of_string "Thermal data:")
           (listening (repeat Fault 10))); try (vm_compute; reflexivity).
  unfold max_attempts.
  repeat (eapply failed_next; [vm_compute; reflexivity|]).
  apply failed_none.
Defined.
